(** * Opt-out manager: the consent-state engine of [server.js]

    A shallow embedding of the request handlers of [server.js] that read or
    change the opt-out list and the history log, and of the three send
    endpoints that consult the opt-out list before calling the SMS
    transport.

    Conventions of the embedding.
    - A JavaScript string is a Rocq [string]: the sequence of its code
      units, each below 256 (the Latin-1 range of Unicode).  [trim],
      [toUpperCase] and [toLowerCase] are the built-ins on that range; see
      [upperChar] for the two upper-case forms that are not below 256.
    - How a date is read from a text and the offset of local time are the
      host's; they are the parameters [parseDate] and [LocalTZA].
    - A request field is a [jsval]: absent, [null] or a string, which is
      what the handlers expect to find in a query string or a JSON body.
    - An event time is the number of milliseconds since the epoch, the
      value [new Date(iso).getTime()] has for the text
      [new Date().toISOString()] wrote.
    - The store is the content [readJSON] returns: the cache, which every
      [writeJSON] updates before the handler goes on.  The log buffer of
      [addLog] is not part of the store and is left out.
    - The SMS transport ([fetch] to rest.nexmo.com) is an oracle; a handler
      returns the requests it made next to its response. *)

From Stdlib Require Import Bool List ZArith Lia Ascii String.
From Stdlib Require Import Permutation Sorted.
Import ListNotations.

Local Open Scope string_scope.
Local Open Scope list_scope.

(** ** JavaScript values and string built-ins *)

Inductive jsval : Type :=
| JUndefined
| JNull
| JStr (s : string).

(** [!!v]: the empty string, [null] and [undefined] are falsy. *)
Definition truthy (v : jsval) : bool :=
  match v with
  | JStr s => negb (s =? "")
  | _ => false
  end.

(** [a || b] *)
Definition jsOr (a b : jsval) : jsval := if truthy a then a else b.

(** The character class [[0-9]]. *)
Definition isDigit (c : ascii) : bool :=
  ((48 <=? nat_of_ascii c) && (nat_of_ascii c <=? 57))%nat.

(** [s.replace(/[^0-9]/g, '')] *)
Fixpoint replaceNonDigits (s : string) : string :=
  match s with
  | EmptyString => EmptyString
  | String c r =>
      if isDigit c then String c (replaceNonDigits r) else replaceNonDigits r
  end.

(** [normalizeNumber], server.js l.852:
    [if (!num) return ''; return num.replace(/[^0-9]/g, '');] *)
Definition normalizeNumber (num : jsval) : string :=
  if negb (truthy num) then ""
  else match num with
       | JStr s => replaceNonDigits s
       | _ => ""
       end.

(** White space and line terminators, which [String.prototype.trim]
    removes: of the code units below 256 these are U+0009 to U+000D, the
    space U+0020 and the no-break space U+00A0. *)
Definition isSpace (c : ascii) : bool :=
  let n := nat_of_ascii c in
  (((9 <=? n) && (n <=? 13)) || (n =? 32) || (n =? 160))%nat.

Fixpoint trimStart (s : string) : string :=
  match s with
  | EmptyString => EmptyString
  | String c r => if isSpace c then trimStart r else s
  end.

Fixpoint trimEnd (s : string) : string :=
  match s with
  | EmptyString => EmptyString
  | String c r =>
      match trimEnd r with
      | EmptyString => if isSpace c then EmptyString else String c EmptyString
      | r' => String c r'
      end
  end.

(** [s.trim()] *)
Definition trim (s : string) : string := trimEnd (trimStart s).

(** The upper-case form of a code unit below 256, by the case mappings of
    Unicode: a-z and U+00E0 to U+00FE but the division sign U+00F7 go 32
    down, U+00DF (sharp s) becomes [SS], every other code unit is its own
    upper-case form.  Two upper-case forms are not below 256: U+039C of
    U+00B5 (micro sign) and U+0178 of U+00FF; they are written with the
    code units 181 and 255, which are the upper-case form of no other code
    unit and are nowhere else in an upper-case string, so that two
    upper-case strings are equal, or one a prefix of the other, here
    exactly when they are in [server.js]. *)
Definition upperChar (c : ascii) : string :=
  let n := nat_of_ascii c in
  if (((97 <=? n) && (n <=? 122))
      || ((224 <=? n) && (n <=? 254) && negb (n =? 247)))%nat
  then String (ascii_of_nat (n - 32)) EmptyString
  else if (n =? 223)%nat then "SS"
  else String c EmptyString.

(** [s.toUpperCase()] *)
Fixpoint toUpperCase (s : string) : string :=
  match s with
  | EmptyString => EmptyString
  | String c r => upperChar c ++ toUpperCase r
  end.

(** [s.split(sep)] for a one-character separator: never the empty list,
    ["".split(",")] is [[""]]. *)
Fixpoint split (sep : ascii) (s : string) : list string :=
  match s with
  | EmptyString => [EmptyString]
  | String c r =>
      if Ascii.eqb c sep then EmptyString :: split sep r
      else match split sep r with
           | h :: t => String c h :: t
           | [] => [String c EmptyString]
           end
  end.

(** [s.startsWith(p)] *)
Fixpoint startsWith (s p : string) {struct p} : bool :=
  match p, s with
  | EmptyString, _ => true
  | String a p', String b s' => Ascii.eqb a b && startsWith s' p'
  | String _ _, EmptyString => false
  end.

(** [xs.findIndex(f)]: the index of the first element [f] accepts, [-1]
    when there is none. *)
Fixpoint findIndex {A : Type} (f : A -> bool) (xs : list A) : Z :=
  match xs with
  | [] => (-1)%Z
  | x :: r =>
      if f x then 0%Z
      else let i := findIndex f r in
           if (i <? 0)%Z then (-1)%Z else (i + 1)%Z
  end.

(** [xs.splice(i, 1)] for an index [i >= 0]: the array without its element
    [i]; unchanged when [i] is past the end. *)
Fixpoint removeAt {A : Type} (i : nat) (xs : list A) : list A :=
  match xs, i with
  | [], _ => []
  | _ :: r, O => r
  | x :: r, S j => x :: removeAt j r
  end.

Definition splice1 {A : Type} (i : Z) (xs : list A) : list A :=
  removeAt (Z.to_nat i) xs.

(** ** JSON, for response bodies and for what the transport answers *)

#[warnings="-register-all"]
Inductive json : Type :=
| JsNull
| JsBool (b : bool)
| JsNum (n : Z)
| JsStr (s : string)
| JsArr (items : list json)
| JsObj (fields : list (string * json)).

(** A property of an object literal: [JSON.stringify] leaves out a
    property whose value is [undefined]. *)
Definition prop (k : string) (v : jsval) : list (string * json) :=
  match v with
  | JUndefined => []
  | JNull => [(k, JsNull)]
  | JStr s => [(k, JsStr s)]
  end.

Definition jsonOpt (v : option json) : list json :=
  match v with Some j => [j] | None => [] end.

(** A property whose value was read from parsed JSON, [None] being
    [undefined]. *)
Definition propJ (k : string) (v : option json) : list (string * json) :=
  map (fun j => (k, j)) (jsonOpt v).

Definition jsonTruthy (j : json) : bool :=
  match j with
  | JsNull => false
  | JsBool b => b
  | JsNum n => negb (n =? 0)%Z
  | JsStr s => negb (s =? "")
  | JsArr _ | JsObj _ => true
  end.

Fixpoint assoc (k : string) (fields : list (string * json)) : option json :=
  match fields with
  | [] => None
  | (k', v) :: r => if k' =? k then Some v else assoc k r
  end.

(** [v[k]] for a string key on a value that is not [null]: only objects
    have own properties with such names. *)
Definition getProp (k : string) (v : json) : option json :=
  match v with
  | JsObj fields => assoc k fields
  | _ => None
  end.

(** [v[0]] for a truthy [v]. *)
Definition getFirst (v : json) : option json :=
  match v with
  | JsArr items => hd_error items
  | JsObj fields => assoc "0" fields
  | JsStr (String c _) => Some (JsStr (String c EmptyString))
  | _ => None
  end.

(** [v === '0'] and the like, for a value read from parsed JSON. *)
Definition isJsStr (v : option json) (s : string) : bool :=
  match v with
  | Some (JsStr t) => t =? s
  | _ => false
  end.

Inductive Response : Type :=
| Reply (status : Z) (body : json).

(** [res.json(body)] *)
Definition res_json (body : json) : Response := Reply 200 body.

(** The status text of the codes the server answers with. *)
Definition statusText (code : Z) : string :=
  if (code =? 200)%Z then "OK"
  else if (code =? 400)%Z then "Bad Request"
  else if (code =? 403)%Z then "Forbidden"
  else if (code =? 404)%Z then "Not Found"
  else if (code =? 500)%Z then "Internal Server Error"
  else "".

(** [res.sendStatus(code)], whose body is the status text. *)
Definition sendStatus (code : Z) : Response :=
  Reply code (JsStr (statusText code)).

Definition bodyOf (r : Response) : json :=
  match r with Reply _ b => b end.

(** [l.length] *)
Definition len {A : Type} (l : list A) : json :=
  JsNum (Z.of_nat (List.length l)).

(** ** Data model *)

(** A rule set bound to a receiving number ([config.optoutConfigs]). *)
Record OptOutConfig : Type := mkConfig {
  id : string;
  optoutNumber : string;
  optoutPhrase : string;
  optinPhrase : string
}.

(** An element of the opt-out list: an object, or a bare string in data
    written by an earlier version. *)
Inductive OptOutEntry : Type :=
| OString (s : string)
| OObject (number : string) (configId : string) (originalNumber : jsval).

(** [typeof o === 'string' ? o : o.number] *)
Definition entryNumber (o : OptOutEntry) : jsval :=
  match o with
  | OString s => JStr s
  | OObject number _ _ => JStr number
  end.

Record HistoryEntry : Type := mkHistory {
  number : string;
  action : string;
  timestamp : Z;
  receivedOn : jsval;
  configId : jsval
}.

Record Credentials : Type := mkCredentials {
  apiKey : string;
  apiSecret : string;
  isLocked : bool
}.

(** The four records [readJSON] serves. *)
Record Store : Type := mkStore {
  optoutConfigs : list OptOutConfig;
  credentials : Credentials;
  optouts : list OptOutEntry;
  history : list HistoryEntry
}.

(** [writeJSON("optouts", v)] and [writeJSON("history", v)] *)
Definition writeOptouts (st : Store) (v : list OptOutEntry) : Store :=
  mkStore (optoutConfigs st) (credentials st) v (history st).

Definition writeHistory (st : Store) (v : list HistoryEntry) : Store :=
  mkStore (optoutConfigs st) (credentials st) (optouts st) v.

(** [VONAGE_API_KEY] and [VONAGE_API_SECRET] of the process environment. *)
Record Env : Type := mkEnv {
  ENV_API_KEY : jsval;
  ENV_API_SECRET : jsval
}.

Definition strOf (v : jsval) : string :=
  match v with JStr s => s | _ => "" end.

(** [v || d] for a string [d] *)
Definition orDefault (v : jsval) (d : string) : string :=
  if truthy v then strOf v else d.

(** [getActiveCredentials], l.257: the environment takes priority. *)
Definition getActiveCredentials (env : Env) (st : Store) : Credentials :=
  if truthy (ENV_API_KEY env) && truthy (ENV_API_SECRET env)
  then mkCredentials (strOf (ENV_API_KEY env)) (strOf (ENV_API_SECRET env))
                     true
  else credentials st.

(** ** The opt-out list *)

(** The test every handler applies to an element [o] of the list:
    [normalizeNumber(typeof o === 'string' ? o : o.number) === n] *)
Definition sameNumber (n : string) (o : OptOutEntry) : bool :=
  normalizeNumber (entryNumber o) =? n.

(** [optouts.some(o => ... === n)] *)
Definition isOptedOut (entries : list OptOutEntry) (n : string) : bool :=
  existsb (sameNumber n) entries.

(** [app.get('/api/check/:number')], l.577 *)
Definition get_api_check (st : Store) (param : string) : Response :=
  let number := normalizeNumber (JStr param) in
  let blocked := isOptedOut (optouts st) number in
  res_json (JsObj [("number", JsStr number); ("blocked", JsBool blocked)]).

(** [app.get('/api/optouts')], l.969 *)
Definition get_api_optouts (st : Store) : Response :=
  res_json (JsArr (map (fun o => JsStr (strOf (entryNumber o))) (optouts st))).

Definition success : json := JsObj [("success", JsBool true)].

(** [app.post('/api/optout')], l.977; [now] is the clock reading of
    [new Date()]. *)
Definition post_api_optout (st : Store) (now : Z) (number : jsval)
  : Store * Response :=
  let normalizedNum := normalizeNumber number in
  let exists_ := isOptedOut (optouts st) normalizedNum in
  if negb exists_ then
    let st1 := writeOptouts st
                 (optouts st ++ [OObject normalizedNum "manual" number]) in
    let st2 := writeHistory st1
                 (history st1 ++
                  [mkHistory normalizedNum "optout" now (JStr "manual")
                             JUndefined]) in
    (st2, res_json success)
  else (st, res_json success).

(** [app.post('/api/optin')], l.1001 *)
Definition post_api_optin (st : Store) (now : Z) (number : jsval)
  : Store * Response :=
  let normalizedNum := normalizeNumber number in
  let index := findIndex (sameNumber normalizedNum) (optouts st) in
  if (index >? -1)%Z then
    let st1 := writeOptouts st (splice1 index (optouts st)) in
    let st2 := writeHistory st1
                 (history st1 ++
                  [mkHistory normalizedNum "optin" now (JStr "manual")
                             JUndefined]) in
    (st2, res_json success)
  else (st, res_json success).

(** ** Bulk opt-out and opt-in *)

(** The body of the loop of [app.post('/api/optout/bulk')], l.1041, on the
    arrays [optouts], [history], [results.added], [results.alreadyBlocked]. *)
Definition bulkOptoutStep (ts : Z)
  (acc : list OptOutEntry * list HistoryEntry * list string * list string)
  (number : jsval)
  : list OptOutEntry * list HistoryEntry * list string * list string :=
  let '(optouts, history, added, alreadyBlocked) := acc in
  let normalizedNum := normalizeNumber number in
  if normalizedNum =? "" then acc
  else if negb (isOptedOut optouts normalizedNum) then
    (optouts ++ [OObject normalizedNum "api" number],
     history ++ [mkHistory normalizedNum "optout" ts (JStr "api") JUndefined],
     added ++ [normalizedNum],
     alreadyBlocked)
  else (optouts, history, added, alreadyBlocked ++ [normalizedNum]).

Definition badRequest (message : string) : Response :=
  Reply 400 (JsObj [("error", JsStr message)]).

(** [app.post('/api/optout/bulk')], l.1025.  [numbers] is [None] when the
    field is absent or not an array. *)
Definition post_api_optout_bulk (st : Store) (now : Z)
  (numbers : option (list jsval)) : Store * Response :=
  match numbers with
  | None | Some [] => (st, badRequest "Missing or invalid numbers array")
  | Some numbers =>
      let '(optouts', history', added, alreadyBlocked) :=
        fold_left (bulkOptoutStep now) numbers
                  (optouts st, history st, [], []) in
      let st' := writeHistory (writeOptouts st optouts') history' in
      (st', res_json (JsObj
         [("success", JsBool true);
          ("summary", JsObj [("total", len numbers);
                             ("added", len added);
                             ("alreadyBlocked", len alreadyBlocked)]);
          ("results", JsObj [("added", JsArr (map JsStr added));
                             ("alreadyBlocked",
                              JsArr (map JsStr alreadyBlocked))])]))
  end.

(** The body of the loop of [app.post('/api/optin/bulk')], l.1093, on
    [optouts], [history], [results.removed], [results.notFound]. *)
Definition bulkOptinStep (ts : Z)
  (acc : list OptOutEntry * list HistoryEntry * list string * list string)
  (number : jsval)
  : list OptOutEntry * list HistoryEntry * list string * list string :=
  let '(optouts, history, removed, notFound) := acc in
  let normalizedNum := normalizeNumber number in
  if normalizedNum =? "" then acc
  else
    let index := findIndex (sameNumber normalizedNum) optouts in
    if (index >? -1)%Z then
      (splice1 index optouts,
       history ++ [mkHistory normalizedNum "optin" ts (JStr "api") JUndefined],
       removed ++ [normalizedNum],
       notFound)
    else (optouts, history, removed, notFound ++ [normalizedNum]).

Definition bulkOptinLoop (ts : Z) (numbers : list jsval) (st : Store)
  : list OptOutEntry * list HistoryEntry * list string * list string :=
  fold_left (bulkOptinStep ts) numbers (optouts st, history st, [], []).

(** [app.post('/api/optin/bulk')], l.1077 *)
Definition post_api_optin_bulk (st : Store) (now : Z)
  (numbers : option (list jsval)) : Store * Response :=
  match numbers with
  | None | Some [] => (st, badRequest "Missing or invalid numbers array")
  | Some numbers =>
      let '(optouts', history', removed, notFound) :=
        bulkOptinLoop now numbers st in
      let st' := writeHistory (writeOptouts st optouts') history' in
      (st', res_json (JsObj
         [("success", JsBool true);
          ("summary", JsObj [("total", len numbers);
                             ("removed", len removed);
                             ("notFound", len notFound)]);
          ("results", JsObj [("removed", JsArr (map JsStr removed));
                             ("notFound", JsArr (map JsStr notFound))])]))
  end.

(** ** The inbound webhook *)

(** The query string or body of [/webhooks/inbound-sms]. *)
Record InboundData : Type := mkInbound {
  msisdn : jsval;
  from : jsval;
  to : jsval;
  text : jsval;
  message : jsval
}.

Inductive Class : Type := OPTOUT | OPTIN | NONE.

(** [p.toUpperCase().split(',').map(p => p.trim())], l.902 *)
Definition phraseList (p : string) : list string :=
  map trim (split "," (toUpperCase p)).

(** [text === phrase || text.startsWith(phrase + ' ')], l.907 *)
Definition phraseMatches (text phrase : string) : bool :=
  (text =? phrase) || startsWith text (phrase ++ " ").

(** The branch [handleInboundSMS] takes for the matched configuration,
    l.902-951: the opt-out phrases are tried first. *)
Definition classify (matchingConfig : OptOutConfig) (text : string) : Class :=
  let optoutPhrases := phraseList (optoutPhrase matchingConfig) in
  let optinPhrases := phraseList (optinPhrase matchingConfig) in
  let isOptout := existsb (phraseMatches text) optoutPhrases in
  let isOptin := existsb (phraseMatches text) optinPhrases in
  if isOptout then OPTOUT else if isOptin then OPTIN else NONE.

(** [config.optoutConfigs.find(c => normalizeNumber(c.optoutNumber) ===
    normalizedTo)], l.889: the first configuration of the receiving number. *)
Definition findConfig (configs : list OptOutConfig) (normalizedTo : string)
  : option OptOutConfig :=
  find (fun c => normalizeNumber (JStr (optoutNumber c)) =? normalizedTo)
       configs.

(** The opt-out branch, l.910-931. *)
Definition inboundOptout (st : Store) (timestamp : Z)
  (matchingConfig : OptOutConfig) (normalizedFrom : string) (to : jsval)
  : Store :=
  let optoutEntry := OObject normalizedFrom (id matchingConfig) JUndefined in
  let exists_ := isOptedOut (optouts st) normalizedFrom in
  let st1 := if negb exists_
             then writeOptouts st (optouts st ++ [optoutEntry])
             else st in
  writeHistory st1
    (history st1 ++
     [mkHistory normalizedFrom "optout" timestamp to
                (JStr (id matchingConfig))]).

(** The opt-in branch, l.933-950. *)
Definition inboundOptin (st : Store) (timestamp : Z)
  (matchingConfig : OptOutConfig) (normalizedFrom : string) (to : jsval)
  : Store :=
  let index := findIndex (sameNumber normalizedFrom) (optouts st) in
  let st1 := if (index >? -1)%Z
             then writeOptouts st (splice1 index (optouts st))
             else st in
  writeHistory st1
    (history st1 ++
     [mkHistory normalizedFrom "optin" timestamp to
                (JStr (id matchingConfig))]).

(** [(data.text || data.message || '').trim().toUpperCase()], l.872 *)
Definition inboundText (data : InboundData) : string :=
  toUpperCase (trim (strOf (jsOr (jsOr (text data) (message data)) (JStr "")))).

(** [handleInboundSMS], l.858; [now] is the clock reading of [new Date()]. *)
Definition handleInboundSMS (st : Store) (now : Z) (data : InboundData)
  : Store * Response :=
  let from := jsOr (msisdn data) (from data) in
  let to := to data in
  let text := inboundText data in
  if negb (truthy from) || (text =? "") then (st, sendStatus 200)
  else
    let timestamp := now in
    let normalizedTo := normalizeNumber to in
    let normalizedFrom := normalizeNumber from in
    match findConfig (optoutConfigs st) normalizedTo with
    | None => (st, sendStatus 200)
    | Some matchingConfig =>
        match classify matchingConfig text with
        | OPTOUT =>
            (inboundOptout st timestamp matchingConfig normalizedFrom to,
             sendStatus 200)
        | OPTIN =>
            (inboundOptin st timestamp matchingConfig normalizedFrom to,
             sendStatus 200)
        | NONE => (st, sendStatus 200)
        end
    end.

(** ** The history log: statistics and query *)

Local Open Scope Z_scope.

(** [app.get('/api/stats')], l.1203; [now] is the clock reading. *)
Definition get_api_stats (st : Store) (now : Z) : Response :=
  let twentyFourHoursAgo := now - 24 * 60 * 60 * 1000 in
  let recentHistory :=
    filter (fun item => timestamp item >=? twentyFourHoursAgo) (history st) in
  let optins :=
    filter (fun item => action item =? "optin")%string recentHistory in
  let optouts :=
    filter (fun item => action item =? "optout")%string recentHistory in
  res_json (JsObj [("optins", len optins); ("optouts", len optouts)]).

(** Where [x] goes in an array already ordered newest first: behind every
    element that is not older, so that equal times keep their order. *)
Fixpoint insertNewestFirst (x : HistoryEntry) (l : list HistoryEntry)
  : list HistoryEntry :=
  match l with
  | [] => [x]
  | y :: r =>
      if timestamp y >? timestamp x then y :: insertNewestFirst x r
      else x :: l
  end.

(** [history.sort((a, b) => new Date(b.timestamp) - new Date(a.timestamp))]:
    [Array.prototype.sort] is a stable sort, and a stable sort has one
    result whatever the algorithm. *)
Fixpoint sortNewestFirst (l : list HistoryEntry) : list HistoryEntry :=
  match l with
  | [] => []
  | x :: r => insertNewestFirst x (sortNewestFirst r)
  end.

Section HistoryQuery.

(** [new Date(s).getTime()], [None] for an invalid date. *)
Variable parseDate : string -> option Z.

(** [LocalTZA(t, isUTC)] of ECMAScript: the offset of local time from UTC in
    milliseconds, the one in force at the time value [t] when [isUTC] holds
    and the one the host reads the local time [t] with otherwise.  It is the
    host's, with the time zone and the daylight saving rules it follows. *)
Variable LocalTZA : Z -> bool -> Z.

Definition dayMs : Z := 24 * 60 * 60 * 1000.

Definition LocalTime (t : Z) : Z := t + LocalTZA t true.

Definition UTC (t : Z) : Z := t - LocalTZA t false.

Definition Day (t : Z) : Z := t / dayMs.

Definition MakeTime (hour min sec ms : Z) : Z :=
  hour * 3600000 + min * 60000 + sec * 1000 + ms.

Definition MakeDate (day time : Z) : Z := day * dayMs + time.

(** [None] is [NaN], the time value of an invalid date. *)
Definition TimeClip (time : Z) : option Z :=
  if Z.abs time <=? 8640000000000000 then Some time else None.

(** [d.setHours(hour, min, sec, ms)] for a date of time value [t]: the
    fields of the local time of [t] are replaced, its day is kept. *)
Definition setHours (t hour min sec ms : Z) : option Z :=
  TimeClip (UTC (MakeDate (Day (LocalTime t)) (MakeTime hour min sec ms))).

(** [d = new Date(s); d.setHours(hour, min, sec, ms)] *)
Definition dateAt (s : string) (hour min sec ms : Z) : option Z :=
  match parseDate s with
  | Some t => setHours t hour min sec ms
  | None => None
  end.

(** [new Date(item.timestamp) >= start]: false when [start] is an
    invalid date. *)
Definition notBefore (start : option Z) (item : HistoryEntry) : bool :=
  match start with
  | Some s => timestamp item >=? s
  | None => false
  end.

Definition notAfter (end_ : option Z) (item : HistoryEntry) : bool :=
  match end_ with
  | Some e => timestamp item <=? e
  | None => false
  end.

(** The array [app.get('/api/history')] passes to [res.json], l.1219. *)
Definition historyQuery (history : list HistoryEntry)
  (startDate endDate action_ : jsval) : list HistoryEntry :=
  let history1 :=
    if truthy startDate then
      let start := dateAt (strOf startDate) 0 0 0 0 in
      filter (notBefore start) history
    else history in
  let history2 :=
    if truthy endDate then
      let end_ := dateAt (strOf endDate) 23 59 59 999 in
      filter (notAfter end_) history1
    else history1 in
  let history3 :=
    if truthy action_ && negb (strOf action_ =? "all")%string then
      filter (fun item => action item =? strOf action_)%string history2
    else history2 in
  sortNewestFirst history3.

(** [app.get('/api/history')].  [filter] makes a new array; when no
    filter ran, [sort] reorders the array of the store itself. *)
Definition get_api_history (st : Store) (startDate endDate action_ : jsval)
  : Store * list HistoryEntry :=
  let result := historyQuery (history st) startDate endDate action_ in
  let filtered :=
    truthy startDate || truthy endDate
    || (truthy action_ && negb (strOf action_ =? "all")%string) in
  (if filtered then st else writeHistory st result, result).

End HistoryQuery.

Local Close Scope Z_scope.

(** ** Sending: the opt-out check in front of the transport *)

Module Sms.
(** The JSON body posted to [https://rest.nexmo.com/sms/json]. *)
Record request : Type := mk {
  api_key : string;
  api_secret : string;
  to : string;
  from : string;
  text : string
}.
End Sms.

(** What [await fetch(...)] followed by [await response.json()] gives:
    the parsed body, or an exception with its message. *)
Inductive FetchResult : Type :=
| FetchJson (data : json)
| FetchThrows (message : string).

(** The message of the [TypeError] reading [data.messages] raises when
    [data] is [null]. *)
Definition nullMessagesError : string :=
  "Cannot read properties of null (reading 'messages')".

(** [data.messages && data.messages[0]] when it is truthy, for a [data]
    that is not [null]. *)
Definition firstMessage (data : json) : option json :=
  match getProp "messages" data with
  | Some messages =>
      if jsonTruthy messages then
        match getFirst messages with
        | Some msg => if jsonTruthy msg then Some msg else None
        | None => None
        end
      else None
  | None => None
  end.

Definition errorReply (code : Z) (message : string) : Response :=
  Reply code (JsObj [("error", JsStr message)]).

(** The envelope of [/sms/json] for an error the proxy reports itself. *)
Definition vonageError (status message : string) : Response :=
  res_json (JsObj
    [("message-count", JsStr "1");
     ("messages", JsArr [JsObj [("status", JsStr status);
                                ("error-text", JsStr message)]])]).

Record BulkResults : Type := mkResults {
  sent : list json;
  blocked : list json;
  failed : list json
}.

Section Transport.

(** The answer of the transport to the [k]-th request of a handler run. *)
Variable vonage : nat -> Sms.request -> FetchResult.

Variable env : Env.

(** [app.post('/api/send')], l.590: the response and the requests made. *)
Definition post_api_send (st : Store) (to from text : jsval)
  : Response * list Sms.request :=
  let credentials := getActiveCredentials env st in
  if (apiKey credentials =? "") || (apiSecret credentials =? "") then
    (errorReply 400 "API credentials not configured", [])
  else if negb (truthy to) || negb (truthy from) || negb (truthy text) then
    (errorReply 400 "Missing required fields: to, from, text", [])
  else
    let cleanTo := normalizeNumber to in
    let blocked := isOptedOut (optouts st) cleanTo in
    if blocked then
      (Reply 403 (JsObj [("error", JsStr "Number is opted out");
                         ("to", JsStr cleanTo);
                         ("blocked", JsBool true);
                         ("status", JsStr "rejected")]), [])
    else
      let request :=
        Sms.mk (apiKey credentials) (apiSecret credentials) cleanTo
               (replaceNonDigits (strOf from)) (strOf text) in
      let response :=
        match vonage 0 request with
        | FetchThrows message => errorReply 500 message
        | FetchJson JsNull => errorReply 500 nullMessagesError
        | FetchJson data =>
            match firstMessage data with
            | Some msg =>
                if isJsStr (getProp "status" msg) "0" then
                  res_json (JsObj
                    ([("success", JsBool true); ("to", JsStr cleanTo)]
                     ++ propJ "messageId" (getProp "message-id" msg)
                     ++ [("status", JsStr "sent")]))
                else
                  Reply 400 (JsObj
                    (propJ "error" (getProp "error-text" msg)
                     ++ [("to", JsStr cleanTo); ("status", JsStr "failed")]
                     ++ propJ "errorCode" (getProp "status" msg)))
            | None =>
                Reply 500 (JsObj
                  [("error", JsStr "Unexpected response from Vonage");
                   ("data", data)])
            end
        end in
      (response, [request]).

(** [app.post('/sms/json')], l.667: the wire-compatible endpoint. *)
Definition post_sms_json (st : Store) (api_key api_secret to from text : jsval)
  : Response * list Sms.request :=
  let configuredCreds := getActiveCredentials env st in
  let credApiKey := orDefault api_key (apiKey configuredCreds) in
  let credApiSecret := orDefault api_secret (apiSecret configuredCreds) in
  if (credApiKey =? "") || (credApiSecret =? "") then
    (vonageError "2" "Missing API credentials", [])
  else if negb (truthy to) || negb (truthy from) || negb (truthy text) then
    (vonageError "2" "Missing required fields: to, from, text", [])
  else
    let cleanTo := normalizeNumber to in
    let blocked := isOptedOut (optouts st) cleanTo in
    if blocked then
      (res_json (JsObj
         [("message-count", JsStr "1");
          ("messages", JsArr [JsObj [("to", JsStr cleanTo);
                                     ("status", JsStr "99");
                                     ("error-text",
                                      JsStr "Number is opted out")]])]),
       [])
    else
      let request :=
        Sms.mk credApiKey credApiSecret cleanTo (strOf from) (strOf text) in
      let response :=
        match vonage 0 request with
        | FetchThrows message => vonageError "5" message
        | FetchJson JsNull => vonageError "5" nullMessagesError
        | FetchJson data => res_json data
        end in
      (response, [request]).

(** One turn of the loop of [app.post('/api/send/bulk')], l.787, on
    [results] and on the requests made so far. *)
Definition bulkSendStep (st : Store) (credentials : Credentials)
  (from text : jsval) (acc : BulkResults * list Sms.request)
  (recipient : jsval) : BulkResults * list Sms.request :=
  let '(results, calls) := acc in
  let cleanTo := normalizeNumber recipient in
  if cleanTo =? "" then
    (mkResults (sent results) (blocked results)
       (failed results ++
        [JsObj (prop "to" recipient ++ [("error", JsStr "Invalid number")])]),
     calls)
  else
    let isBlocked := isOptedOut (optouts st) cleanTo in
    if isBlocked then
      (mkResults (sent results)
         (blocked results ++
          [JsObj [("to", JsStr cleanTo); ("reason", JsStr "opted-out")]])
         (failed results),
       calls)
    else
      let request :=
        Sms.mk (apiKey credentials) (apiSecret credentials) cleanTo
               (normalizeNumber from) (strOf text) in
      let failWith fields :=
        mkResults (sent results) (blocked results)
          (failed results ++ [JsObj (("to", JsStr cleanTo) :: fields)]) in
      let results' :=
        match vonage (List.length calls) request with
        | FetchThrows message => failWith [("error", JsStr message)]
        | FetchJson JsNull => failWith [("error", JsStr nullMessagesError)]
        | FetchJson data =>
            match firstMessage data with
            | Some msg =>
                if isJsStr (getProp "status" msg) "0" then
                  mkResults
                    (sent results ++
                     [JsObj (("to", JsStr cleanTo)
                             :: propJ "messageId" (getProp "message-id" msg))])
                    (blocked results) (failed results)
                else
                  failWith (propJ "error" (getProp "error-text" msg)
                            ++ propJ "errorCode" (getProp "status" msg))
            | None => failWith [("error", JsStr "Unexpected response")]
            end
        end in
      (results', calls ++ [request]).

Definition bulkSendLoop (st : Store) (credentials : Credentials)
  (from text : jsval) (recipients : list jsval)
  : BulkResults * list Sms.request :=
  fold_left (bulkSendStep st credentials from text) recipients
            (mkResults [] [] [], []).

Definition bulkSummary (recipients : list jsval) (results : BulkResults)
  : json :=
  JsObj [("summary", JsObj [("total", len recipients);
                            ("sent", len (sent results));
                            ("blocked", len (blocked results));
                            ("failed", len (failed results))]);
         ("results", JsObj [("sent", JsArr (sent results));
                            ("blocked", JsArr (blocked results));
                            ("failed", JsArr (failed results))])].

(** [app.post('/api/send/bulk')], l.763.  [recipients] is [None] when the
    field is absent or not an array. *)
Definition post_api_send_bulk (st : Store) (recipients : option (list jsval))
  (from text : jsval) : Response * list Sms.request :=
  let credentials := getActiveCredentials env st in
  if (apiKey credentials =? "") || (apiSecret credentials =? "") then
    (errorReply 400 "API credentials not configured", [])
  else
    match recipients with
    | None | Some [] =>
        (errorReply 400 "Missing or invalid recipients array", [])
    | Some recipients =>
        if negb (truthy from) || negb (truthy text) then
          (errorReply 400 "Missing required fields: from, text", [])
        else
          let '(results, calls) :=
            bulkSendLoop st credentials from text recipients in
          (res_json (bulkSummary recipients results), calls)
    end.

End Transport.

(** ** Notions the statements below are written in *)

(** [r] is [s] without its characters that are not decimal digits. *)
Inductive NonDigitsRemoved : string -> string -> Prop :=
| ndr_empty : NonDigitsRemoved "" ""
| ndr_keep c s r :
    isDigit c = true -> NonDigitsRemoved s r ->
    NonDigitsRemoved (String c s) (String c r)
| ndr_drop c s r :
    isDigit c = false -> NonDigitsRemoved s r ->
    NonDigitsRemoved (String c s) r.

(** A phrase [P] matches the text [T]: [T] is [P], or starts with [P]
    followed by a space. *)
Definition PhraseMatch (P T : string) : Prop :=
  T = P \/ exists rest, T = (P ++ " " ++ rest)%string.

Definition SomeMatch (phrases : list string) (T : string) : Prop :=
  exists P, In P phrases /\ PhraseMatch P T.

(** Some entry of the opt-out list has the normalized number [n]. *)
Definition OptedOut (entries : list OptOutEntry) (n : string) : Prop :=
  exists o, In o entries /\ normalizeNumber (entryNumber o) = n.

(** The entries of the opt-out list whose normalized number is [n]. *)
Definition entriesOf (n : string) (entries : list OptOutEntry)
  : list OptOutEntry :=
  filter (sameNumber n) entries.

(** No number is in the opt-out list twice. *)
Definition OneEntryPerNumber (entries : list OptOutEntry) : Prop :=
  forall n, (List.length (entriesOf n entries) <= 1)%nat.

(** The history entry the bulk opt-in writes for a number it removed. *)
Definition optinEntry (ts : Z) (n : string) : HistoryEntry :=
  mkHistory n "optin" ts (JStr "api") JUndefined.

(** [entries'] is [entries] without its first entry of the number [n]. *)
Inductive RemovesEntry (n : string)
  : list OptOutEntry -> list OptOutEntry -> Prop :=
| removes_entry before e after :
    (forall x, In x before -> normalizeNumber (entryNumber x) <> n) ->
    normalizeNumber (entryNumber e) = n ->
    RemovesEntry n (before ++ e :: after) (before ++ after).

(** What a bulk opt-in makes of the opt-out list, number by number, and
    what it reports: a number without digits is passed over; a number of
    the list loses its first entry and is reported as removed; another
    number leaves the list as it is and is reported as not found. *)
Inductive OptInRun
  : list jsval -> list OptOutEntry -> list OptOutEntry ->
    list string -> list string -> Prop :=
| run_done entries : OptInRun [] entries entries [] []
| run_skip x numbers entries entries' removed notFound :
    normalizeNumber x = "" ->
    OptInRun numbers entries entries' removed notFound ->
    OptInRun (x :: numbers) entries entries' removed notFound
| run_removed x numbers entries entries1 entries' removed notFound :
    normalizeNumber x <> "" ->
    RemovesEntry (normalizeNumber x) entries entries1 ->
    OptInRun numbers entries1 entries' removed notFound ->
    OptInRun (x :: numbers) entries entries'
             (normalizeNumber x :: removed) notFound
| run_not_found x numbers entries entries' removed notFound :
    normalizeNumber x <> "" ->
    ~ OptedOut entries (normalizeNumber x) ->
    OptInRun numbers entries entries' removed notFound ->
    OptInRun (x :: numbers) entries entries'
             removed (normalizeNumber x :: notFound).

(** How many entries of the history have the action [a] and a time that
    satisfies [when]. *)
Definition countOf (a : string) (when : Z -> bool) (h : list HistoryEntry)
  : Z :=
  Z.of_nat (List.length
              (filter (fun e => (action e =? a) && when (timestamp e)) h)).

(** The closed window of the last 24 hours, and the same without its upper
    end. *)
Definition inLastDay (now t : Z) : bool :=
  ((now - 86400000 <=? t) && (t <=? now))%Z.

Definition sinceLastDay (now t : Z) : bool := (now - 86400000 <=? t)%Z.

Definition statsBody (optins optouts : Z) : json :=
  JsObj [("optins", JsNum optins); ("optouts", JsNum optouts)].

Section HistorySelection.

Variable parseDate : string -> option Z.
Variable LocalTZA : Z -> bool -> Z.

(** The day the local calendar shows at the time [t], counted from the
    epoch. *)
Definition localDay (t : Z) : Z := ((t + LocalTZA t true) / 86400000)%Z.

(** [m] is the time at which the local day [day] reaches [ms] milliseconds
    after 00:00:00.000, as the host places local times, and a time a date
    can hold. *)
Definition IsLocalTime (day ms m : Z) : Prop :=
  (m + LocalTZA (day * 86400000 + ms) false = day * 86400000 + ms /\
   - 8640000000000000 <= m <= 8640000000000000)%Z.




(** All filters of the query as one test. *)
Definition keeps (startDate endDate action_ : jsval) (e : HistoryEntry)
  : bool :=
  (if truthy startDate
   then notBefore (dateAt parseDate LocalTZA (strOf startDate) 0 0 0 0) e
   else true)
  && (if truthy endDate
      then notAfter (dateAt parseDate LocalTZA (strOf endDate) 23 59 59 999)
                    e
      else true)
  && (if truthy action_ && negb (strOf action_ =? "all")
      then action e =? strOf action_
      else true).

End HistorySelection.

(** Newest first. *)
Definition NewerFirst (a b : HistoryEntry) : Prop :=
  (timestamp a >= timestamp b)%Z.

(** The three partitions of a bulk send, and what became of one
    recipient: the partition it went to, the entry reported for it and the
    requests made to the transport for it. *)
Inductive Slot : Type := InSent | InBlocked | InFailed.

Definition slot_eqb (a b : Slot) : bool :=
  match a, b with
  | InSent, InSent | InBlocked, InBlocked | InFailed, InFailed => true
  | _, _ => false
  end.

Record Outcome : Type := mkOutcome {
  slot : Slot;
  entry : json;
  requests : list Sms.request
}.

Definition entriesIn (s : Slot) (outs : list Outcome) : list json :=
  map entry (filter (fun o => slot_eqb (slot o) s) outs).

(** The outcome [o] is the one the bulk send owes the recipient: failed as
    invalid without a request when the number normalizes to nothing,
    blocked without a request when the number is opted out, and otherwise
    sent or failed after one request to the normalized number. *)
Definition Handled (st : Store) (recipient : jsval) (o : Outcome) : Prop :=
  let cleanTo := normalizeNumber recipient in
  (cleanTo = "" ->
   o = mkOutcome InFailed
         (JsObj (prop "to" recipient ++ [("error", JsStr "Invalid number")]))
         []) /\
  (cleanTo <> "" -> OptedOut (optouts st) cleanTo ->
   o = mkOutcome InBlocked
         (JsObj [("to", JsStr cleanTo); ("reason", JsStr "opted-out")]) []) /\
  (cleanTo <> "" -> ~ OptedOut (optouts st) cleanTo ->
   slot o <> InBlocked /\
   exists r, requests o = [r] /\ Sms.to r = cleanTo).

(** [results] after the outcome [o] was pushed. *)
Definition pushOutcome (results : BulkResults) (o : Outcome) : BulkResults :=
  match slot o with
  | InSent => mkResults (sent results ++ [entry o]) (blocked results)
                        (failed results)
  | InBlocked => mkResults (sent results) (blocked results ++ [entry o])
                           (failed results)
  | InFailed => mkResults (sent results) (blocked results)
                          (failed results ++ [entry o])
  end.

(** ** Sample data

    The configuration, numbers and messages of the scenarios the README
    and the specification give. *)

Definition sampleConfig : OptOutConfig :=
  mkConfig "1700000000000" "447418317717" "STOP" "START".

Definition sampleCredentials : Credentials :=
  mkCredentials "abcd1234" "s3cret" true.

(** One configuration, nobody opted out yet. *)
Definition sampleStore : Store :=
  mkStore [sampleConfig] sampleCredentials [] [].

Definition noEnv : Env := mkEnv JUndefined JUndefined.

Definition inboundFrom (sender body : string) : InboundData :=
  mkInbound (JStr sender) JUndefined (JStr "447418317717") (JStr body)
            JUndefined.

(** Opt-out list of an earlier version: bare strings, one number twice in
    two spellings. *)
Definition legacyStore : Store :=
  mkStore [sampleConfig] sampleCredentials
          [OString "+44 7700 900000"; OString "447700900000"] [].

(** The store after [POST /api/optout] with a number without digits. *)
Definition emptyNumberStore : Store :=
  fst (post_api_optout sampleStore 1700000000000 (JStr "abc")).

(** A history with one entry stamped an hour after the reading
    [1700000000000] of the clock. *)
Definition aheadStore : Store :=
  mkStore [sampleConfig] sampleCredentials []
          [mkHistory "447700900000" "optin" 1700003600000 (JStr "manual")
                     JUndefined].

(** A transport that accepts every message. *)
Definition transportOk (k : nat) (r : Sms.request) : FetchResult :=
  FetchJson (JsObj [("message-count", JsStr "1");
                    ("messages",
                     JsArr [JsObj [("to", JsStr (Sms.to r));
                                   ("message-id", JsStr "abc123");
                                   ("status", JsStr "0")]])]).

(** The dates of the sample queries: a date without time is read as
    midnight UTC. *)
Definition sampleParseDate (s : string) : option Z :=
  if s =? "2023-11-14" then Some 1699920000000%Z
  else if s =? "2023-10-29" then Some 1698537600000%Z
  else None.

(** A host on UTC. *)
Definition utcZone (t : Z) (isUTC : bool) : Z := 0%Z.

(** A host on central European time around the end of summer time 2023:
    two hours ahead of UTC until 2023-10-29 01:00 UTC, one hour from then
    on, which makes the local day 2023-10-29 25 hours long.  Local times
    before 03:00 of that day are read as summer time. *)
Definition berlinZone (t : Z) (isUTC : bool) : Z :=
  if isUTC
  then (if t <? 1698541200000 then 7200000 else 3600000)%Z
  else (if t <? 1698548400000 then 7200000 else 3600000)%Z.

(** Three opt-outs on the local day 2023-10-29 of that host, at 00:30, in
    the second 02:30 and at 23:30, and one at 00:30 of the day after. *)
Definition longDayStore : Store :=
  mkStore [sampleConfig] sampleCredentials []
          [mkHistory "447700900001" "optout" 1698532200000 (JStr "manual")
                     JUndefined;
           mkHistory "447700900002" "optout" 1698543000000 (JStr "manual")
                     JUndefined;
           mkHistory "447700900003" "optout" 1698618600000 (JStr "manual")
                     JUndefined;
           mkHistory "447700900004" "optout" 1698622200000 (JStr "manual")
                     JUndefined].

(** The store after the inbound message STOP from 447700900000. *)
Definition blockedStore : Store :=
  fst (handleInboundSMS sampleStore 1700000000000
         (inboundFrom "447700900000" "STOP")).

(** Two numbers opted out, one by hand and one through the API. *)
Definition twoNumbersStore : Store :=
  mkStore [sampleConfig] sampleCredentials
          [OObject "447700900000" "manual" (JStr "+44 7700 900000");
           OObject "447700900001" "api" (JStr "447700900001")] [].

(** A history with an opt-in one hour old, an opt-out two hours old and an
    opt-out 25 hours old at the reading [1700000000000] of the clock. *)
Definition dayStore : Store :=
  mkStore [sampleConfig] sampleCredentials []
          [mkHistory "447700900001" "optout" 1699910000000 (JStr "manual")
                     JUndefined;
           mkHistory "447700900002" "optout" 1699992800000 (JStr "manual")
                     JUndefined;
           mkHistory "447700900002" "optin" 1699996400000 (JStr "manual")
                     JUndefined].

(** * Further handlers and notions

    The handlers of [server.js] around the ones above: the rest of the
    history, configuration, custom sender and log endpoints and
    the storage layer, with the notions their properties are written in. *)

(** [app.delete('/api/history')], l.1246 *)
Definition delete_api_history (st : Store) : Store * Response :=
  (writeHistory st [], res_json success).

(** The entry and the history record the bulk opt-out writes for a number
    it adds. *)
Definition apiEntry (x : jsval) : OptOutEntry :=
  OObject (normalizeNumber x) "api" x.

Definition optoutRecord (ts : Z) (x : jsval) : HistoryEntry :=
  mkHistory (normalizeNumber x) "optout" ts (JStr "api") JUndefined.

Definition nonEmpty (n : string) : bool := negb (n =? "").

(** The payload [data] with another [text]. *)
Definition withText (data : InboundData) (v : jsval) : InboundData :=
  mkInbound (msisdn data) (from data) (to data) v (message data).

(** Every character of [w] is white space. *)
Fixpoint allSpace (w : string) : bool :=
  match w with
  | EmptyString => true
  | String c r => isSpace c && allSpace r
  end.

Definition codeOf (r : Response) : Z :=
  match r with Reply code _ => code end.

(** The first message of what the transport answered, when it answered
    with JSON that has one. *)
Definition answeredWith (answer : FetchResult) (msg : json) : Prop :=
  exists data, answer = FetchJson data /\ firstMessage data = Some msg.

(** A recipient the bulk send has to send to: its number has a digit and
    is not opted out. *)
Definition sendable (st : Store) (n : string) : bool :=
  negb (n =? "") && negb (isOptedOut (optouts st) n).

Definition blockedNumber (st : Store) (n : string) : bool :=
  negb (n =? "") && isOptedOut (optouts st) n.

From Stdlib Require DecimalString.

(** ** The configuration endpoints *)

(** [writeJSON("config", config)] after a change of
    [config.optoutConfigs]. *)
Definition writeConfigs (st : Store) (v : list OptOutConfig) : Store :=
  mkStore v (credentials st) (optouts st) (history st).

(** [Date.now().toString()] for the reading [now] of the clock. *)
Definition dateNowString (now : Z) : string :=
  DecimalString.NilZero.string_of_int (Z.to_int now).

Definition configJson (c : OptOutConfig) : json :=
  JsObj [("id", JsStr (id c));
         ("optoutNumber", JsStr (optoutNumber c));
         ("optoutPhrase", JsStr (optoutPhrase c));
         ("optinPhrase", JsStr (optinPhrase c))].

(** [app.get('/api/configs')], l.1131 *)
Definition get_api_configs (st : Store) : Response :=
  res_json (JsArr (map configJson (optoutConfigs st))).

(** [app.post('/api/configs')], l.1137 *)
Definition post_api_configs (st : Store) (now : Z)
  (optoutNumber optoutPhrase optinPhrase : jsval) : Store * Response :=
  if negb (truthy optoutNumber) then
    (st, errorReply 400 "optoutNumber is required")
  else
    let newConfig :=
      mkConfig (dateNowString now) (strOf optoutNumber)
               (orDefault optoutPhrase "STOP")
               (orDefault optinPhrase "START") in
    (writeConfigs st (optoutConfigs st ++ [newConfig]),
     res_json (JsObj [("success", JsBool true);
                      ("config", configJson newConfig)])).

(** [app.post('/api/config/add')], l.371: the older route, which takes a
    request without number. *)
Definition post_api_config_add (st : Store) (now : Z)
  (optoutNumber optoutPhrase optinPhrase : jsval) : Store * Response :=
  let newConfig :=
    mkConfig (dateNowString now) (orDefault optoutNumber "")
             (orDefault optoutPhrase "STOP")
             (orDefault optinPhrase "START") in
  (writeConfigs st (optoutConfigs st ++ [newConfig]),
   res_json (JsObj [("success", JsBool true);
                    ("config", configJson newConfig)])).

(** [xs[i] = f(xs[i])] for an index within the array. *)
Fixpoint updateAt {A : Type} (i : nat) (f : A -> A) (xs : list A) : list A :=
  match xs, i with
  | [], _ => []
  | x :: r, O => f x :: r
  | x :: r, S j => x :: updateAt j f r
  end.

(** The three assignments of the update, l.1172-1174: a field is replaced
    when the request has a truthy value for it. *)
Definition applyUpdate (newNumber newOptout newOptin : jsval)
  (c : OptOutConfig) : OptOutConfig :=
  mkConfig (id c)
           (orDefault newNumber (optoutNumber c))
           (orDefault newOptout (optoutPhrase c))
           (orDefault newOptin (optinPhrase c)).

(** [app.put('/api/configs/:id')], l.1161 *)
Definition put_api_configs (st : Store) (id_ : string)
  (newNumber newOptout newOptin : jsval) : Store * Response :=
  let index := findIndex (fun c => id c =? id_) (optoutConfigs st) in
  if (index =? -1)%Z then (st, errorReply 404 "Configuration not found")
  else
    let configs' :=
      updateAt (Z.to_nat index) (applyUpdate newNumber newOptout newOptin)
               (optoutConfigs st) in
    (writeConfigs st configs',
     res_json (JsObj
       (("success", JsBool true)
        :: propJ "config"
             (option_map configJson
                         (nth_error configs' (Z.to_nat index)))))).

(** [app.delete('/api/configs/:id')], l.1184.  The filtered array is
    assigned to the configuration object before the length is compared, so
    it is the array of the store on both paths. *)
Definition delete_api_configs (st : Store) (id_ : string)
  : Store * Response :=
  let initialLength := List.length (optoutConfigs st) in
  let configs' := filter (fun c => negb (id c =? id_)) (optoutConfigs st) in
  if (List.length configs' =? initialLength)%nat then
    (writeConfigs st configs', errorReply 404 "Configuration not found")
  else (writeConfigs st configs', res_json success).

(** [app.delete('/api/config/:id')], l.398: the older route, which always
    answers success. *)
Definition delete_api_config (st : Store) (id_ : string) : Store * Response :=
  (writeConfigs st (filter (fun c => negb (id c =? id_)) (optoutConfigs st)),
   res_json success).

(** Every configuration has a number and both phrases. *)
Definition CompleteConfig (c : OptOutConfig) : Prop :=
  optoutNumber c <> "" /\ optoutPhrase c <> "" /\ optinPhrase c <> "".

(** ** Custom senders

    [config.customSenders] is changed by its own endpoints only; they are
    given the array and return it.  An absent array is the empty one: every
    handler that reads it takes [config.customSenders || []] or assigns
    [[]] first, and the delete answers 404 for both. *)

Module Sender.
Record t : Type := mk {
  id : string;
  senderId : string;
  description : string;
  createdAt : Z
}.
End Sender.

Definition isAlnum (c : ascii) : bool :=
  let n := nat_of_ascii c in
  (((97 <=? n) && (n <=? 122)) || ((65 <=? n) && (n <=? 90))
   || ((48 <=? n) && (n <=? 57)))%nat.

Fixpoint allAlnum (s : string) : bool :=
  match s with
  | EmptyString => true
  | String c r => isAlnum c && allAlnum r
  end.

(** [/^[a-zA-Z0-9]{3,11}$/.test(s)] *)
Definition validSenderId (s : string) : bool :=
  ((3 <=? String.length s) && (String.length s <=? 11))%nat && allAlnum s.

(** The lower-case form of a code unit below 256: A-Z and U+00C0 to U+00DE
    but the multiplication sign U+00D7 go 32 up. *)
Definition lowerChar (c : ascii) : ascii :=
  let n := nat_of_ascii c in
  if (((65 <=? n) && (n <=? 90))
      || ((192 <=? n) && (n <=? 222) && negb (n =? 215)))%nat
  then ascii_of_nat (n + 32) else c.

(** [s.toLowerCase()] *)
Fixpoint toLowerCase (s : string) : string :=
  match s with
  | EmptyString => EmptyString
  | String c r => String (lowerChar c) (toLowerCase r)
  end.

(** [customSenders.some(s => s.senderId.toLowerCase() ===
    senderId.toLowerCase())] *)
Definition senderExists (customSenders : list Sender.t) (senderId : string)
  : bool :=
  existsb (fun s => toLowerCase (Sender.senderId s) =? toLowerCase senderId)
          customSenders.

(** What a sender endpoint answers: [res.status(code).json({ error })] or
    [res.json({ success: true, sender })]. *)
Inductive SenderReply : Type :=
| SenderError (code : Z) (error : string)
| SenderAdded (sender : Sender.t).

(** [app.post('/api/senders')], l.455; [now] is the reading of the clock,
    for the id and for [createdAt]. *)
Definition post_api_senders (customSenders : list Sender.t) (now : Z)
  (senderId description : jsval) : list Sender.t * SenderReply :=
  if negb (truthy senderId) then
    (customSenders, SenderError 400 "senderId is required")
  else if negb (validSenderId (strOf senderId)) then
    (customSenders,
     SenderError 400 "Sender ID must be 3-11 alphanumeric characters only")
  else if senderExists customSenders (strOf senderId) then
    (customSenders, SenderError 400 "Sender ID already exists")
  else
    let newSender :=
      Sender.mk (dateNowString now) (strOf senderId)
                (orDefault description "") now in
    (customSenders ++ [newSender], SenderAdded newSender).

(** [app.delete('/api/senders/:id')], l.495 *)
Definition delete_api_senders (customSenders : list Sender.t) (id_ : string)
  : list Sender.t * Response :=
  let initialLength := List.length customSenders in
  let customSenders' :=
    filter (fun s => negb (Sender.id s =? id_)) customSenders in
  if (List.length customSenders' =? initialLength)%nat then
    (customSenders', errorReply 404 "Sender not found")
  else (customSenders', res_json success).

(** A sender id of 3 to 11 letters and digits. *)
Definition ValidSenderId (s : string) : Prop :=
  (3 <= String.length s <= 11)%nat /\
  forall c, In c (list_ascii_of_string s) -> isAlnum c = true.

(** The sender ids are well formed and no two are equal up to case. *)
Definition SendersOk (customSenders : list Sender.t) : Prop :=
  Forall (fun s => ValidSenderId (Sender.senderId s)) customSenders /\
  NoDup (map (fun s => toLowerCase (Sender.senderId s)) customSenders).

(** ** The log buffer *)

Module Log.
Record entry : Type := mk {
  timestamp : Z;
  level : string;
  message : string
}.
End Log.

Definition MAX_LOGS : nat := 500.

(** [xs.slice(-n)]: the last [n] elements, all of them when there are
    fewer. *)
Definition sliceLast {A : Type} (n : nat) (xs : list A) : list A :=
  skipn (List.length xs - n) xs.

(** [addLog(message, level)], l.33, on [inMemoryLogs]. *)
Definition addLog (inMemoryLogs : list Log.entry) (now : Z)
  (message level : string) : list Log.entry :=
  let logs := inMemoryLogs ++ [Log.mk now level message] in
  if (MAX_LOGS <? List.length logs)%nat then sliceLast MAX_LOGS logs
  else logs.

(** [app.delete('/api/logs')], l.301 *)
Definition delete_api_logs (inMemoryLogs : list Log.entry) (now : Z)
  : list Log.entry * Response :=
  (addLog [] now "Logs cleared" "info", res_json success).

(** ** The storage layer

    [readJSON], [writeJSON], [readData], [writeData] and
    [initializeStorage], l.107-254, on the cache, the VCR state when there
    is one and the files.  A stored value is a [json]; [JsNull] in the cache
    is the [null] the cache starts with.  A backend holds under a key the
    text of a value, nothing, or something that cannot be read or parsed; a
    write that throws leaves the backend as it was. *)

Inductive Key : Type := KConfig | KCredentials | KOptouts | KHistory.

Definition Key_eqb (a b : Key) : bool :=
  match a, b with
  | KConfig, KConfig | KCredentials, KCredentials
  | KOptouts, KOptouts | KHistory, KHistory => true
  | _, _ => false
  end.

Inductive Cell : Type :=
| Missing
| Holds (value : json)
| Broken.

Record Storage : Type := mkStorage {
  dataCache : Key -> json;
  vcrState : option (Key -> Cell);
  files : Key -> Cell
}.

(** [table[key] = v] *)
Definition setKey {A : Type} (table : Key -> A) (key : Key) (v : A)
  : Key -> A :=
  fun k => if Key_eqb k key then v else table k.

Definition isNull (j : json) : bool :=
  match j with JsNull => true | _ => false end.

Definition defaultConfig : json :=
  JsObj [("optoutConfigs", JsArr []); ("customSenders", JsArr [])].

(** [defaultCredentials], l.92 *)
Definition defaultCredentials (env : Env) : json :=
  if truthy (ENV_API_KEY env) && truthy (ENV_API_SECRET env) then
    JsObj [("apiKey", JsStr (strOf (ENV_API_KEY env)));
           ("apiSecret", JsStr (strOf (ENV_API_SECRET env)));
           ("isLocked", JsBool true)]
  else
    JsObj [("apiKey", JsStr ""); ("apiSecret", JsStr "");
           ("isLocked", JsBool false)].

Definition defaults (env : Env) (key : Key) : json :=
  match key with
  | KConfig => defaultConfig
  | KCredentials => defaultCredentials env
  | KOptouts => JsArr []
  | KHistory => JsArr []
  end.

(** [readJSON(key)], l.222: the cache, else the file, else the default;
    the VCR state is not asked. *)
Definition readJSON (s : Storage) (env : Env) (key : Key) : json :=
  if negb (isNull (dataCache s key)) then dataCache s key
  else match files s key with
       | Holds value => value
       | _ => defaults env key
       end.

(** [await readData(key)], l.116: the storage afterwards and the value. *)
Definition readData (s : Storage) (env : Env) (key : Key) : Storage * json :=
  if negb (isNull (dataCache s key)) then (s, dataCache s key)
  else
    let fromFile :=
      match files s key with
      | Holds value =>
          (mkStorage (setKey (dataCache s) key value) (vcrState s) (files s),
           value)
      | _ => (s, defaults env key)
      end in
    match vcrState s with
    | Some state =>
        match state key with
        | Holds value =>
            (mkStorage (setKey (dataCache s) key value) (vcrState s) (files s),
             value)
        | _ => fromFile
        end
    | None => fromFile
    end.

(** [await writeData(key, data)], l.163; [vcrOk] and [fileOk] tell whether
    the write to the VCR state and the write of the file go through. *)
Definition writeData (s : Storage) (key : Key) (data : json)
  (vcrOk fileOk : bool) : Storage * bool :=
  let cache := setKey (dataCache s) key data in
  let toFile :=
    if fileOk then
      (mkStorage cache (vcrState s) (setKey (files s) key (Holds data)), true)
    else (mkStorage cache (vcrState s) (files s), false) in
  match vcrState s with
  | Some state =>
      if vcrOk then
        (mkStorage cache (Some (setKey state key (Holds data))) (files s), true)
      else toFile
  | None => toFile
  end.

(** [writeJSON(key, data)], l.251, once the write it fires has run. *)
Definition writeJSON (s : Storage) (key : Key) (data : json)
  (vcrOk fileOk : bool) : Storage :=
  fst (writeData s key data vcrOk fileOk).

(** [!v] for a value read from parsed JSON, [None] being [undefined]. *)
Definition falsyProp (v : option json) : bool :=
  match v with
  | Some j => negb (jsonTruthy j)
  | None => true
  end.

(** [!x.k] for a truthy [x]. *)
Definition lacks (k : string) (x : json) : bool := falsyProp (getProp k x).

(** One step of [initializeStorage]: read the key, and write [value] when
    [bad] holds of what was read. *)
Definition initKey (env : Env) (oks : Key -> bool * bool) (key : Key)
  (bad : json -> bool) (value : json) (s : Storage) : Storage :=
  let '(s1, data) := readData s env key in
  if bad data then
    fst (writeData s1 key value (fst (oks key)) (snd (oks key)))
  else s1.

(** [await initializeStorage()], l.196; [oks] tells for each key whether
    the writes go through. *)
Definition initializeStorage (s : Storage) (env : Env)
  (oks : Key -> bool * bool) : Storage :=
  let s1 :=
    initKey env oks KConfig
      (fun config => negb (jsonTruthy config) || lacks "optoutConfigs" config)
      defaultConfig s in
  let s2 :=
    initKey env oks KCredentials
      (fun credentials =>
         negb (jsonTruthy credentials)
         || (lacks "apiKey" credentials && negb (truthy (ENV_API_KEY env))))
      (defaultCredentials env) s1 in
  let s3 :=
    initKey env oks KOptouts (fun optouts => negb (jsonTruthy optouts))
            (JsArr []) s2 in
  initKey env oks KHistory (fun history => negb (jsonTruthy history))
          (JsArr []) s3.

(** * Properties *)

(** ** Strings *)

Lemma replaceNonDigits_removed s : NonDigitsRemoved s (replaceNonDigits s).
Proof.
  induction s as [|c s IH]; simpl.
  - constructor.
  - destruct (isDigit c) eqn:E; now constructor.
Qed.

Lemma NonDigitsRemoved_fun s r :
  NonDigitsRemoved s r -> r = replaceNonDigits s.
Proof.
  induction 1 as [|c s r E _ IH|c s r E _ IH]; simpl; try rewrite E;
    congruence.
Qed.

Lemma replaceNonDigits_idem s :
  replaceNonDigits (replaceNonDigits s) = replaceNonDigits s.
Proof.
  induction s as [|c s IH]; simpl; [reflexivity|].
  destruct (isDigit c) eqn:E; simpl; [rewrite E, IH|]; auto.
Qed.

Lemma normalizeNumber_str s : normalizeNumber (JStr s) = replaceNonDigits s.
Proof.
  unfold normalizeNumber; simpl.
  destruct s; reflexivity.
Qed.

Lemma normalizeNumber_idem x :
  normalizeNumber (JStr (normalizeNumber x)) = normalizeNumber x.
Proof.
  rewrite normalizeNumber_str.
  destruct x as [| |s]; try reflexivity.
  rewrite normalizeNumber_str. apply replaceNonDigits_idem.
Qed.

(** C6. [normalizeNumber] returns its argument without the characters that
    are not decimal digits, the empty string for [null], [undefined] and
    the empty string, and applying it twice is applying it once. *)
Theorem normalizeNumber_strips_and_is_idempotent :
  (forall x, NonDigitsRemoved x (normalizeNumber (JStr x))) /\
  normalizeNumber JNull = "" /\
  normalizeNumber JUndefined = "" /\
  normalizeNumber (JStr "") = "" /\
  (forall x, normalizeNumber (JStr (normalizeNumber x)) = normalizeNumber x).
Proof.
  repeat split; try reflexivity.
  - intro x. rewrite normalizeNumber_str. apply replaceNonDigits_removed.
  - apply normalizeNumber_idem.
Qed.

Lemma startsWith_prefix s p :
  startsWith s p = true <-> exists rest, s = (p ++ rest)%string.
Proof.
  revert s; induction p as [|a p IH]; intro s; simpl.
  - split; [intros _; now exists s | reflexivity].
  - destruct s as [|b s].
    + split; [discriminate | intros [rest H]; discriminate].
    + rewrite andb_true_iff, Ascii.eqb_eq, IH. split.
      * intros [-> [rest ->]]. now exists rest.
      * intros [rest H]. injection H as -> ->. split; [reflexivity|].
        now exists rest.
Qed.

Lemma append_assoc (a b c : string) :
  ((a ++ b) ++ c = a ++ (b ++ c))%string.
Proof. induction a as [|x a IH]; simpl; [reflexivity | now rewrite IH]. Qed.

Lemma phraseMatches_spec T P : phraseMatches T P = true <-> PhraseMatch P T.
Proof.
  unfold phraseMatches, PhraseMatch.
  rewrite orb_true_iff, String.eqb_eq, startsWith_prefix.
  split; (intros [H | [rest H]]; [now left | right; exists rest]).
  - now rewrite H, append_assoc.
  - now rewrite H, append_assoc.
Qed.

Lemma existsb_phraseMatches T phrases :
  existsb (phraseMatches T) phrases = true <-> SomeMatch phrases T.
Proof.
  unfold SomeMatch. rewrite existsb_exists.
  split; intros [P [HP HM]]; exists P; split; auto;
    now apply phraseMatches_spec.
Qed.

Lemma classify_spec mc T :
  let outs := phraseList (optoutPhrase mc) in
  let ins := phraseList (optinPhrase mc) in
  (classify mc T = OPTOUT <-> SomeMatch outs T) /\
  (classify mc T = OPTIN <-> ~ SomeMatch outs T /\ SomeMatch ins T) /\
  (classify mc T = NONE <-> ~ SomeMatch outs T /\ ~ SomeMatch ins T).
Proof.
  intros outs ins. unfold classify. fold outs. fold ins.
  pose proof (existsb_phraseMatches T outs) as Ho.
  pose proof (existsb_phraseMatches T ins) as Hi.
  destruct (existsb (phraseMatches T) outs);
    destruct (existsb (phraseMatches T) ins);
    repeat split; try discriminate; try tauto;
    try (intros [? ?]; exfalso; intuition congruence);
    try (intros ?; intuition congruence).
Qed.

(** ** The opt-out list: membership, first index, removal *)

Lemma isOptedOut_spec entries n :
  isOptedOut entries n = true <-> OptedOut entries n.
Proof.
  unfold isOptedOut, OptedOut, sameNumber. rewrite existsb_exists.
  split; intros [o [Hin H]]; exists o; split; auto;
    now apply String.eqb_eq.
Qed.

Lemma isOptedOut_false entries n :
  isOptedOut entries n = false <-> ~ OptedOut entries n.
Proof.
  rewrite <- isOptedOut_spec. destruct (isOptedOut entries n); split;
    congruence.
Qed.

Lemma findIndex_range {A} (f : A -> bool) xs :
  (-1 <= findIndex f xs < Z.of_nat (List.length xs))%Z.
Proof.
  induction xs as [|x xs IH]; simpl; [lia|].
  destruct (f x); [lia|].
  destruct (Z.ltb_spec (findIndex f xs) 0); lia.
Qed.

Lemma findIndex_none {A} (f : A -> bool) xs :
  (findIndex f xs >? -1)%Z = false <-> existsb f xs = false.
Proof.
  induction xs as [|x xs IH]; simpl; [tauto|].
  destruct (f x); simpl; [split; discriminate|].
  rewrite <- IH. pose proof (findIndex_range f xs).
  destruct (Z.ltb_spec (findIndex f xs) 0);
    destruct (Z.gtb_spec (findIndex f xs) (-1));
    destruct (Z.gtb_spec (findIndex f xs + 1) (-1));
    simpl; split; intro; try reflexivity; try discriminate; lia.
Qed.

Lemma findIndex_some {A} (f : A -> bool) xs :
  (findIndex f xs >? -1)%Z = true <-> existsb f xs = true.
Proof.
  pose proof (findIndex_none f xs) as H.
  destruct (findIndex f xs >? -1)%Z, (existsb f xs); intuition congruence.
Qed.

(** Removing the first element [f] accepts takes one element out of those
    [f] accepts and leaves the others. *)
Lemma splice_first_filter {A} (f g : A -> bool) xs :
  existsb f xs = true ->
  (forall x, f x = true -> g x = true) ->
  S (List.length (filter g (splice1 (findIndex f xs) xs)))
  = List.length (filter g xs).
Proof.
  intros He Hfg. unfold splice1.
  induction xs as [|x xs IH]; simpl in *; [discriminate|].
  destruct (f x) eqn:Fx; simpl.
  - now rewrite (Hfg x Fx).
  - pose proof (findIndex_range f xs) as R.
    pose proof (findIndex_none f xs) as N.
    destruct (Z.ltb_spec (findIndex f xs) 0) as [Hlt|Hge].
    + exfalso. assert ((findIndex f xs >? -1)%Z = false) as E
        by (destruct (Z.gtb_spec (findIndex f xs) (-1)); [lia|reflexivity]).
      apply N in E. simpl in He. congruence.
    + simpl in He. replace (Z.to_nat (findIndex f xs + 1))
        with (S (Z.to_nat (findIndex f xs))) by lia.
      simpl. destruct (g x); simpl; rewrite IH; auto.
Qed.

Lemma splice_first_length {A} (f : A -> bool) xs :
  existsb f xs = true ->
  S (List.length (splice1 (findIndex f xs) xs)) = List.length xs.
Proof.
  intro He.
  pose proof (splice_first_filter f (fun _ => true) xs He (fun _ _ => eq_refl))
    as H.
  assert (forall l : list A, filter (fun _ => true) l = l) as F
      by (induction l; simpl; congruence).
  now rewrite !F in H.
Qed.

Lemma findConfig_none configs n :
  findConfig configs n = None <->
  forall c, In c configs -> normalizeNumber (JStr (optoutNumber c)) <> n.
Proof.
  unfold findConfig. induction configs as [|c cs IH]; simpl.
  - split; [intros _ c []|reflexivity].
  - destruct (String.eqb_spec (normalizeNumber (JStr (optoutNumber c))) n)
      as [E|E].
    + split; [discriminate|]. intro H. exfalso. apply (H c); auto.
    + rewrite IH. split.
      * intros H c' [<-|Hin]; auto.
      * intros H c' Hin. apply H. now right.
Qed.

(** The configuration found is the first one of the receiving number. *)
Lemma findConfig_first configs n mc :
  findConfig configs n = Some mc ->
  exists before after,
    configs = before ++ mc :: after /\
    normalizeNumber (JStr (optoutNumber mc)) = n /\
    forall c, In c before -> normalizeNumber (JStr (optoutNumber c)) <> n.
Proof.
  unfold findConfig. induction configs as [|c cs IH]; simpl; [discriminate|].
  destruct (String.eqb_spec (normalizeNumber (JStr (optoutNumber c))) n)
    as [E|E].
  - intros [= <-]. exists [], cs. repeat split; auto.
  - intro H. destruct (IH H) as (b & a & -> & Hn & Hb).
    exists (c :: b), a. repeat split; auto.
    intros c' [<-|Hin]; auto.
Qed.

(** ** The inbound webhook *)

Lemma handleInboundSMS_classified st now data mc :
  truthy (jsOr (msisdn data) (from data)) = true ->
  inboundText data <> "" ->
  findConfig (optoutConfigs st) (normalizeNumber (to data)) = Some mc ->
  handleInboundSMS st now data =
  (match classify mc (inboundText data) with
   | OPTOUT =>
       inboundOptout st now mc
         (normalizeNumber (jsOr (msisdn data) (from data))) (to data)
   | OPTIN =>
       inboundOptin st now mc
         (normalizeNumber (jsOr (msisdn data) (from data))) (to data)
   | NONE => st
   end, sendStatus 200).
Proof.
  intros Hf Ht Hc. unfold handleInboundSMS.
  rewrite Hf. apply String.eqb_neq in Ht. rewrite Ht. simpl.
  rewrite Hc. now destruct (classify mc (inboundText data)).
Qed.

(** C2. For an inbound message to a configured number, with [T] the
    trimmed, uppercased text and the phrase lists the uppercased, comma
    split, trimmed phrases of the configuration found: the message is an
    opt-out iff some opt-out phrase matches [T], an opt-in iff none does and
    some opt-in phrase matches, nothing otherwise; a phrase of both lists
    that matches gives an opt-out; and the handler acts on that class for
    every message that has a sender and a text. *)
Theorem inbound_classification :
  forall (st : Store) (now : Z) (data : InboundData) (mc : OptOutConfig),
    findConfig (optoutConfigs st) (normalizeNumber (to data)) = Some mc ->
    let sender := jsOr (msisdn data) (from data) in
    let T := toUpperCase
               (trim (strOf (jsOr (jsOr (text data) (message data))
                                  (JStr "")))) in
    let outs := map trim (split "," (toUpperCase (optoutPhrase mc))) in
    let ins := map trim (split "," (toUpperCase (optinPhrase mc))) in
    (classify mc T = OPTOUT <-> SomeMatch outs T) /\
    (classify mc T = OPTIN <-> ~ SomeMatch outs T /\ SomeMatch ins T) /\
    (classify mc T = NONE <-> ~ SomeMatch outs T /\ ~ SomeMatch ins T) /\
    (forall P, In P outs -> In P ins -> PhraseMatch P T ->
               classify mc T = OPTOUT) /\
    (truthy sender = true -> T <> "" ->
     handleInboundSMS st now data =
     (match classify mc T with
      | OPTOUT => inboundOptout st now mc (normalizeNumber sender) (to data)
      | OPTIN => inboundOptin st now mc (normalizeNumber sender) (to data)
      | NONE => st
      end, Reply 200 (JsStr "OK"))).
Proof.
  intros st now data mc Hc sender T outs ins.
  destruct (classify_spec mc T) as (H1 & H2 & H3).
  split; [exact H1|]. split; [exact H2|]. split; [exact H3|]. split.
  - intros P Ho _ Hm. apply H1. now exists P.
  - intros Hs Ht. now apply handleInboundSMS_classified.
Qed.

(** C4. An inbound message with a sender and a text, to a configured
    number, whose text matches an opt-in phrase and no opt-out phrase,
    appends an [optin] entry to the history whether or not the sender was
    in the opt-out list; when it was not, the list stays as it was. *)
Theorem inbound_optin_always_logged :
  forall (st : Store) (now : Z) (data : InboundData) (mc : OptOutConfig),
    let sender := jsOr (msisdn data) (from data) in
    let T := inboundText data in
    truthy sender = true ->
    T <> "" ->
    findConfig (optoutConfigs st) (normalizeNumber (to data)) = Some mc ->
    ~ SomeMatch (phraseList (optoutPhrase mc)) T ->
    SomeMatch (phraseList (optinPhrase mc)) T ->
    let st' := fst (handleInboundSMS st now data) in
    history st' =
      history st ++ [mkHistory (normalizeNumber sender) "optin" now (to data)
                               (JStr (id mc))] /\
    (~ OptedOut (optouts st) (normalizeNumber sender) ->
     optouts st' = optouts st).
Proof.
  intros st now data mc sender T Hs Ht Hc Hno Hin st'.
  subst st'. rewrite (handleInboundSMS_classified st now data mc Hs Ht Hc).
  assert (classify mc (inboundText data) = OPTIN) as ->
      by (apply classify_spec; split; assumption).
  simpl. unfold inboundOptin. fold sender.
  destruct (findIndex (sameNumber (normalizeNumber sender)) (optouts st)
            >? -1)%Z eqn:E; simpl.
  - split; [reflexivity|]. intro Habs. exfalso. apply Habs.
    apply isOptedOut_spec. now apply findIndex_some.
  - split; reflexivity.
Qed.

(** C5. An inbound payload with no configuration for its destination, or
    whose text matches no phrase of the configuration found, or without
    sender, or without text, leaves the opt-out list and the history as
    they are and is answered with a bare 200. *)
Theorem inbound_ignored_leaves_store :
  forall (st : Store) (now : Z) (data : InboundData),
    let sender := jsOr (msisdn data) (from data) in
    let T := inboundText data in
    ((forall c, In c (optoutConfigs st) ->
                normalizeNumber (JStr (optoutNumber c))
                <> normalizeNumber (to data))
     \/ (exists mc,
            findConfig (optoutConfigs st) (normalizeNumber (to data)) = Some mc
            /\ ~ SomeMatch (phraseList (optoutPhrase mc)) T
            /\ ~ SomeMatch (phraseList (optinPhrase mc)) T)
     \/ truthy sender = false
     \/ (truthy (text data) = false /\ truthy (message data) = false)
     \/ T = "") ->
    handleInboundSMS st now data = (st, Reply 200 (JsStr "OK")).
Proof.
  intros st now data sender T H.
  assert (truthy sender = false \/ T = "" \/
          (truthy sender = true /\ T <> "" /\
           ((forall c, In c (optoutConfigs st) ->
                       normalizeNumber (JStr (optoutNumber c))
                       <> normalizeNumber (to data))
            \/ exists mc,
                findConfig (optoutConfigs st) (normalizeNumber (to data))
                = Some mc
                /\ ~ SomeMatch (phraseList (optoutPhrase mc)) T
                /\ ~ SomeMatch (phraseList (optinPhrase mc)) T))) as Cases.
  { destruct (truthy sender) eqn:Es; [|now left].
    destruct (String.eqb_spec T "") as [Et|Et]; [now (right; left)|].
    destruct H as [H|[H|[H|[[H1 H2]|H]]]]; try congruence; try tauto.
    exfalso. apply Et. subst T. unfold inboundText, jsOr.
    rewrite H1, H2. reflexivity. }
  unfold handleInboundSMS. fold sender. fold T.
  destruct Cases as [Es|[Et|(Es & Et & Hc)]].
  - now rewrite Es.
  - rewrite Et. simpl. now rewrite orb_true_r.
  - rewrite Es. apply String.eqb_neq in Et. rewrite Et. simpl.
    destruct Hc as [Hnone|(mc & Hc & Ho & Hi)].
    + apply findConfig_none in Hnone. now rewrite Hnone.
    + rewrite Hc.
      assert (classify mc T = NONE) as -> by (apply classify_spec; tauto).
      reflexivity.
Qed.

(** ** Manual opt-out and opt-in *)

Lemma existsb_filter_length {A} (f : A -> bool) xs :
  existsb f xs = true <-> (1 <= List.length (filter f xs))%nat.
Proof.
  induction xs as [|x xs IH]; simpl.
  - split; [discriminate|lia].
  - destruct (f x); simpl; [split; [lia|reflexivity]|exact IH].
Qed.

Lemma existsb_filter_zero {A} (f : A -> bool) xs :
  existsb f xs = false <-> List.length (filter f xs) = 0%nat.
Proof.
  induction xs as [|x xs IH]; simpl; [tauto|].
  destruct (f x); simpl; [split; discriminate|exact IH].
Qed.

Lemma sameNumber_new n configId originalNumber :
  sameNumber (normalizeNumber n)
             (OObject (normalizeNumber n) configId originalNumber) = true.
Proof.
  unfold sameNumber. simpl. rewrite normalizeNumber_idem.
  apply String.eqb_refl.
Qed.

Lemma optouts_after_optout st now number :
  optouts (fst (post_api_optout st now number)) =
  if isOptedOut (optouts st) (normalizeNumber number) then optouts st
  else optouts st ++ [OObject (normalizeNumber number) "manual" number].
Proof.
  unfold post_api_optout.
  now destruct (isOptedOut (optouts st) (normalizeNumber number)).
Qed.

Lemma optedOut_after_optout st now number :
  isOptedOut (optouts (fst (post_api_optout st now number)))
             (normalizeNumber number) = true.
Proof.
  rewrite optouts_after_optout.
  destruct (isOptedOut (optouts st) (normalizeNumber number)) eqn:E;
    [exact E|].
  unfold isOptedOut. rewrite existsb_app. simpl.
  rewrite sameNumber_new. now rewrite orb_true_r.
Qed.

Lemma entries_after_optout st now number :
  List.length (entriesOf (normalizeNumber number)
                 (optouts (fst (post_api_optout st now number)))) =
  Nat.max 1 (List.length (entriesOf (normalizeNumber number) (optouts st))).
Proof.
  rewrite optouts_after_optout. unfold entriesOf.
  destruct (isOptedOut (optouts st) (normalizeNumber number)) eqn:E.
  - apply existsb_filter_length in E. now rewrite Nat.max_r.
  - apply existsb_filter_zero in E. rewrite filter_app, length_app. simpl.
    rewrite sameNumber_new. simpl. rewrite E. reflexivity.
Qed.

Lemma optouts_after_optin st now number :
  optouts (fst (post_api_optin st now number)) =
  if isOptedOut (optouts st) (normalizeNumber number)
  then splice1 (findIndex (sameNumber (normalizeNumber number)) (optouts st))
               (optouts st)
  else optouts st.
Proof.
  unfold post_api_optin, isOptedOut.
  destruct (existsb (sameNumber (normalizeNumber number)) (optouts st)) eqn:E.
  - apply findIndex_some in E. now rewrite E.
  - apply findIndex_none in E. now rewrite E.
Qed.

(** C3, as the code has it.  After [POST /api/optout] of [N] the check of
    [N] reports [blocked: true], from every store.  From a store with at
    most one entry of the normalized number of [N]: after [POST /api/optin]
    of [N] the check reports [blocked: false], and two opt-outs of [N] in a
    row leave exactly one entry of that number. *)
Theorem consent_round_trip :
  forall (st : Store) (now now' : Z) (N : string),
    let n := normalizeNumber (JStr N) in
    get_api_check (fst (post_api_optout st now (JStr N))) N
    = Reply 200 (JsObj [("number", JsStr n); ("blocked", JsBool true)]) /\
    ((List.length (entriesOf n (optouts st)) <= 1)%nat ->
     get_api_check (fst (post_api_optin st now (JStr N))) N
     = Reply 200 (JsObj [("number", JsStr n); ("blocked", JsBool false)]) /\
     List.length
       (entriesOf n
          (optouts (fst (post_api_optout (fst (post_api_optout st now (JStr N)))
                                         now' (JStr N))))) = 1%nat).
Proof.
  intros st now now' N n. split; [|intro Hle; split].
  - unfold get_api_check, res_json. fold n.
    unfold n. now rewrite optedOut_after_optout.
  - unfold get_api_check, res_json. fold n.
    replace (isOptedOut _ n) with false; [reflexivity|].
    symmetry. unfold n at 1. rewrite optouts_after_optin. fold n.
    destruct (isOptedOut (optouts st) n) eqn:E; [|exact E].
    unfold isOptedOut in *. apply existsb_filter_zero.
    pose proof (splice_first_filter (sameNumber n) (sameNumber n)
                  (optouts st) E (fun _ H => H)) as H.
    unfold entriesOf in Hle. lia.
  - unfold n. rewrite entries_after_optout, entries_after_optout. fold n. lia.
Qed.

(** ** Opt-in through the API *)

Lemma removeAt_incl {A} i (xs : list A) x : In x (removeAt i xs) -> In x xs.
Proof.
  revert i; induction xs as [|y xs IH]; intros [|i]; simpl; auto.
  intros [->|H]; eauto.
Qed.

Lemma isOptedOut_splice i entries n :
  isOptedOut (splice1 i entries) n = true -> isOptedOut entries n = true.
Proof.
  unfold isOptedOut, splice1. rewrite !existsb_exists.
  intros [o [Hin H]]. exists o. split; [|exact H].
  eapply removeAt_incl; eauto.
Qed.

Lemma isOptedOut_splice_false i entries n :
  isOptedOut entries n = false -> isOptedOut (splice1 i entries) n = false.
Proof.
  intro H. destruct (isOptedOut (splice1 i entries) n) eqn:E; [|reflexivity].
  apply isOptedOut_splice in E. congruence.
Qed.

(** What the loop of the bulk opt-in keeps true, whatever it started from. *)
Lemma bulkOptinStep_fold ts numbers :
  forall o h removed notFound,
  exists o' removed1 notFound1,
    fold_left (bulkOptinStep ts) numbers (o, h, removed, notFound)
    = (o', h ++ map (optinEntry ts) removed1,
       removed ++ removed1, notFound ++ notFound1) /\
    List.length o' + List.length removed1 = List.length o /\
    (forall n, In n removed1 -> isOptedOut o n = true) /\
    (forall x, In x numbers -> normalizeNumber x <> "" ->
               isOptedOut o (normalizeNumber x) = false ->
               In (normalizeNumber x) notFound1) /\
    ((forall x, In x numbers -> isOptedOut o (normalizeNumber x) = false) ->
     o' = o /\ removed1 = [] /\
     notFound1 = filter (fun n => negb (n =? ""))
                        (map normalizeNumber numbers)).
Proof.
  induction numbers as [|x numbers IH]; intros o h removed notFound.
  - exists o, [], []. simpl. rewrite !app_nil_r.
    split; [reflexivity|]. split; [lia|]. split; [intros n []|].
    split; [intros y []|]. auto.
  - simpl fold_left.
    destruct (String.eqb_spec (normalizeNumber x) "") as [Ee|Ene].
    + destruct (IH o h removed notFound)
        as (o' & r1 & nf1 & Hf & Hl & Hr & Hn & Hall).
      exists o', r1, nf1. rewrite Hf.
      split; [reflexivity|]. split; [exact Hl|]. split; [exact Hr|]. split.
      * intros y [<-|Hy] Hne Habs; [congruence|now apply Hn].
      * intro Habs.
        destruct Hall as (Ho & Hr1 & ->); [intros; apply Habs; now right|].
        split; [exact Ho|]. split; [exact Hr1|].
        simpl. rewrite Ee. reflexivity.
    + destruct (findIndex (sameNumber (normalizeNumber x)) o >? -1)%Z eqn:Ei.
      * apply findIndex_some in Ei.
        destruct (IH (splice1 (findIndex (sameNumber (normalizeNumber x)) o) o)
                     (h ++ [mkHistory (normalizeNumber x) "optin" ts
                                      (JStr "api") JUndefined])
                     (removed ++ [normalizeNumber x]) notFound)
          as (o' & r1 & nf1 & Hf & Hl & Hr & Hn & _).
        exists o', (normalizeNumber x :: r1), nf1. rewrite Hf.
        pose proof (splice_first_length _ o Ei) as Hlen.
        split; [simpl; now rewrite <- !app_assoc|].
        split; [simpl; lia|]. split; [|split].
        -- intros n [<-|Hin]; [exact Ei|].
           eapply isOptedOut_splice. apply Hr, Hin.
        -- intros y [<-|Hy] Hne Habs.
           ++ unfold isOptedOut in Habs. congruence.
           ++ apply Hn; auto. now apply isOptedOut_splice_false.
        -- intro Habs. exfalso.
           assert (isOptedOut o (normalizeNumber x) = false) as F
               by (apply Habs; now left).
           unfold isOptedOut in F. congruence.
      * destruct (IH o h removed (notFound ++ [normalizeNumber x]))
          as (o' & r1 & nf1 & Hf & Hl & Hr & Hn & Hall).
        exists o', r1, (normalizeNumber x :: nf1). rewrite Hf.
        split; [simpl; now rewrite <- !app_assoc|].
        split; [exact Hl|]. split; [exact Hr|]. split.
        -- intros y [<-|Hy] Hne Habs; [now left|right; now apply Hn].
        -- intro Habs.
           destruct Hall as (Ho & Hr1 & Hnf); [intros; apply Habs; now right|].
           split; [exact Ho|]. split; [exact Hr1|]. simpl.
           apply String.eqb_neq in Ene. rewrite Ene. simpl. now rewrite Hnf.
Qed.

Lemma splice_first_split {A} (f : A -> bool) xs :
  existsb f xs = true ->
  exists before c after,
    xs = before ++ c :: after /\
    (forall x, In x before -> f x = false) /\ f c = true /\
    splice1 (findIndex f xs) xs = before ++ after.
Proof.
  induction xs as [|x xs IH]; simpl; [discriminate|].
  destruct (f x) eqn:E; simpl.
  - intros _. exists [], x, xs. repeat split; auto. intros y [].
  - intro H. destruct (IH H) as (before & c & after & -> & Hb & Hc & Hs).
    exists (x :: before), c, after.
    split; [reflexivity|]. split; [|split; [exact Hc|]].
    + intros y [<-|Hy]; auto.
    + pose proof (findIndex_range f (before ++ c :: after)) as R.
      apply findIndex_some in H.
      apply Z.gtb_lt in H.
      destruct (Z.ltb_spec (findIndex f (before ++ c :: after)) 0); [lia|].
      unfold splice1 in *.
      replace (Z.to_nat (findIndex f (before ++ c :: after) + 1))
        with (S (Z.to_nat (findIndex f (before ++ c :: after)))) by lia.
      simpl. now rewrite Hs.
Qed.

Lemma removes_first_entry entries n :
  isOptedOut entries n = true ->
  RemovesEntry n entries (splice1 (findIndex (sameNumber n) entries) entries).
Proof.
  intro H. unfold isOptedOut in H.
  destruct (splice_first_split _ _ H)
    as (before & e & after & -> & Hb & He & ->).
  constructor.
  - intros x Hx. apply Hb in Hx. unfold sameNumber in Hx.
    now apply String.eqb_neq.
  - unfold sameNumber in He. now apply String.eqb_eq.
Qed.

Lemma RemovesEntry_count n m entries entries' :
  RemovesEntry n entries entries' ->
  List.length (entriesOf m entries') + (if string_dec n m then 1 else 0)
  = List.length (entriesOf m entries).
Proof.
  intros [before e after Hb He]. unfold entriesOf.
  rewrite !filter_app, !length_app. cbn [filter].
  replace (sameNumber m e) with (n =? m)
    by (unfold sameNumber; now rewrite He).
  destruct (string_dec n m) as [->|Hne].
  - rewrite String.eqb_refl. simpl. lia.
  - apply String.eqb_neq in Hne. rewrite Hne. lia.
Qed.

Lemma OptInRun_count numbers entries entries' removed notFound :
  OptInRun numbers entries entries' removed notFound ->
  forall n,
    List.length (entriesOf n entries') + count_occ string_dec removed n
    = List.length (entriesOf n entries).
Proof.
  induction 1 as [o|x xs o o' r nf He _ IH|x xs o o1 o' r nf Hne Hr _ IH
                  |x xs o o' r nf Hne Ho _ IH]; intro n; simpl.
  - lia.
  - apply IH.
  - pose proof (RemovesEntry_count _ n _ _ Hr) as Hc. specialize (IH n).
    destruct (string_dec (normalizeNumber x) n); lia.
  - apply IH.
Qed.

(** The loop of the bulk opt-in is such a run. *)
Lemma bulkOptinStep_run ts numbers :
  forall o h removed notFound,
  exists o' removed1 notFound1,
    fold_left (bulkOptinStep ts) numbers (o, h, removed, notFound)
    = (o', h ++ map (optinEntry ts) removed1,
       removed ++ removed1, notFound ++ notFound1) /\
    OptInRun numbers o o' removed1 notFound1.
Proof.
  induction numbers as [|x numbers IH]; intros o h removed notFound.
  - exists o, [], []. simpl. rewrite !app_nil_r. split; [reflexivity|].
    constructor.
  - simpl fold_left.
    destruct (String.eqb_spec (normalizeNumber x) "") as [Ee|Ene].
    + destruct (IH o h removed notFound) as (o' & r1 & nf1 & Hf & Hrun).
      exists o', r1, nf1. rewrite Hf. split; [reflexivity|].
      now apply run_skip.
    + destruct (findIndex (sameNumber (normalizeNumber x)) o >? -1)%Z eqn:Ei.
      * apply findIndex_some in Ei.
        destruct (IH (splice1 (findIndex (sameNumber (normalizeNumber x)) o) o)
                     (h ++ [mkHistory (normalizeNumber x) "optin" ts
                                      (JStr "api") JUndefined])
                     (removed ++ [normalizeNumber x]) notFound)
          as (o' & r1 & nf1 & Hf & Hrun).
        exists o', (normalizeNumber x :: r1), nf1. rewrite Hf.
        split; [simpl; now rewrite <- !app_assoc|].
        eapply run_removed; [exact Ene| |exact Hrun].
        now apply removes_first_entry.
      * apply findIndex_none in Ei.
        destruct (IH o h removed (notFound ++ [normalizeNumber x]))
          as (o' & r1 & nf1 & Hf & Hrun).
        exists o', r1, (normalizeNumber x :: nf1). rewrite Hf.
        split; [simpl; now rewrite <- !app_assoc|].
        apply run_not_found; [exact Ene| |exact Hrun].
        now apply isOptedOut_false.
Qed.

Lemma store_eta (st : Store) :
  mkStore (optoutConfigs st) (credentials st) (optouts st) (history st) = st.
Proof. now destruct st. Qed.

(** C10, as the code has it.  [POST /api/optin] answers success; it leaves
    the store as it is when no entry has the normalized number, and
    otherwise removes the first entry of that number, and no other, and
    appends one [optin] history entry.  [POST /api/optin/bulk] goes through
    the numbers in order: a number of the list loses its first entry and is
    reported as removed, a number that is not in the list and whose
    normalized form is not empty leaves it as it is and is reported under
    [notFound], a number without digits is passed over.  It appends one
    [optin] entry per number it reports as removed, so that for every
    number the list loses as many entries of it as [removed] names it, and
    a list without a number twice no longer holds a number reported as
    removed; when none of the numbers is in the list the store is left as
    it is and [notFound] holds the normalized numbers that are not empty. *)
Theorem api_optin_logs_only_removals :
  forall (st : Store) (now : Z),
    (forall number : jsval,
        let n := normalizeNumber number in
        snd (post_api_optin st now number)
        = Reply 200 (JsObj [("success", JsBool true)]) /\
        (~ OptedOut (optouts st) n ->
         fst (post_api_optin st now number) = st) /\
        (OptedOut (optouts st) n ->
         let st' := fst (post_api_optin st now number) in
         history st' =
           history st ++ [mkHistory n "optin" now (JStr "manual") JUndefined]
         /\ S (List.length (optouts st')) = List.length (optouts st)
         /\ S (List.length (entriesOf n (optouts st')))
            = List.length (entriesOf n (optouts st))
         /\ RemovesEntry n (optouts st) (optouts st'))) /\
    (forall numbers : list jsval,
        numbers <> [] ->
        exists optouts' removed notFound,
          post_api_optin_bulk st now (Some numbers)
          = (mkStore (optoutConfigs st) (credentials st) optouts'
               (history st ++
                map (fun n => mkHistory n "optin" now (JStr "api") JUndefined)
                    removed),
             Reply 200 (JsObj
               [("success", JsBool true);
                ("summary", JsObj [("total", len numbers);
                                   ("removed", len removed);
                                   ("notFound", len notFound)]);
                ("results", JsObj [("removed", JsArr (map JsStr removed));
                                   ("notFound", JsArr (map JsStr notFound))])]))
          /\ List.length optouts' + List.length removed
             = List.length (optouts st)
          /\ (forall n, In n removed -> OptedOut (optouts st) n)
          /\ (forall x, In x numbers -> normalizeNumber x <> "" ->
                        ~ OptedOut (optouts st) (normalizeNumber x) ->
                        In (normalizeNumber x) notFound)
          /\ ((forall x, In x numbers ->
                         ~ OptedOut (optouts st) (normalizeNumber x)) ->
              fst (post_api_optin_bulk st now (Some numbers)) = st
              /\ removed = []
              /\ notFound = filter (fun n => negb (n =? ""))
                                   (map normalizeNumber numbers))
          /\ OptInRun numbers (optouts st) optouts' removed notFound
          /\ (forall n,
                 List.length (entriesOf n optouts')
                 + count_occ string_dec removed n
                 = List.length (entriesOf n (optouts st)))
          /\ (OneEntryPerNumber (optouts st) ->
              forall n, In n removed -> ~ OptedOut optouts' n)).
Proof.
  intros st now. split.
  - intros number n. unfold post_api_optin. fold n.
    destruct (findIndex (sameNumber n) (optouts st) >? -1)%Z eqn:E.
    + apply findIndex_some in E. simpl. split; [reflexivity|]. split.
      * intro H. exfalso. apply H. now apply isOptedOut_spec.
      * intros _. split; [reflexivity|]. split; [|split].
        -- now apply splice_first_length.
        -- apply splice_first_filter; auto.
        -- now apply removes_first_entry.
    + apply findIndex_none in E. simpl. split; [reflexivity|]. split; auto.
      intro H. apply isOptedOut_spec in H. unfold isOptedOut in H. congruence.
  - intros numbers Hne.
    destruct (bulkOptinStep_fold now numbers (optouts st) (history st) [] [])
      as (o' & r1 & nf1 & Hf & Hl & Hr & Hn & Hall).
    assert (OptInRun numbers (optouts st) o' r1 nf1) as Hrun.
    { destruct (bulkOptinStep_run now numbers (optouts st) (history st) [] [])
        as (o2 & r2 & nf2 & Hf2 & Hrun).
      rewrite Hf in Hf2. simpl in Hf2.
      now injection Hf2 as -> _ -> ->. }
    pose proof (OptInRun_count _ _ _ _ _ Hrun) as Hcount.
    exists o', r1, nf1.
    assert (post_api_optin_bulk st now (Some numbers)
            = (mkStore (optoutConfigs st) (credentials st) o'
                 (history st ++ map (optinEntry now) r1),
               Reply 200 (JsObj
                 [("success", JsBool true);
                  ("summary", JsObj [("total", len numbers);
                                     ("removed", len r1);
                                     ("notFound", len nf1)]);
                  ("results", JsObj [("removed", JsArr (map JsStr r1));
                                     ("notFound", JsArr (map JsStr nf1))])])))
      as Heq.
    { unfold post_api_optin_bulk, bulkOptinLoop.
      destruct numbers as [|x numbers]; [congruence|].
      rewrite Hf. reflexivity. }
    split; [exact Heq|]. split; [exact Hl|].
    split; [|split; [|split; [|split; [exact Hrun|split; [exact Hcount|]]]]].
    + intros n Hin. apply isOptedOut_spec. now apply Hr.
    + intros x Hx Hx' Habs. apply Hn; auto. now apply isOptedOut_false.
    + intro Habs.
      destruct Hall as (-> & -> & ->).
      { intros x Hx. apply isOptedOut_false. now apply Habs. }
      rewrite Heq. simpl. rewrite app_nil_r. split; [apply store_eta|].
      split; reflexivity.
    + intros Hone n Hin.
      apply isOptedOut_false. apply existsb_filter_zero.
      specialize (Hcount n). specialize (Hone n).
      apply (count_occ_In string_dec) in Hin.
      unfold entriesOf in *. lia.
Qed.

(** ** No handler puts a number in the opt-out list twice *)

Lemma add_keeps_one entries x configId originalNumber :
  isOptedOut entries (normalizeNumber x) = false ->
  OneEntryPerNumber entries ->
  OneEntryPerNumber
    (entries ++ [OObject (normalizeNumber x) configId originalNumber]).
Proof.
  intros E H m. unfold entriesOf. rewrite filter_app, length_app.
  specialize (H m). unfold entriesOf in H. simpl.
  destruct (sameNumber m (OObject (normalizeNumber x) configId originalNumber))
    eqn:Em; simpl; [|lia].
  unfold sameNumber in Em. simpl in Em.
  rewrite normalizeNumber_idem in Em. apply String.eqb_eq in Em. subst m.
  apply existsb_filter_zero in E. rewrite E. reflexivity.
Qed.

Lemma removeAt_filter_le {A} (f : A -> bool) i xs :
  (List.length (filter f (removeAt i xs)) <= List.length (filter f xs))%nat.
Proof.
  revert i; induction xs as [|x xs IH]; intros [|i]; simpl; auto.
  - destruct (f x); simpl; lia.
  - specialize (IH i). destruct (f x); simpl; lia.
Qed.

Lemma splice_keeps_one i entries :
  OneEntryPerNumber entries -> OneEntryPerNumber (splice1 i entries).
Proof.
  intros H m. specialize (H m). unfold entriesOf, splice1 in *.
  pose proof (removeAt_filter_le (sameNumber m) (Z.to_nat i) entries). lia.
Qed.

Lemma post_api_optout_keeps_one st now number :
  OneEntryPerNumber (optouts st) ->
  OneEntryPerNumber (optouts (fst (post_api_optout st now number))).
Proof.
  intro H. rewrite optouts_after_optout.
  destruct (isOptedOut (optouts st) (normalizeNumber number)) eqn:E;
    [exact H|now apply add_keeps_one].
Qed.

Lemma post_api_optin_keeps_one st now number :
  OneEntryPerNumber (optouts st) ->
  OneEntryPerNumber (optouts (fst (post_api_optin st now number))).
Proof.
  intro H. rewrite optouts_after_optin.
  destruct (isOptedOut (optouts st) (normalizeNumber number));
    [now apply splice_keeps_one|exact H].
Qed.

Lemma handleInboundSMS_keeps_one st now data :
  OneEntryPerNumber (optouts st) ->
  OneEntryPerNumber (optouts (fst (handleInboundSMS st now data))).
Proof.
  intro H. unfold handleInboundSMS.
  destruct (_ || _); [exact H|].
  destruct (findConfig _ _) as [mc|]; [|exact H].
  destruct (classify mc (inboundText data)); simpl; [| |exact H].
  - destruct (isOptedOut (optouts st) _) eqn:E; simpl;
      [exact H|now apply add_keeps_one].
  - destruct (_ >? _)%Z; simpl; [now apply splice_keeps_one|exact H].
Qed.

Lemma fold_left_keeps {A B} (P : A -> Prop) (f : A -> B -> A) l :
  (forall a x, P a -> P (f a x)) -> forall a, P a -> P (fold_left f l a).
Proof.
  intro Hf. induction l as [|x l IH]; simpl; auto.
Qed.

Lemma bulkOptoutStep_keeps_one ts acc y :
  OneEntryPerNumber (fst (fst (fst acc))) ->
  OneEntryPerNumber (fst (fst (fst (bulkOptoutStep ts acc y)))).
Proof.
  destruct acc as [[[o h] a] b]. unfold bulkOptoutStep. simpl. intro H.
  destruct (_ =? _); [exact H|].
  destruct (isOptedOut o (normalizeNumber y)) eqn:Eo; simpl;
    [exact H|now apply add_keeps_one].
Qed.

Lemma bulkOptinStep_keeps_one ts acc y :
  OneEntryPerNumber (fst (fst (fst acc))) ->
  OneEntryPerNumber (fst (fst (fst (bulkOptinStep ts acc y)))).
Proof.
  destruct acc as [[[o h] a] b]. unfold bulkOptinStep. simpl. intro H.
  destruct (_ =? _); [exact H|].
  destruct (_ >? _)%Z; simpl; [now apply splice_keeps_one|exact H].
Qed.

Lemma post_api_optout_bulk_keeps_one st now numbers :
  OneEntryPerNumber (optouts st) ->
  OneEntryPerNumber (optouts (fst (post_api_optout_bulk st now numbers))).
Proof.
  intro H. unfold post_api_optout_bulk.
  destruct numbers as [[|x l]|]; try exact H.
  pose proof (fold_left_keeps _ _ (x :: l) (bulkOptoutStep_keeps_one now)
                (optouts st, history st, [], []) H) as F.
  destruct (fold_left (bulkOptoutStep now) (x :: l) _) as [[[o h] a] b].
  exact F.
Qed.

Lemma post_api_optin_bulk_keeps_one st now numbers :
  OneEntryPerNumber (optouts st) ->
  OneEntryPerNumber (optouts (fst (post_api_optin_bulk st now numbers))).
Proof.
  intro H. unfold post_api_optin_bulk, bulkOptinLoop.
  destruct numbers as [[|x l]|]; try exact H.
  pose proof (fold_left_keeps _ _ (x :: l) (bulkOptinStep_keeps_one now)
                (optouts st, history st, [], []) H) as F.
  destruct (fold_left (bulkOptinStep now) (x :: l) _) as [[[o h] a] b].
  exact F.
Qed.

(** ** Statistics of the last 24 hours *)

Lemma filter_filter_andb {A} (f g : A -> bool) l :
  filter f (filter g l) = filter (fun x => f x && g x) l.
Proof.
  induction l as [|x l IH]; simpl; [reflexivity|].
  destruct (g x); simpl; rewrite ?andb_true_r, ?andb_false_r.
  - destruct (f x); now rewrite IH.
  - exact IH.
Qed.

Lemma recent_count a now h :
  len (filter (fun item => action item =? a)
         (filter (fun item => (timestamp item >=? now - 24 * 60 * 60 * 1000)%Z)
                 h))
  = JsNum (countOf a (sinceLastDay now) h).
Proof.
  unfold len, countOf. rewrite filter_filter_andb.
  do 3 f_equal. apply filter_ext. intro e. unfold sinceLastDay.
  now rewrite Z.geb_leb.
Qed.

Lemma get_api_stats_counts st now :
  get_api_stats st now =
  Reply 200 (statsBody (countOf "optin" (sinceLastDay now) (history st))
                       (countOf "optout" (sinceLastDay now) (history st))).
Proof.
  unfold get_api_stats, res_json, statsBody.
  now rewrite !recent_count.
Qed.

Lemma countOf_past a now h :
  (forall e, In e h -> (timestamp e <= now)%Z) ->
  countOf a (sinceLastDay now) h = countOf a (inLastDay now) h.
Proof.
  intro Hpast. unfold countOf. do 2 f_equal.
  apply filter_ext_in. intros e He. unfold sinceLastDay, inLastDay.
  specialize (Hpast e He). apply Z.leb_le in Hpast. rewrite Hpast.
  now rewrite andb_true_r.
Qed.

(** C7, as the code has it.  [GET /api/stats] counts, for each action, the
    history entries whose time is not earlier than 24 hours before now,
    whatever the size of the history; when no entry is later than now
    these are the entries of the window from now - 24h to now. *)
Theorem stats_count_last_day :
  forall (st : Store) (now : Z),
    get_api_stats st now =
    Reply 200
      (JsObj [("optins",
               JsNum (countOf "optin" (sinceLastDay now) (history st)));
              ("optouts",
               JsNum (countOf "optout" (sinceLastDay now) (history st)))])
    /\
    ((forall e, In e (history st) -> (timestamp e <= now)%Z) ->
     get_api_stats st now =
     Reply 200
       (JsObj [("optins",
                JsNum (countOf "optin" (inLastDay now) (history st)));
               ("optouts",
                JsNum (countOf "optout" (inLastDay now) (history st)))])).
Proof.
  intros st now. split; [apply get_api_stats_counts|].
  intro Hpast. rewrite get_api_stats_counts. unfold statsBody.
  now rewrite !countOf_past.
Qed.

(** ** The history query *)

Lemma insertNewestFirst_perm x l :
  Permutation (insertNewestFirst x l) (x :: l).
Proof.
  induction l as [|y l IH]; simpl; [reflexivity|].
  destruct (timestamp y >? timestamp x)%Z; [|reflexivity].
  rewrite IH. apply perm_swap.
Qed.

Lemma sortNewestFirst_perm l : Permutation (sortNewestFirst l) l.
Proof.
  induction l as [|x l IH]; simpl; [reflexivity|].
  rewrite insertNewestFirst_perm. now constructor.
Qed.

Lemma insertNewestFirst_sorted x l :
  StronglySorted NewerFirst l ->
  StronglySorted NewerFirst (insertNewestFirst x l).
Proof.
  induction 1 as [|y l Hs IH Hall]; simpl.
  - repeat constructor.
  - destruct (Z.gtb_spec (timestamp y) (timestamp x)) as [Hgt|Hle].
    + constructor; [exact IH|].
      rewrite insertNewestFirst_perm. constructor; [|exact Hall].
      unfold NewerFirst. lia.
    + constructor; [now constructor|].
      constructor; [unfold NewerFirst; lia|].
      eapply Forall_impl; [|exact Hall].
      unfold NewerFirst. intros; lia.
Qed.

Lemma sortNewestFirst_sorted l :
  StronglySorted NewerFirst (sortNewestFirst l).
Proof.
  induction l as [|x l IH]; simpl; [constructor|].
  now apply insertNewestFirst_sorted.
Qed.

Lemma filter_all {A} (l : list A) : filter (fun _ => true) l = l.
Proof. induction l; simpl; congruence. Qed.

Lemma filter_if {A} (b : bool) (f : A -> bool) l :
  (if b then filter f l else l) = filter (fun x => if b then f x else true) l.
Proof. destruct b; [reflexivity|]. symmetry. apply filter_all. Qed.

Section HistoryQueryFacts.

Variable parseDate : string -> option Z.
Variable LocalTZA : Z -> bool -> Z.







Lemma historyQuery_filter history startDate endDate action_ :
  historyQuery parseDate LocalTZA history startDate endDate action_
  = sortNewestFirst
      (filter (keeps parseDate LocalTZA startDate endDate action_) history).
Proof.
  unfold historyQuery, keeps. cbv zeta. f_equal.
  rewrite !filter_if, !filter_filter_andb.
  apply filter_ext. intro e.
  match goal with
  | |- ?c && ?b && ?a = _ => destruct a, b, c; reflexivity
  end.
Qed.


(** Where the offset in force at a bound is the one the host read its
    local time with, the local clock shows that time at the bound, on the
    day of the date. *)
Lemma IsLocalTime_clock day ms m :
  IsLocalTime LocalTZA day ms m ->
  LocalTZA m true = LocalTZA (day * 86400000 + ms)%Z false ->
  (0 <= ms < 86400000)%Z ->
  (m + LocalTZA m true = day * 86400000 + ms)%Z /\
  localDay LocalTZA m = day.
Proof.
  intros [H _] E Hms. unfold localDay. rewrite E. split; [exact H|].
  rewrite H. symmetry. apply (Z.div_unique _ _ day ms); lia.
Qed.

End HistoryQueryFacts.

(** On a day of 25 hours the query for that day returns the entries of all
    its hours, and none of the day after. *)
Lemma history_query_on_long_day :
  map number
      (snd (get_api_history sampleParseDate berlinZone longDayStore
              (JStr "2023-10-29") (JStr "2023-10-29") JUndefined))
  = ["447700900003"; "447700900002"; "447700900001"] /\
  dateAt sampleParseDate berlinZone "2023-10-29" 0 0 0 0
  = Some 1698530400000%Z /\
  dateAt sampleParseDate berlinZone "2023-10-29" 23 59 59 999
  = Some 1698620399999%Z.
Proof. repeat split; vm_compute; reflexivity. Qed.

(** ** Sending *)

Lemma pushOutcome_fold outs : forall results,
  fold_left pushOutcome outs results =
  mkResults (sent results ++ entriesIn InSent outs)
            (blocked results ++ entriesIn InBlocked outs)
            (failed results ++ entriesIn InFailed outs).
Proof.
  unfold entriesIn.
  induction outs as [|o outs IH]; intros [s b f]; simpl.
  - now rewrite !app_nil_r.
  - rewrite IH. unfold pushOutcome.
    destruct (slot o); simpl; now rewrite <- ?app_assoc.
Qed.

Lemma entriesIn_total outs :
  List.length (entriesIn InSent outs) + List.length (entriesIn InBlocked outs)
  + List.length (entriesIn InFailed outs) = List.length outs.
Proof.
  unfold entriesIn. induction outs as [|o outs IH]; simpl; [reflexivity|].
  destruct (slot o); simpl; lia.
Qed.

Section TransportFacts.

Variable vonage : nat -> Sms.request -> FetchResult.
Variable env : Env.
Variable st : Store.

Ltac outcome s :=
  eexists (mkOutcome s _ _); split; cycle 1;
  [ reflexivity
  | repeat split; simpl; intros; try congruence; try tauto;
    eexists; split; reflexivity ].

(** One turn of the loop handles its recipient. *)
Lemma bulkSendStep_handled credentials from text results calls recipient :
  exists o,
    Handled st recipient o /\
    bulkSendStep vonage st credentials from text (results, calls) recipient
    = (pushOutcome results o, calls ++ requests o).
Proof.
  unfold bulkSendStep, Handled.
  destruct (String.eqb_spec (normalizeNumber recipient) "") as [Ee|Ene].
  { eexists (mkOutcome InFailed _ []). rewrite app_nil_r.
    split; [|reflexivity]. repeat split; intros; congruence. }
  destruct (isOptedOut (optouts st) (normalizeNumber recipient)) eqn:Eb.
  { apply isOptedOut_spec in Eb.
    eexists (mkOutcome InBlocked _ []). rewrite app_nil_r.
    split; [|reflexivity]. repeat split; intros; try congruence; tauto. }
  apply isOptedOut_false in Eb.
  destruct (vonage (List.length calls) _) as [data|message];
    [destruct data as [| | | | |]|];
    try destruct (firstMessage _) as [msg|];
    try destruct (isJsStr (getProp "status" msg) "0");
    first [outcome InSent | outcome InFailed].
Qed.

Lemma bulkSendStep_fold credentials from text recipients :
  forall results calls,
  exists outs,
    Forall2 (Handled st) recipients outs /\
    fold_left (bulkSendStep vonage st credentials from text) recipients
              (results, calls)
    = (fold_left pushOutcome outs results,
       calls ++ List.concat (map requests outs)).
Proof.
  induction recipients as [|x recipients IH]; intros results calls.
  - exists []. simpl. rewrite app_nil_r. split; [constructor|reflexivity].
  - destruct (bulkSendStep_handled credentials from text results calls x)
      as (o & Ho & Hstep).
    destruct (IH (pushOutcome results o) (calls ++ requests o))
      as (outs & Houts & Hfold).
    exists (o :: outs). split; [now constructor|].
    cbn [fold_left map List.concat requests].
    rewrite Hstep, Hfold. now rewrite <- app_assoc.
Qed.

(** A bulk send that passes the checks of the request reports the
    outcomes of its recipients, in order. *)
Lemma post_api_send_bulk_outcomes recipients from text :
  apiKey (getActiveCredentials env st) <> "" ->
  apiSecret (getActiveCredentials env st) <> "" ->
  recipients <> [] ->
  truthy from = true ->
  truthy text = true ->
  exists outs,
    Forall2 (Handled st) recipients outs /\
    post_api_send_bulk vonage env st (Some recipients) from text
    = (Reply 200
         (bulkSummary recipients
            (mkResults (entriesIn InSent outs) (entriesIn InBlocked outs)
                       (entriesIn InFailed outs))),
       List.concat (map requests outs)).
Proof.
  intros Hk Hs Hne Hf Ht.
  destruct (bulkSendStep_fold (getActiveCredentials env st) from text
              recipients (mkResults [] [] []) [])
    as (outs & Houts & Hfold).
  exists outs. split; [exact Houts|].
  unfold post_api_send_bulk, bulkSendLoop.
  apply String.eqb_neq in Hk, Hs. rewrite Hk, Hs, Hf, Ht. simpl.
  destruct recipients as [|x recipients]; [congruence|].
  rewrite Hfold, pushOutcome_fold. reflexivity.
Qed.

Lemma Forall2_In_l {A B} (R : A -> B -> Prop) l l' x :
  Forall2 R l l' -> In x l -> exists y, In y l' /\ R x y.
Proof.
  induction 1 as [|a b l l' Hab _ IH]; simpl; [tauto|].
  intros [<-|Hin]; [exists b; auto|].
  destruct (IH Hin) as (y & Hy & Hr). exists y. auto.
Qed.

Lemma Forall2_In_r {A B} (R : A -> B -> Prop) l l' y :
  Forall2 R l l' -> In y l' -> exists x, In x l /\ R x y.
Proof.
  induction 1 as [|a b l l' Hab _ IH]; simpl; [tauto|].
  intros [<-|Hin]; [exists a; auto|].
  destruct (IH Hin) as (x & Hx & Hr). exists x. auto.
Qed.

(** Every request of a bulk send went to the normalized number of a
    recipient that is not empty and not opted out. *)
Lemma handled_requests recipients outs r :
  Forall2 (Handled st) recipients outs ->
  In r (List.concat (map requests outs)) ->
  exists x, In x recipients /\ normalizeNumber x <> "" /\
            ~ OptedOut (optouts st) (normalizeNumber x) /\
            Sms.to r = normalizeNumber x.
Proof.
  intros Houts Hin. apply in_concat in Hin. destruct Hin as (rs & Hrs & Hr).
  apply in_map_iff in Hrs. destruct Hrs as (o & <- & Ho).
  destruct (Forall2_In_r _ _ _ _ Houts Ho) as (x & Hx & H1 & H2 & H3).
  exists x. split; [exact Hx|].
  destruct (String.eqb_spec (normalizeNumber x) "") as [Ee|Ene].
  - rewrite (H1 Ee) in Hr. destruct Hr.
  - destruct (isOptedOut (optouts st) (normalizeNumber x)) eqn:Eb.
    + apply isOptedOut_spec in Eb. rewrite (H2 Ene Eb) in Hr. destruct Hr.
    + apply isOptedOut_false in Eb.
      destruct (H3 Ene Eb) as (_ & r' & Hreq & Hto).
      rewrite Hreq in Hr. destruct Hr as [<-|[]]. auto.
Qed.

(** C9. A bulk send that passes the checks of the request gives each
    recipient one outcome, in exactly one of [sent], [blocked] and
    [failed]; a recipient whose number normalizes to the empty string is
    in [failed] with the error [Invalid number], is not in [blocked] and
    causes no request to the transport; and the summary reports the
    number of recipients as [total] next to the sizes of the three
    partitions, which add up to it. *)
Theorem bulk_send_partitions :
  forall (recipients : list jsval) (from text : jsval),
    apiKey (getActiveCredentials env st) <> "" ->
    apiSecret (getActiveCredentials env st) <> "" ->
    recipients <> [] ->
    truthy from = true ->
    truthy text = true ->
    exists outs : list Outcome,
      let sent := entriesIn InSent outs in
      let blocked := entriesIn InBlocked outs in
      let failed := entriesIn InFailed outs in
      Forall2 (Handled st) recipients outs /\
      post_api_send_bulk vonage env st (Some recipients) from text
      = (Reply 200
           (JsObj
              [("summary",
                JsObj [("total", JsNum (Z.of_nat (List.length recipients)));
                       ("sent", JsNum (Z.of_nat (List.length sent)));
                       ("blocked", JsNum (Z.of_nat (List.length blocked)));
                       ("failed", JsNum (Z.of_nat (List.length failed)))]);
               ("results",
                JsObj [("sent", JsArr sent); ("blocked", JsArr blocked);
                       ("failed", JsArr failed)])]),
         List.concat (map requests outs)) /\
      List.length sent + List.length blocked + List.length failed
      = List.length recipients /\
      (forall recipient o,
          In (recipient, o) (combine recipients outs) ->
          normalizeNumber recipient = "" ->
          o = mkOutcome InFailed
                (JsObj (prop "to" recipient
                        ++ [("error", JsStr "Invalid number")])) []) /\
      (forall r, In r (List.concat (map requests outs)) -> Sms.to r <> "").
Proof.
  intros recipients from text Hk Hs Hne Hf Ht.
  destruct (post_api_send_bulk_outcomes recipients from text Hk Hs Hne Hf Ht)
    as (outs & Houts & Heq).
  exists outs. cbv zeta. split; [exact Houts|]. split; [exact Heq|].
  split; [|split].
  - rewrite entriesIn_total. symmetry. eapply Forall2_length; eauto.
  - clear Heq Hne.
    induction Houts as [|x o l l' Hxo _ IH]; simpl; [tauto|].
    intros recipient o' [[= <- <-]|Hin] Hempty; [now apply Hxo|eauto].
  - intros r Hin.
    destruct (handled_requests recipients outs r Houts Hin)
      as (x & _ & Hne' & _ & Hto).
    congruence.
Qed.

End TransportFacts.

(** ** The opt-out check of the three send endpoints *)

Section SendGate.

Variable vonage : nat -> Sms.request -> FetchResult.
Variable env : Env.
Variable st : Store.

Lemma post_api_send_checked to from text :
  apiKey (getActiveCredentials env st) <> "" ->
  apiSecret (getActiveCredentials env st) <> "" ->
  truthy to = true -> truthy from = true -> truthy text = true ->
  post_api_send vonage env st to from text =
  if isOptedOut (optouts st) (normalizeNumber to)
  then (Reply 403 (JsObj [("error", JsStr "Number is opted out");
                          ("to", JsStr (normalizeNumber to));
                          ("blocked", JsBool true);
                          ("status", JsStr "rejected")]), [])
  else (fst (post_api_send vonage env st to from text),
        [Sms.mk (apiKey (getActiveCredentials env st))
                (apiSecret (getActiveCredentials env st))
                (normalizeNumber to) (replaceNonDigits (strOf from))
                (strOf text)]).
Proof.
  intros Hk Hs Ht Hf Hx. unfold post_api_send.
  apply String.eqb_neq in Hk, Hs. rewrite Hk, Hs, Ht, Hf, Hx. simpl.
  now destruct (isOptedOut (optouts st) (normalizeNumber to)).
Qed.

Lemma post_api_send_requests to from text r :
  In r (snd (post_api_send vonage env st to from text)) ->
  Sms.to r = normalizeNumber to /\
  isOptedOut (optouts st) (normalizeNumber to) = false.
Proof.
  unfold post_api_send.
  destruct (_ || _); [intros []|].
  destruct (_ || _); [intros []|].
  destruct (isOptedOut (optouts st) (normalizeNumber to)); [intros []|].
  simpl. intros [<-|[]]. auto.
Qed.

Lemma post_sms_json_checked api_key api_secret to from text :
  orDefault api_key (apiKey (getActiveCredentials env st)) <> "" ->
  orDefault api_secret (apiSecret (getActiveCredentials env st)) <> "" ->
  truthy to = true -> truthy from = true -> truthy text = true ->
  post_sms_json vonage env st api_key api_secret to from text =
  if isOptedOut (optouts st) (normalizeNumber to)
  then (Reply 200 (JsObj
          [("message-count", JsStr "1");
           ("messages",
            JsArr [JsObj [("to", JsStr (normalizeNumber to));
                          ("status", JsStr "99");
                          ("error-text", JsStr "Number is opted out")]])]),
        [])
  else (fst (post_sms_json vonage env st api_key api_secret to from text),
        [Sms.mk (orDefault api_key (apiKey (getActiveCredentials env st)))
                (orDefault api_secret
                           (apiSecret (getActiveCredentials env st)))
                (normalizeNumber to) (strOf from) (strOf text)]).
Proof.
  intros Hk Hs Ht Hf Hx. unfold post_sms_json.
  apply String.eqb_neq in Hk, Hs. rewrite Hk, Hs, Ht, Hf, Hx. simpl.
  now destruct (isOptedOut (optouts st) (normalizeNumber to)).
Qed.

Lemma post_sms_json_requests api_key api_secret to from text r :
  In r (snd (post_sms_json vonage env st api_key api_secret to from text)) ->
  Sms.to r = normalizeNumber to /\
  isOptedOut (optouts st) (normalizeNumber to) = false.
Proof.
  unfold post_sms_json.
  destruct (_ || _); [intros []|].
  destruct (_ || _); [intros []|].
  destruct (isOptedOut (optouts st) (normalizeNumber to)); [intros []|].
  simpl. intros [<-|[]]. auto.
Qed.

Lemma post_api_send_bulk_requests recipients from text r :
  In r (snd (post_api_send_bulk vonage env st recipients from text)) ->
  exists l x, recipients = Some l /\ In x l /\
              normalizeNumber x <> "" /\
              ~ OptedOut (optouts st) (normalizeNumber x) /\
              Sms.to r = normalizeNumber x.
Proof.
  destruct (String.eqb_spec (apiKey (getActiveCredentials env st)) "")
    as [Hk|Hk];
    [unfold post_api_send_bulk; rewrite Hk; intros []|].
  destruct (String.eqb_spec (apiSecret (getActiveCredentials env st)) "")
    as [Hs|Hs];
    [unfold post_api_send_bulk; rewrite Hs, orb_true_r; intros []|].
  destruct recipients as [[|x0 l]|];
    try (unfold post_api_send_bulk;
         apply String.eqb_neq in Hk, Hs; rewrite Hk, Hs; intros []).
  destruct (truthy from) eqn:Hf;
    [|unfold post_api_send_bulk;
      apply String.eqb_neq in Hk, Hs; rewrite Hk, Hs, Hf; intros []].
  destruct (truthy text) eqn:Ht;
    [|unfold post_api_send_bulk;
      apply String.eqb_neq in Hk, Hs; rewrite Hk, Hs, Hf, Ht; intros []].
  destruct (post_api_send_bulk_outcomes vonage env st (x0 :: l) from text
              Hk Hs ltac:(discriminate) Hf Ht) as (outs & Houts & ->).
  simpl snd. intro Hin.
  destruct (handled_requests st (x0 :: l) outs r Houts Hin)
    as (x & Hx & H).
  exists (x0 :: l), x. auto.
Qed.

(** C1, as the code has it.  No request of any send endpoint goes to an
    opted-out number.  For a request that passes the checks of its
    endpoint: [POST /api/send] to an opted-out number answers 403 with
    [Number is opted out] and makes no request, [POST /sms/json] answers
    with the envelope of status 99 and makes no request, and otherwise
    each makes one request to the normalized number; [POST /api/send/bulk]
    reports a recipient whose normalized number is empty as failed, and one
    whose normalized number is not empty as blocked when it is opted out,
    and otherwise makes a request to it. *)
Theorem send_gate_rejects_opted_out :
  (forall to from text r,
      In r (snd (post_api_send vonage env st to from text)) ->
      ~ OptedOut (optouts st) (Sms.to r)) /\
  (forall api_key api_secret to from text r,
      In r (snd (post_sms_json vonage env st api_key api_secret to from text))
      -> ~ OptedOut (optouts st) (Sms.to r)) /\
  (forall recipients from text r,
      In r (snd (post_api_send_bulk vonage env st recipients from text)) ->
      ~ OptedOut (optouts st) (Sms.to r)) /\
  (forall to from text,
      apiKey (getActiveCredentials env st) <> "" ->
      apiSecret (getActiveCredentials env st) <> "" ->
      truthy to = true -> truthy from = true -> truthy text = true ->
      (OptedOut (optouts st) (normalizeNumber to) ->
       post_api_send vonage env st to from text
       = (Reply 403 (JsObj [("error", JsStr "Number is opted out");
                            ("to", JsStr (normalizeNumber to));
                            ("blocked", JsBool true);
                            ("status", JsStr "rejected")]), [])) /\
      (~ OptedOut (optouts st) (normalizeNumber to) ->
       exists r, snd (post_api_send vonage env st to from text) = [r] /\
                 Sms.to r = normalizeNumber to)) /\
  (forall api_key api_secret to from text,
      orDefault api_key (apiKey (getActiveCredentials env st)) <> "" ->
      orDefault api_secret (apiSecret (getActiveCredentials env st)) <> "" ->
      truthy to = true -> truthy from = true -> truthy text = true ->
      (OptedOut (optouts st) (normalizeNumber to) ->
       post_sms_json vonage env st api_key api_secret to from text
       = (Reply 200 (JsObj
            [("message-count", JsStr "1");
             ("messages",
              JsArr [JsObj [("to", JsStr (normalizeNumber to));
                            ("status", JsStr "99");
                            ("error-text", JsStr "Number is opted out")]])]),
          [])) /\
      (~ OptedOut (optouts st) (normalizeNumber to) ->
       exists r,
         snd (post_sms_json vonage env st api_key api_secret to from text)
         = [r] /\ Sms.to r = normalizeNumber to)) /\
  (forall recipients from text,
      apiKey (getActiveCredentials env st) <> "" ->
      apiSecret (getActiveCredentials env st) <> "" ->
      recipients <> [] ->
      truthy from = true -> truthy text = true ->
      exists outs,
        post_api_send_bulk vonage env st (Some recipients) from text
        = (Reply 200
             (bulkSummary recipients
                (mkResults (entriesIn InSent outs) (entriesIn InBlocked outs)
                           (entriesIn InFailed outs))),
           List.concat (map requests outs)) /\
        forall recipient,
          In recipient recipients ->
          (normalizeNumber recipient = "" ->
           In (JsObj (prop "to" recipient
                      ++ [("error", JsStr "Invalid number")]))
              (entriesIn InFailed outs)) /\
          (normalizeNumber recipient <> "" ->
           OptedOut (optouts st) (normalizeNumber recipient) ->
           In (JsObj [("to", JsStr (normalizeNumber recipient));
                      ("reason", JsStr "opted-out")])
              (entriesIn InBlocked outs)) /\
          (normalizeNumber recipient <> "" ->
           ~ OptedOut (optouts st) (normalizeNumber recipient) ->
           exists r, In r (List.concat (map requests outs)) /\
                     Sms.to r = normalizeNumber recipient)).
Proof.
  split; [|split; [|split; [|split; [|split]]]].
  - intros to from text r Hin.
    destruct (post_api_send_requests to from text r Hin) as [-> H].
    now apply isOptedOut_false.
  - intros api_key api_secret to from text r Hin.
    destruct (post_sms_json_requests api_key api_secret to from text r Hin)
      as [-> H].
    now apply isOptedOut_false.
  - intros recipients from text r Hin.
    destruct (post_api_send_bulk_requests recipients from text r Hin)
      as (l & x & _ & _ & _ & H & ->).
    exact H.
  - intros to from text Hk Hs Ht Hf Hx.
    rewrite (post_api_send_checked to from text Hk Hs Ht Hf Hx).
    split.
    + intro H. apply isOptedOut_spec in H. now rewrite H.
    + intro H. apply isOptedOut_false in H. rewrite H. simpl.
      eexists. split; reflexivity.
  - intros api_key api_secret to from text Hk Hs Ht Hf Hx.
    rewrite (post_sms_json_checked api_key api_secret to from text
               Hk Hs Ht Hf Hx).
    split.
    + intro H. apply isOptedOut_spec in H. now rewrite H.
    + intro H. apply isOptedOut_false in H. rewrite H. simpl.
      eexists. split; reflexivity.
  - intros recipients from text Hk Hs Hne Hf Hx.
    destruct (post_api_send_bulk_outcomes vonage env st recipients from text
                Hk Hs Hne Hf Hx) as (outs & Houts & Heq).
    exists outs. split; [exact Heq|].
    intros recipient Hin.
    destruct (Forall2_In_l _ _ _ _ Houts Hin) as (o & Ho & H1 & H2 & H3).
    split; [|split].
    + intro Hnum. unfold entriesIn.
      apply in_map_iff. exists o. rewrite (H1 Hnum). split; [reflexivity|].
      apply filter_In. split; [|reflexivity]. now rewrite <- (H1 Hnum).
    + intros Hnum Hb. unfold entriesIn.
      apply in_map_iff. exists o. rewrite (H2 Hnum Hb). split; [reflexivity|].
      apply filter_In. split; [|reflexivity]. now rewrite <- (H2 Hnum Hb).
    + intros Hnum Hb. destruct (H3 Hnum Hb) as (_ & r & Hreq & Hto).
      exists r. split; [|exact Hto].
      apply in_concat. exists (requests o). split.
      * now apply in_map.
      * rewrite Hreq. now left.
Qed.

End SendGate.

(** ** The theorems at the sample data *)

Example normalize_formatted :
  normalizeNumber (JStr "+44 7700 900000") = "447700900000".
Proof. reflexivity. Qed.

Example trim_upper_stop :
  toUpperCase (trim "  Stop please ") = "STOP PLEASE".
Proof. reflexivity. Qed.

Example split_trailing_comma : split "," "STOP, END," = ["STOP"; " END"; ""].
Proof. reflexivity. Qed.

Example classify_samples :
  map (classify sampleConfig)
      ["STOP"; "STOP PLEASE"; "START"; "HELLO"; "STOPPED"]
  = [OPTOUT; OPTOUT; OPTIN; NONE; NONE].
Proof. reflexivity. Qed.

(** Beyond ASCII: U+00EA has the upper-case form U+00CA, U+00DF the form
    [SS], and the no-break space U+00A0 is trimmed; so a phrase with U+00EA
    matches the text in capitals, [START] followed by a no-break space is
    the opt-in phrase, and a phrase that is a no-break space is the empty
    phrase, which matches nothing. *)
Example text_beyond_ascii :
  toUpperCase ("arr" ++ String "234" "t") = ("ARR" ++ String "202" "T")%string
  /\ toUpperCase ("stra" ++ String "223" "e") = "STRASSE"
  /\ trim ("START" ++ String "160" "") = "START"
  /\ map (fun text =>
            classify (mkConfig "1" "447418317717"
                               ("arr" ++ String "234" "t") "START")
                     (toUpperCase (trim text)))
         [("ARR" ++ String "202" "T")%string;
          ("start" ++ String "160" "")%string]
     = [OPTOUT; OPTIN]
  /\ classify (mkConfig "1" "447418317717" (String "160" "") "START")
              (toUpperCase (trim (String "160" " hello"))) = NONE.
Proof. repeat split. Qed.

(** The scenario of the specification: STOP from 447700900000 blocks the
    number, and a later send to it is rejected without a request. *)
Example scenario_stop_then_send :
  let st := fst (handleInboundSMS sampleStore 1700000000000
                   (inboundFrom "447700900000" "STOP")) in
  optouts st = [OObject "447700900000" "1700000000000" JUndefined] /\
  map action (history st) = ["optout"] /\
  post_api_send transportOk noEnv st (JStr "447700900000")
                (JStr "447418317717") (JStr "Hello")
  = (Reply 403 (JsObj [("error", JsStr "Number is opted out");
                       ("to", JsStr "447700900000");
                       ("blocked", JsBool true);
                       ("status", JsStr "rejected")]), []).
Proof. repeat split. Qed.

(** The same identity in two spellings is stored once by the bulk opt-out. *)
Example scenario_bulk_optout_same_identity :
  let r := post_api_optout_bulk sampleStore 1700000000000
             (Some [JStr "+44 7700 900000"; JStr "447700900000"]) in
  List.length (optouts (fst r)) = 1%nat /\
  getProp "results" (bodyOf (snd r))
  = Some (JsObj [("added", JsArr [JsStr "447700900000"]);
                 ("alreadyBlocked", JsArr [JsStr "447700900000"])]).
Proof. split; reflexivity. Qed.

Lemma no_match_by_test T phrases :
  existsb (phraseMatches T) phrases = false -> ~ SomeMatch phrases T.
Proof.
  intros E H. apply existsb_phraseMatches in H. congruence.
Qed.

Lemma inbound_classification_witness :
  findConfig (optoutConfigs sampleStore)
             (normalizeNumber (to (inboundFrom "447700900000" "Stop please")))
  = Some sampleConfig /\
  handleInboundSMS sampleStore 1700000000000
                   (inboundFrom "447700900000" "Stop please")
  = (inboundOptout sampleStore 1700000000000 sampleConfig "447700900000"
                   (JStr "447418317717"),
     Reply 200 (JsStr "OK")).
Proof.
  split; [reflexivity|].
  destruct (inbound_classification sampleStore 1700000000000
              (inboundFrom "447700900000" "Stop please") sampleConfig eq_refl)
    as (_ & _ & _ & _ & H).
  apply H; [reflexivity|]. intro E. cbv in E. discriminate E.
Defined.

Lemma inbound_optin_always_logged_witness :
  ~ OptedOut (optouts sampleStore) "447700900000" /\
  history (fst (handleInboundSMS sampleStore 1700000000000
                  (inboundFrom "447700900000" "START")))
  = [mkHistory "447700900000" "optin" 1700000000000 (JStr "447418317717")
               (JStr "1700000000000")] /\
  optouts (fst (handleInboundSMS sampleStore 1700000000000
                  (inboundFrom "447700900000" "START"))) = [].
Proof.
  assert (~ OptedOut (optouts sampleStore) "447700900000") as Habsent
      by (intros [o [[] _]]).
  split; [exact Habsent|].
  destruct (inbound_optin_always_logged sampleStore 1700000000000
              (inboundFrom "447700900000" "START") sampleConfig) as [Hh Ho].
  - reflexivity.
  - intro E. cbv in E. discriminate E.
  - reflexivity.
  - apply no_match_by_test. reflexivity.
  - apply existsb_phraseMatches. reflexivity.
  - split; [exact Hh|]. apply Ho. exact Habsent.
Defined.

Lemma inbound_ignored_leaves_store_witness :
  handleInboundSMS sampleStore 1700000000000
    (mkInbound (JStr "447700900000") JUndefined (JStr "15550001111")
               (JStr "STOP") JUndefined)
  = (sampleStore, Reply 200 (JsStr "OK")).
Proof.
  apply inbound_ignored_leaves_store. left.
  intros c [<-|[]]. intro E. cbv in E. discriminate E.
Defined.

Lemma consent_round_trip_witness :
  get_api_check blockedStore "+44 7700 900000"
  = Reply 200 (JsObj [("number", JsStr "447700900000");
                      ("blocked", JsBool true)]) /\
  (List.length (entriesOf "447700900000" (optouts blockedStore)) <= 1)%nat /\
  get_api_check
    (fst (post_api_optin blockedStore 1700000003000 (JStr "+44 7700 900000")))
    "+44 7700 900000"
  = Reply 200 (JsObj [("number", JsStr "447700900000");
                      ("blocked", JsBool false)]) /\
  List.length
    (entriesOf "447700900000"
       (optouts
          (fst (post_api_optout
                  (fst (post_api_optout blockedStore 1700000003000
                                        (JStr "+44 7700 900000")))
                  1700000004000 (JStr "+44 7700 900000"))))) = 1%nat.
Proof.
  assert (List.length (entriesOf "447700900000" (optouts blockedStore)) <= 1)%nat
    as Hle by (vm_compute; lia).
  split; [reflexivity|]. split; [exact Hle|].
  exact (proj2 (consent_round_trip blockedStore 1700000003000 1700000004000
                                   "+44 7700 900000") Hle).
Defined.

(** C3, the claim as it is written fails: with one number twice in the
    opt-out list, the opt-in removes the first entry only, the check still
    reports [blocked: true], and two opt-outs leave both entries. *)
Lemma optin_leaves_second_entry :
  get_api_check
    (fst (post_api_optin legacyStore 1700000000000 (JStr "447700900000")))
    "447700900000"
  = Reply 200 (JsObj [("number", JsStr "447700900000");
                      ("blocked", JsBool true)]) /\
  List.length
    (entriesOf "447700900000"
       (optouts
          (fst (post_api_optout
                  (fst (post_api_optout legacyStore 1700000000000
                                        (JStr "447700900000")))
                  1700000000001 (JStr "447700900000"))))) = 2%nat.
Proof. split; reflexivity. Qed.

Lemma api_optin_logs_only_removals_witness :
  OptedOut (optouts twoNumbersStore) "447700900001" /\
  history (fst (post_api_optin twoNumbersStore 1700000000000
                               (JStr "+44 7700 900001")))
  = [mkHistory "447700900001" "optin" 1700000000000 (JStr "manual")
               JUndefined] /\
  RemovesEntry "447700900001" (optouts twoNumbersStore)
    (optouts (fst (post_api_optin twoNumbersStore 1700000000000
                                  (JStr "+44 7700 900001")))) /\
  fst (post_api_optin twoNumbersStore 1700000000000 (JStr "447700900009"))
  = twoNumbersStore /\
  fst (post_api_optin_bulk twoNumbersStore 1700000000000
         (Some [JStr "447700900009"; JStr "+44 7700 900002"]))
  = twoNumbersStore /\
  ~ OptedOut
      (optouts (fst (post_api_optin_bulk twoNumbersStore 1700000000000
                       (Some [JStr "+44 7700 900001"]))))
      "447700900001".
Proof.
  assert (OptedOut (optouts twoNumbersStore) "447700900001") as Hin
      by (apply isOptedOut_spec; reflexivity).
  assert (forall n, n = "447700900009" \/ n = "447700900002" ->
                    ~ OptedOut (optouts twoNumbersStore) n) as Habsent
      by (intros n [->| ->]; apply isOptedOut_false; reflexivity).
  destruct (api_optin_logs_only_removals twoNumbersStore 1700000000000)
    as [Hone Hbulk].
  split; [exact Hin|].
  destruct (Hone (JStr "+44 7700 900001")) as (_ & _ & H).
  destruct (H Hin) as (Hh & _ & _ & Hr).
  split; [exact Hh|]. split; [exact Hr|]. split; [|split].
  - destruct (Hone (JStr "447700900009")) as (_ & H9 & _).
    apply H9, Habsent. now left.
  - destruct (Hbulk [JStr "447700900009"; JStr "+44 7700 900002"])
      as (o & removed & notFound & _ & _ & _ & _ & Hnone & _);
      [discriminate|].
    destruct Hnone as (Hst & _); [|exact Hst].
    intros x [<-|[<-|[]]]; apply Habsent; [now left|now right].
  - destruct (Hbulk [JStr "+44 7700 900001"])
      as (o & removed & notFound & Heq & _ & _ & _ & _ & Hrun & _ & Hgone);
      [discriminate|].
    rewrite Heq. cbn [fst optouts]. apply Hgone.
    + intro n. unfold entriesOf, twoNumbersStore, sameNumber.
      cbn [optouts filter].
      change (normalizeNumber
                (entryNumber
                   (OObject "447700900000" "manual" (JStr "+44 7700 900000"))))
        with "447700900000".
      change (normalizeNumber
                (entryNumber
                   (OObject "447700900001" "api" (JStr "447700900001"))))
        with "447700900001".
      destruct (String.eqb_spec "447700900000" n);
        destruct (String.eqb_spec "447700900001" n); simpl;
        try lia; congruence.
    + inversion Hrun as [|? ? ? ? ? ? He _|? ? ? ? ? ? ? _ _ _
                         |? ? ? ? ? ? _ Hnot _]; subst.
      * discriminate He.
      * now left.
      * exfalso. exact (Hnot Hin).
Defined.

(** C10, the claim as it is written fails: the bulk opt-in passes over a
    number whose normalized form is empty; it is absent from the opt-out
    list and is reported neither as removed nor as not found. *)
Lemma bulk_optin_skips_empty_number :
  ~ OptedOut (optouts sampleStore) (normalizeNumber (JStr "abc")) /\
  post_api_optin_bulk sampleStore 1700000000000 (Some [JStr "abc"])
  = (sampleStore,
     Reply 200 (JsObj
       [("success", JsBool true);
        ("summary", JsObj [("total", JsNum 1); ("removed", JsNum 0);
                           ("notFound", JsNum 0)]);
        ("results", JsObj [("removed", JsArr []); ("notFound", JsArr [])])])).
Proof.
  split; [intros [o [[] _]]|reflexivity].
Qed.

Lemma stats_count_last_day_witness :
  (forall e, In e (history dayStore) -> (timestamp e <= 1700000000000)%Z) /\
  get_api_stats dayStore 1700000000000
  = Reply 200 (JsObj [("optins", JsNum 1); ("optouts", JsNum 1)]).
Proof.
  assert (forall e, In e (history dayStore) ->
                    (timestamp e <= 1700000000000)%Z) as Hpast.
  { intros e [<-|[<-|[<-|[]]]]; simpl; lia. }
  split; [exact Hpast|].
  destruct (stats_count_last_day dayStore 1700000000000) as [_ H].
  exact (H Hpast).
Defined.

(** C7, the claim as it is written fails: an entry stamped later than now
    is outside the window from now - 24h to now and is counted. *)
Lemma stats_count_entry_after_now :
  countOf "optin" (inLastDay 1700000000000) (history aheadStore) = 0%Z /\
  get_api_stats aheadStore 1700000000000
  = Reply 200 (JsObj [("optins", JsNum 1); ("optouts", JsNum 0)]).
Proof. split; reflexivity. Qed.

Lemma bulk_send_partitions_witness :
  exists outs : list Outcome,
    Forall2 (Handled blockedStore)
            [JStr "447700900000"; JStr "abc"; JStr "+44 7123 456789"] outs /\
    (List.length (entriesIn InSent outs)
     + List.length (entriesIn InBlocked outs)
     + List.length (entriesIn InFailed outs) = 3)%nat.
Proof.
  destruct (bulk_send_partitions transportOk noEnv blockedStore
              [JStr "447700900000"; JStr "abc"; JStr "+44 7123 456789"]
              (JStr "447418317717") (JStr "Hello"))
    as (outs & Houts & _ & Hlen & _);
    try reflexivity; try discriminate.
  exists outs. split; [exact Houts|exact Hlen].
Defined.

Example bulk_send_sample :
  post_api_send_bulk transportOk noEnv blockedStore
    (Some [JStr "447700900000"; JStr "abc"; JStr "+44 7123 456789"])
    (JStr "447418317717") (JStr "Hello")
  = (Reply 200 (JsObj
       [("summary", JsObj [("total", JsNum 3); ("sent", JsNum 1);
                           ("blocked", JsNum 1); ("failed", JsNum 1)]);
        ("results",
         JsObj [("sent", JsArr [JsObj [("to", JsStr "447123456789");
                                       ("messageId", JsStr "abc123")]]);
                ("blocked", JsArr [JsObj [("to", JsStr "447700900000");
                                          ("reason", JsStr "opted-out")]]);
                ("failed", JsArr [JsObj [("to", JsStr "abc");
                                         ("error", JsStr "Invalid number")]])])]),
     [Sms.mk "abcd1234" "s3cret" "447123456789" "447418317717" "Hello"]).
Proof. reflexivity. Qed.

(** C9, the claim as it is written fails: a bulk send request without
    [from] is answered 400 with an error; no recipient gets an outcome, no
    summary is returned and no request is made, not even for a recipient
    that is not opted out. *)
Lemma bulk_send_without_from_no_partition :
  post_api_send_bulk transportOk noEnv blockedStore
    (Some [JStr "447700900000"; JStr "abc"; JStr "+44 7123 456789"])
    JUndefined (JStr "Hello")
  = (Reply 400 (JsObj [("error",
                        JsStr "Missing required fields: from, text")]), []).
Proof. reflexivity. Qed.

Lemma send_gate_rejects_opted_out_witness :
  OptedOut (optouts blockedStore) (normalizeNumber (JStr "+44 7700 900000")) /\
  post_api_send transportOk noEnv blockedStore (JStr "+44 7700 900000")
                (JStr "447418317717") (JStr "Hello")
  = (Reply 403 (JsObj [("error", JsStr "Number is opted out");
                       ("to", JsStr "447700900000");
                       ("blocked", JsBool true);
                       ("status", JsStr "rejected")]), []) /\
  post_sms_json transportOk noEnv blockedStore JUndefined JUndefined
                (JStr "+44 7700 900000") (JStr "447418317717") (JStr "Hello")
  = (Reply 200 (JsObj
       [("message-count", JsStr "1");
        ("messages",
         JsArr [JsObj [("to", JsStr "447700900000");
                       ("status", JsStr "99");
                       ("error-text", JsStr "Number is opted out")]])]), []).
Proof.
  assert (OptedOut (optouts blockedStore)
                   (normalizeNumber (JStr "+44 7700 900000"))) as Hb
      by (apply isOptedOut_spec; reflexivity).
  split; [exact Hb|].
  destruct (send_gate_rejects_opted_out transportOk noEnv blockedStore)
    as (_ & _ & _ & Hsend & Hshim & _).
  assert (apiKey (getActiveCredentials noEnv blockedStore) <> "") as Hk
      by discriminate.
  assert (apiSecret (getActiveCredentials noEnv blockedStore) <> "") as Hs
      by discriminate.
  split.
  - exact (proj1 (Hsend (JStr "+44 7700 900000") (JStr "447418317717")
                        (JStr "Hello") Hk Hs eq_refl eq_refl eq_refl) Hb).
  - exact (proj1 (Hshim JUndefined JUndefined (JStr "+44 7700 900000")
                        (JStr "447418317717") (JStr "Hello")
                        Hk Hs eq_refl eq_refl eq_refl) Hb).
Defined.

(** C1, the claim as it is written fails: with an entry whose number is
    empty in the opt-out list, a recipient of a bulk send that normalizes to
    the empty string is opted out in the sense of the claim and is reported
    as failed, not as blocked. *)
Lemma bulk_send_empty_number_not_blocked :
  OptedOut (optouts emptyNumberStore) (normalizeNumber (JStr "abc")) /\
  post_api_send_bulk transportOk noEnv emptyNumberStore
    (Some [JStr "abc"]) (JStr "447418317717") (JStr "Hello")
  = (Reply 200 (JsObj
       [("summary", JsObj [("total", JsNum 1); ("sent", JsNum 0);
                           ("blocked", JsNum 0); ("failed", JsNum 1)]);
        ("results",
         JsObj [("sent", JsArr []);
                ("blocked", JsArr []);
                ("failed", JsArr [JsObj [("to", JsStr "abc");
                                         ("error", JsStr "Invalid number")]])])]),
     []).
Proof.
  split; [apply isOptedOut_spec|]; reflexivity.
Qed.

(** * Further properties *)

(** ** The opt-out list under opt-out and opt-in *)

Lemma findIndex_app_last {A} (f : A -> bool) xs x :
  existsb f xs = false -> f x = true ->
  findIndex f (xs ++ [x]) = Z.of_nat (List.length xs).
Proof.
  intros He Hx. induction xs as [|y xs IH]; simpl in *.
  - now rewrite Hx.
  - apply orb_false_iff in He. destruct He as [Hy He]. rewrite Hy.
    rewrite (IH He).
    destruct (Z.ltb_spec (Z.of_nat (List.length xs)) 0); lia.
Qed.

Lemma removeAt_app_last {A} (xs : list A) x :
  removeAt (List.length xs) (xs ++ [x]) = xs.
Proof. induction xs as [|y xs IH]; simpl; congruence. Qed.

Lemma splice_appended {A} (f : A -> bool) xs x :
  existsb f xs = false -> f x = true ->
  splice1 (findIndex f (xs ++ [x])) (xs ++ [x]) = xs.
Proof.
  intros He Hx. unfold splice1. rewrite (findIndex_app_last f xs x He Hx).
  rewrite Nat2Z.id. apply removeAt_app_last.
Qed.

(** Removing the first element [f] accepts leaves the elements of a test
    that excludes [f]. *)
Lemma splice_first_other {A} (f g : A -> bool) xs :
  (forall x, f x = true -> g x = false) ->
  existsb f xs = true ->
  filter g (splice1 (findIndex f xs) xs) = filter g xs.
Proof.
  intros Hfg He. unfold splice1.
  induction xs as [|x xs IH]; simpl in *; [discriminate|].
  destruct (f x) eqn:Fx; simpl.
  - now rewrite (Hfg x Fx).
  - simpl in He. pose proof (findIndex_range f xs) as R.
    pose proof (findIndex_none f xs) as N.
    destruct (Z.ltb_spec (findIndex f xs) 0) as [Hlt|Hge].
    + exfalso. assert ((findIndex f xs >? -1)%Z = false) as E
        by (destruct (Z.gtb_spec (findIndex f xs) (-1)); [lia|reflexivity]).
      apply N in E. congruence.
    + replace (Z.to_nat (findIndex f xs + 1))
        with (S (Z.to_nat (findIndex f xs))) by lia.
      simpl. now rewrite (IH He).
Qed.

Lemma existsb_filter_eq {A} (g : A -> bool) xs ys :
  filter g xs = filter g ys -> existsb g xs = existsb g ys.
Proof.
  intro H.
  destruct (existsb g xs) eqn:Ex, (existsb g ys) eqn:Ey; auto.
  - apply existsb_filter_length in Ex. apply existsb_filter_zero in Ey.
    rewrite H in Ex. lia.
  - apply existsb_filter_length in Ey. apply existsb_filter_zero in Ex.
    rewrite H in Ex. lia.
Qed.

Lemma sameNumber_other n m o :
  m <> n -> sameNumber n o = true -> sameNumber m o = false.
Proof.
  unfold sameNumber. intros Hne H. apply String.eqb_eq in H.
  apply String.eqb_neq. congruence.
Qed.

Lemma isOptedOut_add_other entries x configId originalNumber m :
  m <> normalizeNumber x ->
  isOptedOut (entries ++ [OObject (normalizeNumber x) configId originalNumber])
             m
  = isOptedOut entries m.
Proof.
  intro Hne. unfold isOptedOut. rewrite existsb_app. simpl.
  rewrite (sameNumber_other (normalizeNumber x) m _ Hne (sameNumber_new _ _ _)).
  now rewrite !orb_false_r.
Qed.

Lemma isOptedOut_remove_other entries n m :
  m <> n ->
  isOptedOut entries n = true ->
  isOptedOut (splice1 (findIndex (sameNumber n) entries) entries) m
  = isOptedOut entries m.
Proof.
  intros Hne He. unfold isOptedOut. apply existsb_filter_eq.
  apply splice_first_other; [|exact He].
  intros o. now apply sameNumber_other.
Qed.

(** X1. A list that holds no number twice still holds none twice after any
    handler that changes it: the manual and bulk opt-out and opt-in and the
    inbound webhook. *)
Theorem handlers_keep_one_entry_per_number :
  forall (st : Store) (now : Z),
    OneEntryPerNumber (optouts st) ->
    (forall number,
        OneEntryPerNumber (optouts (fst (post_api_optout st now number)))) /\
    (forall number,
        OneEntryPerNumber (optouts (fst (post_api_optin st now number)))) /\
    (forall numbers,
        OneEntryPerNumber
          (optouts (fst (post_api_optout_bulk st now numbers)))) /\
    (forall numbers,
        OneEntryPerNumber
          (optouts (fst (post_api_optin_bulk st now numbers)))) /\
    (forall data,
        OneEntryPerNumber (optouts (fst (handleInboundSMS st now data)))).
Proof.
  intros st now H. repeat split; intros.
  - now apply post_api_optout_keeps_one.
  - now apply post_api_optin_keeps_one.
  - now apply post_api_optout_bulk_keeps_one.
  - now apply post_api_optin_bulk_keeps_one.
  - now apply handleInboundSMS_keeps_one.
Qed.

Lemma handlers_keep_one_entry_per_number_witness :
  OneEntryPerNumber (optouts sampleStore) /\
  OneEntryPerNumber (optouts blockedStore).
Proof.
  assert (OneEntryPerNumber (optouts sampleStore)) as H0
      by (intro n; simpl; lia).
  split; [exact H0|].
  destruct (handlers_keep_one_entry_per_number sampleStore 1700000000000 H0)
    as (_ & _ & _ & _ & H).
  exact (H (inboundFrom "447700900000" "STOP")).
Defined.

(** X2. A manual opt-out of a number that is already in the list changes
    nothing, so the same opt-out twice in a row is the opt-out once: one
    entry, one history record. *)
Theorem optout_twice_is_once :
  forall (st : Store) (now now' : Z) (number : jsval),
    (OptedOut (optouts st) (normalizeNumber number) ->
     post_api_optout st now number
     = (st, Reply 200 (JsObj [("success", JsBool true)]))) /\
    post_api_optout (fst (post_api_optout st now number)) now' number
    = (fst (post_api_optout st now number),
       Reply 200 (JsObj [("success", JsBool true)])).
Proof.
  intros st now now' number.
  assert (forall s t, isOptedOut (optouts s) (normalizeNumber number) = true ->
                      post_api_optout s t number
                      = (s, Reply 200 (JsObj [("success", JsBool true)]))) as H.
  { intros s t E. unfold post_api_optout. now rewrite E. }
  split.
  - intro Hb. apply H. now apply isOptedOut_spec.
  - apply H. apply optedOut_after_optout.
Qed.

Lemma optout_twice_is_once_witness :
  post_api_optout blockedStore 1700000003000 (JStr "+44 7700 900000")
  = (blockedStore, Reply 200 (JsObj [("success", JsBool true)])).
Proof.
  apply (proj1 (optout_twice_is_once blockedStore 1700000003000 0
                                     (JStr "+44 7700 900000"))).
  apply isOptedOut_spec. vm_compute. reflexivity.
Defined.

(** X3. For a number that is not in the list, a manual opt-out followed by
    a manual opt-in gives back the list as it was, entry for entry, and
    leaves the two records in the history. *)
Theorem optout_then_optin_restores_list :
  forall (st : Store) (now now' : Z) (number : jsval),
    ~ OptedOut (optouts st) (normalizeNumber number) ->
    let st' := fst (post_api_optin (fst (post_api_optout st now number))
                                   now' number) in
    optouts st' = optouts st /\
    history st' =
      history st ++
      [mkHistory (normalizeNumber number) "optout" now (JStr "manual")
                 JUndefined;
       mkHistory (normalizeNumber number) "optin" now' (JStr "manual")
                 JUndefined].
Proof.
  intros st now now' number Habs. apply isOptedOut_false in Habs.
  assert (existsb (sameNumber (normalizeNumber number))
                  (optouts st ++ [OObject (normalizeNumber number) "manual"
                                          number]) = true) as Hin.
  { rewrite existsb_app. simpl. rewrite sameNumber_new.
    now rewrite orb_true_r. }
  unfold post_api_optout. rewrite Habs. simpl.
  unfold post_api_optin. simpl.
  apply findIndex_some in Hin. rewrite Hin. simpl.
  rewrite (splice_appended _ _ _ Habs (sameNumber_new _ _ _)).
  split; [reflexivity|]. now rewrite <- app_assoc.
Qed.

Lemma optout_then_optin_restores_list_witness :
  ~ OptedOut (optouts legacyStore) (normalizeNumber (JStr "+1 555 0100")) /\
  optouts (fst (post_api_optin
                  (fst (post_api_optout legacyStore 1700000000000
                                        (JStr "+1 555 0100")))
                  1700000000001 (JStr "15550100")))
  = optouts legacyStore.
Proof.
  assert (~ OptedOut (optouts legacyStore)
                     (normalizeNumber (JStr "+1 555 0100"))) as H
      by (apply isOptedOut_false; reflexivity).
  split; [exact H|].
  destruct (optout_then_optin_restores_list legacyStore 1700000000000
              1700000000001 (JStr "+1 555 0100") H) as [Ho _].
  exact Ho.
Defined.

(** X4. An opt-out or opt-in of one number, manual or by an inbound
    message, does not change whether any other number is opted out. *)
Theorem other_numbers_keep_their_state :
  forall (st : Store) (now : Z) (m : string),
    (forall number,
        m <> normalizeNumber number ->
        isOptedOut (optouts (fst (post_api_optout st now number))) m
        = isOptedOut (optouts st) m) /\
    (forall number,
        m <> normalizeNumber number ->
        isOptedOut (optouts (fst (post_api_optin st now number))) m
        = isOptedOut (optouts st) m) /\
    (forall data,
        m <> normalizeNumber (jsOr (msisdn data) (from data)) ->
        isOptedOut (optouts (fst (handleInboundSMS st now data))) m
        = isOptedOut (optouts st) m).
Proof.
  intros st now m. repeat split.
  - intros number Hne. rewrite optouts_after_optout.
    destruct (isOptedOut (optouts st) (normalizeNumber number));
      [reflexivity|now apply isOptedOut_add_other].
  - intros number Hne. rewrite optouts_after_optin.
    destruct (isOptedOut (optouts st) (normalizeNumber number)) eqn:E;
      [now apply isOptedOut_remove_other|reflexivity].
  - intros data Hne. unfold handleInboundSMS.
    destruct (_ || _); [reflexivity|].
    destruct (findConfig _ _) as [mc|]; [|reflexivity].
    destruct (classify mc (inboundText data)); simpl; [| |reflexivity].
    + destruct (isOptedOut (optouts st) _) eqn:E; simpl;
        [reflexivity|now apply isOptedOut_add_other].
    + destruct (_ >? _)%Z eqn:E; simpl; [|reflexivity].
      apply findIndex_some in E. now apply isOptedOut_remove_other.
Qed.

Lemma other_numbers_keep_their_state_witness :
  isOptedOut
    (optouts (fst (post_api_optin blockedStore 1700000000000
                                  (JStr "447700900001"))))
    "447700900000"
  = isOptedOut (optouts blockedStore) "447700900000".
Proof.
  destruct (other_numbers_keep_their_state blockedStore 1700000000000
              "447700900000") as (_ & H & _).
  apply H. intro E. cbv in E. discriminate E.
Defined.

(** ** Bulk opt-out *)

(** What the loop of the bulk opt-out keeps true, whatever it started
    from: [raw] are the numbers it added, as they were given. *)
Lemma bulkOptoutStep_fold ts numbers :
  forall o h added blocked,
  exists raw blocked1,
    fold_left (bulkOptoutStep ts) numbers (o, h, added, blocked)
    = (o ++ map apiEntry raw, h ++ map (optoutRecord ts) raw,
       added ++ map normalizeNumber raw, blocked ++ blocked1) /\
    NoDup (map normalizeNumber raw) /\
    (forall x, In x raw -> isOptedOut o (normalizeNumber x) = false) /\
    (forall x, In x numbers -> normalizeNumber x <> "" ->
               isOptedOut (o ++ map apiEntry raw) (normalizeNumber x) = true) /\
    List.length raw + List.length blocked1
    = List.length (filter nonEmpty (map normalizeNumber numbers)).
Proof.
  induction numbers as [|x numbers IH]; intros o h added blocked.
  - exists [], []. simpl. rewrite !app_nil_r.
    repeat split; auto; try constructor; intros ? [].
  - simpl fold_left. unfold nonEmpty.
    destruct (String.eqb_spec (normalizeNumber x) "") as [Ee|Ene].
    + destruct (IH o h added blocked)
        as (raw & b1 & Hf & Hnd & Hnew & Hin & Hlen).
      exists raw, b1. rewrite Hf.
      split; [reflexivity|]. split; [exact Hnd|]. split; [exact Hnew|]. split.
      * intros y [<-|Hy] Hne; [congruence|now apply Hin].
      * simpl. rewrite Ee. exact Hlen.
    + destruct (isOptedOut o (normalizeNumber x)) eqn:Eo; simpl negb; cbv iota.
      * destruct (IH o h added (blocked ++ [normalizeNumber x]))
          as (raw & b1 & Hf & Hnd & Hnew & Hin & Hlen).
        exists raw, (normalizeNumber x :: b1). rewrite Hf.
        split; [now rewrite <- app_assoc|]. split; [exact Hnd|].
        split; [exact Hnew|]. split.
        -- intros y [<-|Hy] Hne; [|now apply Hin].
           unfold isOptedOut in *. rewrite existsb_app, Eo. reflexivity.
        -- simpl. apply String.eqb_neq in Ene. rewrite Ene. simpl.
           unfold nonEmpty in Hlen. lia.
      * destruct (IH (o ++ [OObject (normalizeNumber x) "api" x])
                     (h ++ [mkHistory (normalizeNumber x) "optout" ts
                                      (JStr "api") JUndefined])
                     (added ++ [normalizeNumber x]) blocked)
          as (raw & b1 & Hf & Hnd & Hnew & Hin & Hlen).
        exists (x :: raw), b1. rewrite Hf. simpl.
        rewrite <- !app_assoc. simpl.
        split; [reflexivity|]. split; [|split; [|split]].
        -- constructor; [|exact Hnd].
           intro Hx. apply in_map_iff in Hx. destruct Hx as (y & Hy & Hyr).
           specialize (Hnew y Hyr). rewrite Hy in Hnew.
           unfold isOptedOut in Hnew. rewrite existsb_app in Hnew. simpl in Hnew.
           rewrite sameNumber_new in Hnew. rewrite orb_true_r in Hnew.
           discriminate.
        -- intros y [<-|Hy]; [exact Eo|].
           specialize (Hnew y Hy). unfold isOptedOut in *.
           rewrite existsb_app in Hnew. now apply orb_false_iff in Hnew.
        -- intros y [<-|Hy] Hne.
           ++ unfold isOptedOut. rewrite existsb_app.
              cbn [existsb]. unfold apiEntry. rewrite sameNumber_new.
              now rewrite orb_true_r.
           ++ specialize (Hin y Hy Hne). now rewrite <- app_assoc in Hin.
        -- apply String.eqb_neq in Ene. rewrite Ene. simpl.
           unfold nonEmpty in Hlen. lia.
Qed.

(** X5. [POST /api/optout/bulk] with a non-empty array only adds: it
    appends one entry and one [optout] record for each number it reports as
    added, in order, none of them a number the list had and no number twice
    whatever its spelling; afterwards every number of the request with a
    digit in it is opted out; and [added] and [alreadyBlocked] together
    count the numbers of the request with a digit in them. *)
Theorem bulk_optout_adds_each_number_once :
  forall (st : Store) (now : Z) (numbers : list jsval),
    numbers <> [] ->
    exists (raw : list jsval) (alreadyBlocked : list string),
      post_api_optout_bulk st now (Some numbers)
      = (mkStore (optoutConfigs st) (credentials st)
           (optouts st ++
            map (fun x => OObject (normalizeNumber x) "api" x) raw)
           (history st ++
            map (fun x => mkHistory (normalizeNumber x) "optout" now
                                    (JStr "api") JUndefined) raw),
         Reply 200 (JsObj
           [("success", JsBool true);
            ("summary",
             JsObj [("total", JsNum (Z.of_nat (List.length numbers)));
                    ("added", JsNum (Z.of_nat (List.length raw)));
                    ("alreadyBlocked",
                     JsNum (Z.of_nat (List.length alreadyBlocked)))]);
            ("results",
             JsObj [("added", JsArr (map JsStr (map normalizeNumber raw)));
                    ("alreadyBlocked", JsArr (map JsStr alreadyBlocked))])]))
      /\ NoDup (map normalizeNumber raw)
      /\ (forall x, In x raw -> ~ OptedOut (optouts st) (normalizeNumber x))
      /\ (forall x, In x numbers -> normalizeNumber x <> "" ->
                    OptedOut
                      (optouts (fst (post_api_optout_bulk st now (Some numbers))))
                      (normalizeNumber x))
      /\ List.length raw + List.length alreadyBlocked
         = List.length (filter (fun n => negb (n =? ""))
                               (map normalizeNumber numbers)).
Proof.
  intros st now numbers Hne.
  destruct (bulkOptoutStep_fold now numbers (optouts st) (history st) [] [])
    as (raw & b1 & Hf & Hnd & Hnew & Hin & Hlen).
  exists raw, b1.
  assert (post_api_optout_bulk st now (Some numbers)
          = (mkStore (optoutConfigs st) (credentials st)
               (optouts st ++ map apiEntry raw)
               (history st ++ map (optoutRecord now) raw),
             Reply 200 (JsObj
               [("success", JsBool true);
                ("summary", JsObj [("total", len numbers);
                                   ("added", len (map normalizeNumber raw));
                                   ("alreadyBlocked", len b1)]);
                ("results",
                 JsObj [("added", JsArr (map JsStr (map normalizeNumber raw)));
                        ("alreadyBlocked", JsArr (map JsStr b1))])])))
    as Heq.
  { unfold post_api_optout_bulk.
    destruct numbers as [|x numbers]; [congruence|].
    rewrite Hf. reflexivity. }
  split; [|split; [exact Hnd|split; [|split; [|exact Hlen]]]].
  - rewrite Heq. unfold len. now rewrite length_map.
  - intros x Hx. apply isOptedOut_false. now apply Hnew.
  - intros x Hx Hnum. rewrite Heq. simpl. apply isOptedOut_spec.
    now apply Hin.
Qed.

Lemma bulk_optout_adds_each_number_once_witness :
  exists (raw : list jsval) (alreadyBlocked : list string),
    optouts (fst (post_api_optout_bulk sampleStore 1700000000000
                    (Some [JStr "+44 7700 900000"; JStr "447700900000"])))
    = optouts sampleStore
      ++ map (fun x => OObject (normalizeNumber x) "api" x) raw
    /\ (List.length raw + List.length alreadyBlocked = 2)%nat.
Proof.
  destruct (bulk_optout_adds_each_number_once sampleStore 1700000000000
              [JStr "+44 7700 900000"; JStr "447700900000"])
    as (raw & blocked1 & Heq & _ & _ & _ & Hlen); [discriminate|].
  exists raw, blocked1. split; [now rewrite Heq|exact Hlen].
Defined.

(** ** One number in several spellings *)

(** X6. After a manual opt-out of a number, a check, a single send and a
    send through [/sms/json] for any spelling of that number report it
    blocked, and neither send makes a request. *)
Theorem optout_blocks_every_spelling :
  forall (vonage : nat -> Sms.request -> FetchResult) (env : Env)
         (st : Store) (now : Z) (a b : string) (from text : jsval),
    normalizeNumber (JStr a) = normalizeNumber (JStr b) ->
    let st' := fst (post_api_optout st now (JStr a)) in
    get_api_check st' b
    = Reply 200 (JsObj [("number", JsStr (normalizeNumber (JStr b)));
                        ("blocked", JsBool true)]) /\
    (apiKey (getActiveCredentials env st') <> "" ->
     apiSecret (getActiveCredentials env st') <> "" ->
     b <> "" -> truthy from = true -> truthy text = true ->
     post_api_send vonage env st' (JStr b) from text
     = (Reply 403 (JsObj [("error", JsStr "Number is opted out");
                          ("to", JsStr (normalizeNumber (JStr b)));
                          ("blocked", JsBool true);
                          ("status", JsStr "rejected")]), []) /\
     post_sms_json vonage env st' JUndefined JUndefined (JStr b) from text
     = (Reply 200 (JsObj
          [("message-count", JsStr "1");
           ("messages",
            JsArr [JsObj [("to", JsStr (normalizeNumber (JStr b)));
                          ("status", JsStr "99");
                          ("error-text", JsStr "Number is opted out")]])]),
        [])).
Proof.
  intros vonage env st now a b from text Hab st'.
  assert (isOptedOut (optouts st') (normalizeNumber (JStr b)) = true) as Hb.
  { rewrite <- Hab. apply optedOut_after_optout. }
  split.
  - unfold get_api_check, res_json. now rewrite Hb.
  - intros Hk Hs Hne Hf Ht.
    assert (truthy (JStr b) = true) as Hto
        by (simpl; apply String.eqb_neq in Hne; now rewrite Hne).
    split.
    + rewrite (post_api_send_checked vonage env st' (JStr b) from text
                 Hk Hs Hto Hf Ht).
      now rewrite Hb.
    + rewrite (post_sms_json_checked vonage env st' JUndefined JUndefined
                 (JStr b) from text Hk Hs Hto Hf Ht).
      now rewrite Hb.
Qed.

Lemma optout_blocks_every_spelling_witness :
  normalizeNumber (JStr "+44 (7700) 900-000")
  = normalizeNumber (JStr "447700900000") /\
  get_api_check
    (fst (post_api_optout sampleStore 1700000000000
                          (JStr "+44 (7700) 900-000")))
    "447700900000"
  = Reply 200 (JsObj [("number", JsStr "447700900000");
                      ("blocked", JsBool true)]).
Proof.
  split; [reflexivity|].
  destruct (optout_blocks_every_spelling transportOk noEnv sampleStore
              1700000000000 "+44 (7700) 900-000" "447700900000"
              (JStr "447418317717") (JStr "Hello") eq_refl) as [H _].
  exact H.
Defined.

(** ** The opt-out branch of the inbound webhook *)

(** X7. An inbound message with a sender and a text, to a configured
    number, whose text matches an opt-out phrase appends an [optout] record
    to the history whether or not the sender was in the list already, adds
    the sender to the list only when it was not there, and leaves the sender
    opted out. *)
Theorem inbound_optout_always_logged :
  forall (st : Store) (now : Z) (data : InboundData) (mc : OptOutConfig),
    let sender := jsOr (msisdn data) (from data) in
    let T := inboundText data in
    truthy sender = true ->
    T <> "" ->
    findConfig (optoutConfigs st) (normalizeNumber (to data)) = Some mc ->
    SomeMatch (phraseList (optoutPhrase mc)) T ->
    let st' := fst (handleInboundSMS st now data) in
    history st' =
      history st ++ [mkHistory (normalizeNumber sender) "optout" now (to data)
                               (JStr (id mc))] /\
    OptedOut (optouts st') (normalizeNumber sender) /\
    (OptedOut (optouts st) (normalizeNumber sender) ->
     optouts st' = optouts st) /\
    (~ OptedOut (optouts st) (normalizeNumber sender) ->
     optouts st' =
       optouts st ++ [OObject (normalizeNumber sender) (id mc) JUndefined]).
Proof.
  intros st now data mc sender T Hs Ht Hc Hm st'.
  subst st'. rewrite (handleInboundSMS_classified st now data mc Hs Ht Hc).
  assert (classify mc (inboundText data) = OPTOUT) as ->
      by (apply classify_spec; assumption).
  simpl. unfold inboundOptout. fold sender.
  destruct (isOptedOut (optouts st) (normalizeNumber sender)) eqn:E; simpl.
  - split; [reflexivity|]. split; [now apply isOptedOut_spec|].
    split; [reflexivity|]. intro H. apply isOptedOut_false in H. congruence.
  - split; [reflexivity|]. split.
    + apply isOptedOut_spec. unfold isOptedOut. rewrite existsb_app. simpl.
      rewrite sameNumber_new. now rewrite orb_true_r.
    + split; [|reflexivity]. intro H. apply isOptedOut_spec in H. congruence.
Qed.

Lemma inbound_optout_always_logged_witness :
  OptedOut (optouts blockedStore) "447700900000" /\
  history (fst (handleInboundSMS blockedStore 1700000005000
                  (inboundFrom "447700900000" "stop")))
  = history blockedStore
    ++ [mkHistory "447700900000" "optout" 1700000005000
                  (JStr "447418317717") (JStr "1700000000000")] /\
  optouts (fst (handleInboundSMS blockedStore 1700000005000
                  (inboundFrom "447700900000" "stop")))
  = optouts blockedStore.
Proof.
  assert (OptedOut (optouts blockedStore) "447700900000") as Hb
      by (apply isOptedOut_spec; reflexivity).
  split; [exact Hb|].
  destruct (inbound_optout_always_logged blockedStore 1700000005000
              (inboundFrom "447700900000" "stop") sampleConfig)
    as (Hh & _ & Hkeep & _).
  - reflexivity.
  - intro E. cbv in E. discriminate E.
  - reflexivity.
  - apply existsb_phraseMatches. reflexivity.
  - split; [exact Hh|]. exact (Hkeep Hb).
Defined.

(** ** The history query and the stored history *)

Lemma insertNewestFirst_front x l :
  Forall (fun y => (timestamp y <= timestamp x)%Z) l ->
  insertNewestFirst x l = x :: l.
Proof.
  intro H. destruct l as [|y l]; [reflexivity|]. simpl.
  inversion_clear H as [|? ? Hy _].
  destruct (Z.gtb_spec (timestamp y) (timestamp x)); [lia|reflexivity].
Qed.

Lemma Forall_filter_keep {A} (P : A -> Prop) (f : A -> bool) l :
  Forall P l -> Forall P (filter f l).
Proof.
  induction 1 as [|z l Hz _ IH]; simpl; [constructor|].
  destruct (f z); [constructor|]; assumption.
Qed.

Lemma sortNewestFirst_sorted_id l :
  StronglySorted NewerFirst l -> sortNewestFirst l = l.
Proof.
  induction 1 as [|x l Hs IH Hall]; simpl; [reflexivity|].
  rewrite IH. apply insertNewestFirst_front.
  eapply Forall_impl; [|exact Hall]. unfold NewerFirst. intros; lia.
Qed.

Lemma filter_insertNewestFirst f x l :
  StronglySorted NewerFirst l ->
  filter f (insertNewestFirst x l)
  = if f x then insertNewestFirst x (filter f l) else filter f l.
Proof.
  induction 1 as [|y l Hs IH Hall]; simpl.
  - now destruct (f x).
  - destruct (Z.gtb_spec (timestamp y) (timestamp x)) as [Hgt|Hle]; simpl.
    + rewrite IH. destruct (f y) eqn:Fy, (f x) eqn:Fx; simpl; auto.
      destruct (Z.gtb_spec (timestamp y) (timestamp x)); [reflexivity|lia].
    + destruct (f x) eqn:Fx; simpl; [|reflexivity].
      symmetry. apply insertNewestFirst_front.
      assert (Forall (fun z => (timestamp z <= timestamp x)%Z) (y :: l)) as F.
      { constructor; [exact Hle|].
        eapply Forall_impl; [|exact Hall]. unfold NewerFirst. intros; lia. }
      exact (Forall_filter_keep _ f (y :: l) F).
Qed.

Lemma filter_sortNewestFirst f l :
  filter f (sortNewestFirst l) = sortNewestFirst (filter f l).
Proof.
  induction l as [|x l IH]; simpl; [reflexivity|].
  rewrite filter_insertNewestFirst by apply sortNewestFirst_sorted.
  rewrite IH. now destruct (f x).
Qed.

Lemma sortNewestFirst_idem l :
  sortNewestFirst (sortNewestFirst l) = sortNewestFirst l.
Proof. apply sortNewestFirst_sorted_id, sortNewestFirst_sorted. Qed.

Lemma countOf_sorted a when h :
  countOf a when (sortNewestFirst h) = countOf a when h.
Proof.
  unfold countOf. f_equal. rewrite filter_sortNewestFirst.
  apply Permutation_length, sortNewestFirst_perm.
Qed.

Section StoredHistoryFacts.

Variable parseDate : string -> option Z.
Variable LocalTZA : Z -> bool -> Z.

Lemma get_api_history_store st startDate endDate action_ :
  fst (get_api_history parseDate LocalTZA st startDate endDate action_) = st
  \/ fst (get_api_history parseDate LocalTZA st startDate endDate action_)
     = writeHistory st (sortNewestFirst (history st)).
Proof.
  unfold get_api_history. simpl.
  destruct (truthy startDate) eqn:Es; [now left|].
  destruct (truthy endDate) eqn:Ee; [now left|].
  destruct (truthy action_ && negb (strOf action_ =? "all")) eqn:Ea;
    [now left|].
  right. simpl. unfold historyQuery. now rewrite Es, Ee, Ea.
Qed.

(** X8. [GET /api/history] never changes the opt-out list or the
    configurations.  With a start date, an end date or an action other
    than [all] it leaves the whole store as it is; without any of them it
    sorts the stored history itself: the store then holds the same records,
    newest first, which is the array it returned. *)
Theorem history_query_reorders_store_only_unfiltered :
  forall (st : Store) (startDate endDate action_ : jsval),
    let st' :=
      fst (get_api_history parseDate LocalTZA st startDate endDate action_) in
    let result :=
      snd (get_api_history parseDate LocalTZA st startDate endDate action_) in
    optouts st' = optouts st /\
    optoutConfigs st' = optoutConfigs st /\
    (truthy startDate = true \/ truthy endDate = true \/
     (truthy action_ = true /\ strOf action_ <> "all") ->
     st' = st) /\
    (truthy startDate = false -> truthy endDate = false ->
     (truthy action_ = false \/ strOf action_ = "all") ->
     history st' = result /\
     Permutation (history st') (history st) /\
     StronglySorted (fun a b => (timestamp a >= timestamp b)%Z) (history st')).
Proof.
  intros st startDate endDate action_ st' result. subst st' result.
  split; [|split; [|split]].
  - destruct (get_api_history_store st startDate endDate action_) as [-> | ->];
      reflexivity.
  - destruct (get_api_history_store st startDate endDate action_) as [-> | ->];
      reflexivity.
  - unfold get_api_history. simpl.
    intros [H | [H | [H1 H2]]].
    + now rewrite H.
    + rewrite H. now rewrite orb_true_r.
    + rewrite H1. apply String.eqb_neq in H2. rewrite H2. simpl.
      now rewrite !orb_true_r.
  - intros Hs He Ha.
    assert (truthy action_ && negb (strOf action_ =? "all") = false) as Hf.
    { destruct Ha as [Ha | Ha]; [now rewrite Ha|].
      rewrite Ha. simpl. now rewrite andb_false_r. }
    unfold get_api_history. simpl. rewrite Hs, He, Hf. simpl.
    unfold historyQuery. rewrite Hs, He, Hf.
    split; [reflexivity|]. split.
    + apply sortNewestFirst_perm.
    + apply sortNewestFirst_sorted.
Qed.

(** X9. The reordering does not show: after any [GET /api/history], every
    later query returns what it would have returned before it, and the
    statistics are the same. *)
Theorem history_answers_survive_reordering :
  forall (st : Store) (s1 e1 a1 s2 e2 a2 : jsval) (now : Z),
    let st' := fst (get_api_history parseDate LocalTZA st s1 e1 a1) in
    snd (get_api_history parseDate LocalTZA st' s2 e2 a2)
    = snd (get_api_history parseDate LocalTZA st s2 e2 a2) /\
    get_api_stats st' now = get_api_stats st now.
Proof.
  intros st s1 e1 a1 s2 e2 a2 now st'. subst st'.
  destruct (get_api_history_store st s1 e1 a1) as [-> | ->];
    [split; reflexivity|].
  split.
  - unfold get_api_history. simpl.
    rewrite !(historyQuery_filter parseDate LocalTZA).
    rewrite filter_sortNewestFirst. apply sortNewestFirst_idem.
  - rewrite !get_api_stats_counts. simpl.
    now rewrite !countOf_sorted.
Qed.

(** X10. After [DELETE /api/history] every query returns the empty array
    and the statistics are zero, while the opt-out list is the one it
    was. *)
Theorem cleared_history_keeps_optouts :
  forall (st : Store) (startDate endDate action_ : jsval) (now : Z),
    let st' := fst (delete_api_history st) in
    optouts st' = optouts st /\
    snd (get_api_history parseDate LocalTZA st' startDate endDate action_) = []
    /\ get_api_stats st' now
       = Reply 200 (JsObj [("optins", JsNum 0); ("optouts", JsNum 0)]).
Proof.
  intros st startDate endDate action_ now st'. subst st'.
  split; [reflexivity|]. split; [|reflexivity].
  unfold get_api_history. simpl.
  rewrite (historyQuery_filter parseDate LocalTZA). reflexivity.
Qed.

End StoredHistoryFacts.

Lemma history_query_reorders_store_only_unfiltered_witness :
  history (fst (get_api_history sampleParseDate utcZone dayStore
                  JUndefined JUndefined (JStr "all")))
  = [mkHistory "447700900002" "optin" 1699996400000 (JStr "manual")
               JUndefined;
     mkHistory "447700900002" "optout" 1699992800000 (JStr "manual")
               JUndefined;
     mkHistory "447700900001" "optout" 1699910000000 (JStr "manual")
               JUndefined] /\
  fst (get_api_history sampleParseDate utcZone dayStore
         JUndefined JUndefined (JStr "optin")) = dayStore.
Proof.
  split.
  - destruct (history_query_reorders_store_only_unfiltered sampleParseDate utcZone
                dayStore
                JUndefined JUndefined (JStr "all")) as (_ & _ & _ & H).
    destruct (H eq_refl eq_refl (or_intror eq_refl)) as (Heq & _).
    rewrite Heq. reflexivity.
  - destruct (history_query_reorders_store_only_unfiltered sampleParseDate utcZone
                dayStore
                JUndefined JUndefined (JStr "optin")) as (_ & _ & H & _).
    apply H. right. right. split; [reflexivity|discriminate].
Defined.

(** ** The text of an inbound message *)

Ltac each_code_unit c := destruct c as [[] [] [] [] [] [] [] []].

Lemma append_empty_r s : (s ++ "")%string = s.
Proof. induction s as [|c s IH]; simpl; [reflexivity|now rewrite IH]. Qed.

Lemma upperChar_nonempty c : upperChar c <> "".
Proof. each_code_unit c; discriminate. Qed.

Lemma upperChar_idem c : toUpperCase (upperChar c) = upperChar c.
Proof. each_code_unit c; reflexivity. Qed.

(** White space is its own upper-case form, and the upper-case form of
    another code unit has no white space. *)
Lemma trimStart_upperChar c s :
  trimStart (upperChar c ++ s)
  = if isSpace c then trimStart s else (upperChar c ++ s)%string.
Proof. each_code_unit c; reflexivity. Qed.

Lemma trimEnd_upperChar c :
  trimEnd (upperChar c) = if isSpace c then "" else upperChar c.
Proof. each_code_unit c; reflexivity. Qed.

Lemma trimEnd_app a x :
  trimEnd (a ++ x)
  = match trimEnd x with
    | EmptyString => trimEnd a
    | _ => (a ++ trimEnd x)%string
    end.
Proof.
  induction a as [|c a IH]; simpl.
  - now destruct (trimEnd x).
  - rewrite IH. destruct (trimEnd x); [reflexivity|].
    now destruct a.
Qed.

Lemma toUpperCase_app a b :
  toUpperCase (a ++ b) = (toUpperCase a ++ toUpperCase b)%string.
Proof.
  induction a as [|c a IH]; simpl; [reflexivity|].
  now rewrite IH, append_assoc.
Qed.

Lemma toUpperCase_idem s : toUpperCase (toUpperCase s) = toUpperCase s.
Proof.
  induction s as [|c s IH]; simpl; [reflexivity|].
  now rewrite toUpperCase_app, upperChar_idem, IH.
Qed.

Lemma toUpperCase_empty s : toUpperCase s = "" <-> s = "".
Proof.
  destruct s as [|c s]; simpl; split; try congruence.
  pose proof (upperChar_nonempty c) as H.
  destruct (upperChar c); [contradiction|discriminate].
Qed.

Lemma trimStart_toUpperCase s :
  trimStart (toUpperCase s) = toUpperCase (trimStart s).
Proof.
  induction s as [|c s IH]; simpl; [reflexivity|].
  rewrite trimStart_upperChar. now destruct (isSpace c).
Qed.

Lemma trimEnd_toUpperCase s :
  trimEnd (toUpperCase s) = toUpperCase (trimEnd s).
Proof.
  induction s as [|c s IH]; simpl; [reflexivity|].
  rewrite trimEnd_app, IH.
  destruct (trimEnd s) as [|d r]; simpl.
  - rewrite trimEnd_upperChar.
    destruct (isSpace c); simpl; [reflexivity|now rewrite append_empty_r].
  - pose proof (upperChar_nonempty d) as H.
    destruct (upperChar d); [contradiction|reflexivity].
Qed.

Lemma trim_toUpperCase s : trim (toUpperCase s) = toUpperCase (trim s).
Proof.
  unfold trim. now rewrite trimStart_toUpperCase, trimEnd_toUpperCase.
Qed.

Lemma trimStart_spaces w s :
  allSpace w = true -> trimStart (w ++ s) = trimStart s.
Proof.
  induction w as [|c w IH]; simpl; [reflexivity|].
  intro H. apply andb_true_iff in H. destruct H as [Hc Hw].
  rewrite Hc. now apply IH.
Qed.

Lemma trimEnd_all_space w : allSpace w = true -> trimEnd w = "".
Proof.
  induction w as [|c w IH]; simpl; [reflexivity|].
  intro H. apply andb_true_iff in H. destruct H as [Hc Hw].
  now rewrite (IH Hw), Hc.
Qed.

Lemma trimEnd_spaces s w :
  allSpace w = true -> trimEnd (s ++ w) = trimEnd s.
Proof.
  intro Hw. induction s as [|c s IH]; simpl.
  - now apply trimEnd_all_space.
  - now rewrite IH.
Qed.

Lemma trimStart_all_space w : allSpace w = true -> trimStart w = "".
Proof.
  induction w as [|c w IH]; simpl; [reflexivity|].
  intro H. apply andb_true_iff in H. destruct H as [Hc Hw].
  rewrite Hc. now apply IH.
Qed.

Lemma trim_padded w1 s w2 :
  allSpace w1 = true -> allSpace w2 = true ->
  trim (w1 ++ s ++ w2) = trim s.
Proof.
  intros H1 H2. unfold trim. rewrite (trimStart_spaces w1 _ H1).
  induction s as [|c s IH]; simpl.
  - now rewrite (trimStart_all_space w2 H2).
  - destruct (isSpace c); [exact IH|].
    change (String c (s ++ w2)) with (String c s ++ w2)%string.
    now apply trimEnd_spaces.
Qed.

(** The first character of a trimmed string is not white space. *)
Lemma trimStart_head s c r : trimStart s = String c r -> isSpace c = false.
Proof.
  induction s as [|d s IH]; simpl; [discriminate|].
  destruct (isSpace d) eqn:E; [exact IH|]. now intros [= <- _].
Qed.

Lemma trimEnd_head s c r :
  trimEnd s = String c r -> exists r', s = String c r'.
Proof.
  destruct s as [|d s]; simpl; [discriminate|].
  destruct (trimEnd s); [destruct (isSpace d); [discriminate|]|];
    intros [= <- _]; eauto.
Qed.

Lemma trim_head s c r : trim s = String c r -> isSpace c = false.
Proof.
  unfold trim. intro H. apply trimEnd_head in H. destruct H as [r' H].
  now apply trimStart_head in H.
Qed.

Lemma inboundText_head data c r :
  inboundText data = String c r -> isSpace c = false.
Proof.
  unfold inboundText. rewrite <- trim_toUpperCase.
  apply trim_head.
Qed.

(** X11. An empty phrase, as a trailing comma or an empty phrase field
    leaves one in the list, matches no message the handler accepts: the
    text is trimmed and not empty, so it is not the empty phrase and does
    not start with a space.  Which phrase list matches is decided by its
    phrases that are not empty. *)
Theorem empty_phrase_never_matches :
  forall (data : InboundData),
    let T := inboundText data in
    T <> "" ->
    ~ PhraseMatch "" T /\
    forall phrases,
      SomeMatch phrases T <->
      SomeMatch (filter (fun p => negb (p =? "")) phrases) T.
Proof.
  intros data T Hne.
  assert (~ PhraseMatch "" T) as Hno.
  { intros [H | [rest H]]; [congruence|].
    simpl in H. apply inboundText_head in H. discriminate. }
  split; [exact Hno|].
  intro phrases. unfold SomeMatch. split; intros (P & Hin & Hm).
  - exists P. split; [|exact Hm]. apply filter_In. split; [exact Hin|].
    destruct (String.eqb_spec P ""); [subst P; contradiction|reflexivity].
  - exists P. split; [|exact Hm]. now apply filter_In in Hin.
Qed.

Lemma empty_phrase_never_matches_witness :
  inboundText (inboundFrom "447700900000" " hello ") <> "" /\
  ~ SomeMatch (phraseList "STOP,") "HELLO" /\
  classify (mkConfig "1" "447418317717" "," "") "HELLO" = NONE.
Proof.
  assert (inboundText (inboundFrom "447700900000" " hello ") <> "") as Hne
      by (intro E; cbv in E; discriminate E).
  destruct (empty_phrase_never_matches
              (inboundFrom "447700900000" " hello ") Hne) as [Hno Hiff].
  split; [exact Hne|]. split.
  - apply no_match_by_test. reflexivity.
  - apply classify_spec. split; intros (P & Hin & Hm); cbv in Hin.
    + destruct Hin as [<-|[<-|[]]]; exact (Hno Hm).
    + destruct Hin as [<-|[]]; exact (Hno Hm).
Defined.

Lemma inboundText_withText data s :
  s <> "" -> inboundText (withText data (JStr s)) = toUpperCase (trim s).
Proof.
  intro H. destruct s; [contradiction|reflexivity].
Qed.

(** X12. The handler does not see the case of the text of a message nor
    the white space around it: a text that is not empty can be replaced by
    any text with the same upper-case form, padded with white space, and the
    store and the answer are the same. *)
Theorem inbound_text_case_and_padding :
  forall (st : Store) (now : Z) (data : InboundData) (s s' w1 w2 : string),
    s <> "" ->
    toUpperCase s' = toUpperCase s ->
    allSpace w1 = true -> allSpace w2 = true ->
    handleInboundSMS st now (withText data (JStr (w1 ++ s' ++ w2)))
    = handleInboundSMS st now (withText data (JStr s)).
Proof.
  intros st now data s s' w1 w2 Hne Hup H1 H2.
  assert (s' <> "") as Hne'.
  { intro E. subst s'. simpl in Hup. symmetry in Hup.
    apply (proj1 (toUpperCase_empty s)) in Hup. contradiction. }
  assert ((w1 ++ s' ++ w2)%string <> "") as Hp.
  { destruct w1; simpl; [|discriminate].
    destruct s'; simpl; [contradiction|discriminate]. }
  assert (inboundText (withText data (JStr (w1 ++ s' ++ w2)))
          = inboundText (withText data (JStr s))) as HT.
  { rewrite !inboundText_withText by assumption.
    rewrite trim_padded by assumption.
    now rewrite <- !trim_toUpperCase, Hup. }
  unfold handleInboundSMS. rewrite HT. reflexivity.
Qed.

Lemma inbound_text_case_and_padding_witness :
  handleInboundSMS sampleStore 1700000000000
                   (inboundFrom "447700900000" "  stop Please ")
  = handleInboundSMS sampleStore 1700000000000
                     (inboundFrom "447700900000" "STOP please").
Proof.
  apply (inbound_text_case_and_padding sampleStore 1700000000000
           (inboundFrom "447700900000" "x") "STOP please" "stop Please"
           "  " " ");
    [discriminate|reflexivity|reflexivity|reflexivity].
Defined.

(** ** What the send endpoints answer *)

Section SendAnswers.

Variable vonage : nat -> Sms.request -> FetchResult.
Variable env : Env.
Variable st : Store.

Lemma firstMessage_null : firstMessage JsNull = None.
Proof. reflexivity. Qed.

(** X13. [POST /api/send] answers 200, 400, 403 or 500.  It answers 403
    only to a request that passed the checks for a number that is opted
    out, and 200 only when it made a request for a number that is not opted
    out and the first message of the answer of the transport has status
    ["0"]; an answer with another status gives 400 with that status as
    [errorCode]. *)
Theorem send_status_follows_transport :
  forall (to from text : jsval),
    let response := fst (post_api_send vonage env st to from text) in
    let calls := snd (post_api_send vonage env st to from text) in
    (codeOf response = 200 \/ codeOf response = 400 \/
     codeOf response = 403 \/ codeOf response = 500)%Z /\
    (codeOf response = 403%Z ->
     calls = [] /\ OptedOut (optouts st) (normalizeNumber to)) /\
    (codeOf response = 200%Z ->
     ~ OptedOut (optouts st) (normalizeNumber to) /\
     exists r msg,
       calls = [r] /\ Sms.to r = normalizeNumber to /\
       answeredWith (vonage 0 r) msg /\
       getProp "status" msg = Some (JsStr "0") /\
       response = Reply 200 (JsObj
                    ([("success", JsBool true);
                      ("to", JsStr (normalizeNumber to))]
                     ++ propJ "messageId" (getProp "message-id" msg)
                     ++ [("status", JsStr "sent")]))) /\
    (forall r msg,
        calls = [r] -> answeredWith (vonage 0 r) msg ->
        getProp "status" msg <> Some (JsStr "0") ->
        response = Reply 400 (JsObj
                     (propJ "error" (getProp "error-text" msg)
                      ++ [("to", JsStr (normalizeNumber to));
                          ("status", JsStr "failed")]
                      ++ propJ "errorCode" (getProp "status" msg)))).
Proof.
  intros to from text response calls. subst response calls.
  assert (forall v s, isJsStr v s = true <-> v = Some (JsStr s)) as Hstr.
  { intros [[| | |t| |]|] s; simpl; split; try discriminate.
    - intro E. apply String.eqb_eq in E. now subst.
    - intros [= ->]. apply String.eqb_refl. }
  unfold post_api_send.
  destruct (_ || _);
    [simpl; repeat split; auto; try discriminate|].
  destruct (_ || _);
    [simpl; repeat split; auto; try discriminate|].
  destruct (isOptedOut (optouts st) (normalizeNumber to)) eqn:Eb.
  { simpl. split; [auto|]. split; [|split; [discriminate|discriminate]].
    intros _. split; [reflexivity|now apply isOptedOut_spec]. }
  apply isOptedOut_false in Eb. cbv zeta.
  set (r := Sms.mk _ _ _ _ _).
  destruct (vonage 0 r) as [data|message] eqn:Ev.
  - destruct (firstMessage data) as [msg|] eqn:Em.
    + destruct (isJsStr (getProp "status" msg) "0") eqn:Es.
      * assert (data <> JsNull) as Hd by (intro E; subst; discriminate).
        destruct data; try contradiction; simpl fst; simpl snd;
          (split; [auto|]); (split; [discriminate|]);
          (split;
           [intros _; split; [exact Eb|];
            exists r, msg; repeat split; auto;
            [eexists; split; [exact Ev|exact Em]|now apply Hstr]
           |intros r' msg' [= <-] (d' & Hd' & Hm') Hne;
            rewrite Ev in Hd'; injection Hd' as <-;
            rewrite Em in Hm'; injection Hm' as <-;
            apply Hstr in Es; contradiction]).
      * assert (data <> JsNull) as Hd by (intro E; subst; discriminate).
        destruct data; try contradiction; simpl fst; simpl snd;
          (split; [auto|]); (split; [discriminate|]);
          (split;
           [discriminate
           |intros r' msg' [= <-] (d' & Hd' & Hm') Hne;
            rewrite Ev in Hd'; injection Hd' as <-;
            rewrite Em in Hm'; injection Hm' as <-; reflexivity]).
    + assert (forall r' msg', [r] = [r'] -> ~ answeredWith (vonage 0 r') msg')
        as Hno.
      { intros r' msg' [= <-] (d' & Hd' & Hm').
        rewrite Ev in Hd'. injection Hd' as <-. congruence. }
      destruct data; simpl fst; simpl snd;
        (split; [auto|]); (split; [discriminate|]);
        (split; [discriminate|]);
        intros r' msg' Hr Ha; exfalso; exact (Hno r' msg' Hr Ha).
  - simpl. split; [auto|]. split; [discriminate|]. split; [discriminate|].
    intros r' msg' [= <-] (d' & Hd' & _). rewrite Ev in Hd'. discriminate.
Qed.

(** X14. [POST /sms/json] always answers with HTTP status 200, errors
    being reported inside the envelope.  A request it makes carries the
    credentials of the body when given and the configured ones otherwise,
    the normalized recipient, and [from] and [text] as they came; what the
    transport answers is returned as it is, and an exception of the
    transport becomes status ["5"] with its message. *)
Theorem shim_answers_in_band :
  forall (api_key api_secret to from text : jsval),
    let response :=
      fst (post_sms_json vonage env st api_key api_secret to from text) in
    let calls :=
      snd (post_sms_json vonage env st api_key api_secret to from text) in
    codeOf response = 200%Z /\
    (forall r, In r calls ->
               r = Sms.mk (orDefault api_key
                                     (apiKey (getActiveCredentials env st)))
                          (orDefault api_secret
                                     (apiSecret (getActiveCredentials env st)))
                          (normalizeNumber to) (strOf from) (strOf text)) /\
    (forall r data,
        calls = [r] -> vonage 0 r = FetchJson data -> data <> JsNull ->
        response = Reply 200 data) /\
    (forall r message,
        calls = [r] -> vonage 0 r = FetchThrows message ->
        response = Reply 200 (JsObj
                     [("message-count", JsStr "1");
                      ("messages",
                       JsArr [JsObj [("status", JsStr "5");
                                     ("error-text", JsStr message)]])])).
Proof.
  intros api_key api_secret to from text response calls.
  subst response calls. unfold post_sms_json.
  destruct (_ || _);
    [simpl; repeat split; auto; try discriminate; intros ? []|].
  destruct (_ || _);
    [simpl; repeat split; auto; try discriminate; intros ? []|].
  destruct (isOptedOut (optouts st) (normalizeNumber to));
    [simpl; repeat split; auto; try discriminate; intros ? []|].
  cbv zeta. set (r := Sms.mk _ _ _ _ _).
  simpl snd. simpl fst.
  split; [|split; [|split]].
  - destruct (vonage 0 r) as [[| | | | |]|]; reflexivity.
  - intros r' [<-|[]]. reflexivity.
  - intros r' data [= <-] Ev Hd. rewrite Ev.
    destruct data; try reflexivity. contradiction.
  - intros r' message [= <-] Ev. rewrite Ev. reflexivity.
Qed.

(** One turn of the bulk loop: the request it adds and the blocked entry
    it adds. *)
Lemma bulkSendStep_request credentials from text results calls x :
  let R := bulkSendStep vonage st credentials from text (results, calls) x in
  let n := normalizeNumber x in
  snd R = calls ++
          map (fun n => Sms.mk (apiKey credentials) (apiSecret credentials)
                               n (normalizeNumber from) (strOf text))
              (if sendable st n then [n] else []) /\
  blocked (fst R) = blocked results ++
                    map (fun n => JsObj [("to", JsStr n);
                                         ("reason", JsStr "opted-out")])
                        (if blockedNumber st n then [n] else []).
Proof.
  cbv zeta. unfold bulkSendStep, sendable, blockedNumber.
  destruct (String.eqb_spec (normalizeNumber x) "") as [Ee|Ene].
  - simpl. now rewrite !app_nil_r.
  - destruct (isOptedOut (optouts st) (normalizeNumber x)) eqn:Eb.
    + simpl. now rewrite app_nil_r.
    + simpl negb. cbv iota. cbn [andb map snd fst].
      split; [reflexivity|]. rewrite app_nil_r.
      destruct (vonage _ _) as [[| | | | |]|];
        try destruct (firstMessage _);
        try destruct (isJsStr _ _); reflexivity.
Qed.

Lemma filter_cons_split {A} (p : A -> bool) x l :
  filter p (x :: l) = (if p x then [x] else []) ++ filter p l.
Proof. simpl. now destruct (p x). Qed.

(** The bulk loop, request by request. *)
Lemma bulkSendStep_fold_requests credentials from text recipients :
  forall results calls,
    let R := fold_left (bulkSendStep vonage st credentials from text)
                       recipients (results, calls) in
    snd R = calls ++
            map (fun n => Sms.mk (apiKey credentials) (apiSecret credentials)
                                 n (normalizeNumber from) (strOf text))
                (filter (sendable st) (map normalizeNumber recipients)) /\
    blocked (fst R) = blocked results ++
                      map (fun n => JsObj [("to", JsStr n);
                                           ("reason", JsStr "opted-out")])
                          (filter (blockedNumber st)
                                  (map normalizeNumber recipients)).
Proof.
  induction recipients as [|x recipients IH]; intros results calls.
  - simpl. now rewrite !app_nil_r.
  - cbn [fold_left map]. rewrite !filter_cons_split, !map_app, !app_assoc.
    pose proof (bulkSendStep_request credentials from text results calls x)
      as Hstep. cbv zeta in Hstep.
    destruct (bulkSendStep vonage st credentials from text (results, calls) x)
      as [results' calls'].
    simpl in Hstep. destruct Hstep as [Hc Hb].
    specialize (IH results' calls'). cbv zeta in IH.
    cbv zeta. now rewrite <- Hc, <- Hb.
Qed.

(** X15. A bulk send that passes the checks of the request makes its
    requests in the order of the recipients, one for each recipient whose
    normalized number is not empty and not opted out, all with the active
    credentials, the normalized [from] and the text; and it lists under
    [blocked], in the same order, the recipients whose normalized number is
    not empty and opted out. *)
Theorem bulk_send_requests_in_order :
  forall (recipients : list jsval) (from text : jsval),
    apiKey (getActiveCredentials env st) <> "" ->
    apiSecret (getActiveCredentials env st) <> "" ->
    recipients <> [] ->
    truthy from = true ->
    truthy text = true ->
    exists results : BulkResults,
      post_api_send_bulk vonage env st (Some recipients) from text
      = (Reply 200 (bulkSummary recipients results),
         map (fun n => Sms.mk (apiKey (getActiveCredentials env st))
                              (apiSecret (getActiveCredentials env st))
                              n (normalizeNumber from) (strOf text))
             (filter (fun n => negb (n =? "")
                               && negb (isOptedOut (optouts st) n))
                     (map normalizeNumber recipients))) /\
      blocked results
      = map (fun n => JsObj [("to", JsStr n); ("reason", JsStr "opted-out")])
            (filter (fun n => negb (n =? "") && isOptedOut (optouts st) n)
                    (map normalizeNumber recipients)).
Proof.
  intros recipients from text Hk Hs Hne Hf Ht.
  pose proof (bulkSendStep_fold_requests (getActiveCredentials env st) from
                text recipients (mkResults [] [] []) []) as H.
  cbv zeta in H. destruct H as [Hc Hb].
  exists (fst (bulkSendLoop vonage st (getActiveCredentials env st) from text
                            recipients)).
  split; [|exact Hb].
  unfold post_api_send_bulk.
  apply String.eqb_neq in Hk, Hs. rewrite Hk, Hs, Hf, Ht. simpl.
  destruct recipients as [|x recipients]; [congruence|].
  unfold bulkSendLoop in *.
  destruct (fold_left _ _ _) as [results calls]. simpl in *.
  now rewrite Hc.
Qed.

End SendAnswers.

Lemma send_status_follows_transport_witness :
  codeOf (fst (post_api_send transportOk noEnv blockedStore
                 (JStr "+44 7123 456789") (JStr "447418317717")
                 (JStr "Hello"))) = 200%Z /\
  ~ OptedOut (optouts blockedStore) (normalizeNumber (JStr "+44 7123 456789")).
Proof.
  split; [reflexivity|].
  destruct (send_status_follows_transport transportOk noEnv blockedStore
              (JStr "+44 7123 456789") (JStr "447418317717") (JStr "Hello"))
    as (_ & _ & H & _).
  exact (proj1 (H eq_refl)).
Defined.

Lemma shim_answers_in_band_witness :
  fst (post_sms_json transportOk noEnv blockedStore JUndefined JUndefined
         (JStr "+44 7123 456789") (JStr "Acme") (JStr "Hello"))
  = Reply 200 (JsObj [("message-count", JsStr "1");
                      ("messages",
                       JsArr [JsObj [("to", JsStr "447123456789");
                                     ("message-id", JsStr "abc123");
                                     ("status", JsStr "0")]])]).
Proof.
  destruct (shim_answers_in_band transportOk noEnv blockedStore
              JUndefined JUndefined (JStr "+44 7123 456789") (JStr "Acme")
              (JStr "Hello")) as (_ & _ & H & _).
  apply (H (Sms.mk "abcd1234" "s3cret" "447123456789" "Acme" "Hello"));
    [reflexivity|reflexivity|discriminate].
Defined.

Lemma bulk_send_requests_in_order_witness :
  snd (post_api_send_bulk transportOk noEnv blockedStore
         (Some [JStr "447700900000"; JStr "abc"; JStr "+44 7123 456789";
                JStr "447123456780"])
         (JStr "447418317717") (JStr "Hello"))
  = [Sms.mk "abcd1234" "s3cret" "447123456789" "447418317717" "Hello";
     Sms.mk "abcd1234" "s3cret" "447123456780" "447418317717" "Hello"].
Proof.
  destruct (bulk_send_requests_in_order transportOk noEnv blockedStore
              [JStr "447700900000"; JStr "abc"; JStr "+44 7123 456789";
               JStr "447123456780"]
              (JStr "447418317717") (JStr "Hello"))
    as (results & Heq & _);
    [discriminate|discriminate|discriminate|reflexivity|reflexivity|].
  rewrite Heq. reflexivity.
Defined.

(** ** Configurations *)

Lemma findConfig_app configs more n :
  findConfig (configs ++ more) n =
  match findConfig configs n with
  | Some mc => Some mc
  | None => findConfig more n
  end.
Proof.
  unfold findConfig. induction configs as [|c configs IH]; simpl; auto.
  now destruct (_ =? _).
Qed.

Lemma filter_same_length {A} (f : A -> bool) l :
  List.length (filter f l) = List.length l -> filter f l = l.
Proof.
  induction l as [|x l IH]; simpl; [reflexivity|].
  destruct (f x); simpl; intro H.
  - f_equal. apply IH. lia.
  - pose proof (filter_length_le f l). lia.
Qed.

Lemma writeConfigs_same st : writeConfigs st (optoutConfigs st) = st.
Proof. now destruct st. Qed.

(** X16. The first configuration of a number decides.  A configuration
    added by [POST /api/configs] goes to the end of the list: a number that
    had a configuration keeps it, whatever number and phrases the new one
    has, and a number that had none gets the new one exactly when the
    normalized numbers are equal. *)
Theorem added_config_never_replaces :
  forall (st : Store) (now : Z) (number outPhrase inPhrase : jsval)
         (n : string),
    truthy number = true ->
    let st' := fst (post_api_configs st now number outPhrase inPhrase) in
    optouts st' = optouts st /\ history st' = history st /\
    (forall mc, findConfig (optoutConfigs st) n = Some mc ->
                findConfig (optoutConfigs st') n = Some mc) /\
    (findConfig (optoutConfigs st) n = None ->
     findConfig (optoutConfigs st') n =
       if normalizeNumber number =? n
       then Some (mkConfig (dateNowString now) (strOf number)
                           (orDefault outPhrase "STOP")
                           (orDefault inPhrase "START"))
       else None).
Proof.
  intros st now number outPhrase inPhrase n Ht st'. subst st'.
  unfold post_api_configs. rewrite Ht. simpl.
  split; [reflexivity|]. split; [reflexivity|]. split.
  - intros mc H. now rewrite findConfig_app, H.
  - intro H. rewrite findConfig_app, H. unfold findConfig. simpl.
    destruct number as [| |s]; try discriminate. simpl.
    now destruct (_ =? _).
Qed.

Lemma added_config_never_replaces_witness :
  findConfig
    (optoutConfigs (fst (post_api_configs sampleStore 1700000009999
                           (JStr "+44 7418 317717") (JStr "QUIT")
                           JUndefined)))
    "447418317717"
  = Some sampleConfig.
Proof.
  destruct (added_config_never_replaces sampleStore 1700000009999
              (JStr "+44 7418 317717") (JStr "QUIT") JUndefined
              "447418317717" eq_refl) as (_ & _ & H & _).
  apply H. reflexivity.
Defined.

(** X17. [DELETE /api/configs/:id] removes every configuration with the
    id and keeps the others in their order; it answers 404 exactly when
    there was none, and then the store is as it was.  The opt-out list and
    the history are never touched: numbers that opted out through a
    configuration stay opted out when it is deleted. *)
Theorem delete_config_keeps_optouts :
  forall (st : Store) (id_ : string),
    let st' := fst (delete_api_configs st id_) in
    let response := snd (delete_api_configs st id_) in
    optouts st' = optouts st /\ history st' = history st /\
    optoutConfigs st' = filter (fun c => negb (id c =? id_)) (optoutConfigs st)
    /\ (forall c, In c (optoutConfigs st') <->
                  In c (optoutConfigs st) /\ id c <> id_) /\
    ((forall c, In c (optoutConfigs st) -> id c <> id_) ->
     st' = st /\
     response = Reply 404 (JsObj [("error", JsStr "Configuration not found")]))
    /\ ((exists c, In c (optoutConfigs st) /\ id c = id_) ->
        response = Reply 200 (JsObj [("success", JsBool true)])).
Proof.
  intros st id_ st' response. subst st' response.
  assert (optoutConfigs (fst (delete_api_configs st id_))
          = filter (fun c => negb (id c =? id_)) (optoutConfigs st)) as Hc.
  { unfold delete_api_configs. simpl. now destruct (_ =? _)%nat. }
  split; [unfold delete_api_configs; simpl; now destruct (_ =? _)%nat|].
  split; [unfold delete_api_configs; simpl; now destruct (_ =? _)%nat|].
  split; [exact Hc|]. split; [|split].
  - intro c. rewrite Hc, filter_In, negb_true_iff, String.eqb_neq. tauto.
  - intro Hnone.
    assert (filter (fun c => negb (id c =? id_)) (optoutConfigs st)
            = optoutConfigs st) as Hf.
    { clear Hc. induction (optoutConfigs st) as [|c l IH]; simpl; auto.
      assert (id c <> id_) as Hne by (apply Hnone; now left).
      apply String.eqb_neq in Hne. rewrite Hne. simpl. f_equal.
      apply IH. intros c' Hin. apply Hnone. now right. }
    unfold delete_api_configs. simpl. rewrite Hf, Nat.eqb_refl. simpl.
    split; [apply writeConfigs_same|reflexivity].
  - intros (c & Hin & Hid).
    unfold delete_api_configs. simpl.
    destruct (Nat.eqb_spec
                (List.length (filter (fun c => negb (id c =? id_))
                                     (optoutConfigs st)))
                (List.length (optoutConfigs st))) as [E|E]; [|reflexivity].
    exfalso. apply filter_same_length in E.
    assert (In c (filter (fun c => negb (id c =? id_)) (optoutConfigs st)))
      as Hin' by now rewrite E.
    apply filter_In in Hin'. destruct Hin' as [_ Hneg].
    rewrite Hid, String.eqb_refl in Hneg. discriminate.
Qed.

Lemma delete_config_keeps_optouts_witness :
  snd (delete_api_configs blockedStore "1700000000000")
  = Reply 200 (JsObj [("success", JsBool true)]) /\
  fst (delete_api_configs blockedStore "42") = blockedStore.
Proof.
  destruct (delete_config_keeps_optouts blockedStore "1700000000000")
    as (_ & _ & _ & _ & _ & H1).
  destruct (delete_config_keeps_optouts blockedStore "42")
    as (_ & _ & _ & _ & H2 & _).
  split.
  - apply H1. exists sampleConfig. split; [now left|reflexivity].
  - apply H2. intros c [<-|[]]. discriminate.
Defined.

Lemma findIndex_first_at {A} (f : A -> bool) before c after :
  (forall x, In x before -> f x = false) -> f c = true ->
  findIndex f (before ++ c :: after) = Z.of_nat (List.length before).
Proof.
  intros Hb Hc. induction before as [|x before IH]; simpl.
  - now rewrite Hc.
  - rewrite (Hb x) by now left. rewrite IH by (intros; apply Hb; now right).
    destruct (Z.ltb_spec (Z.of_nat (List.length before)) 0); lia.
Qed.

Lemma updateAt_middle {A} (f : A -> A) before c after :
  updateAt (List.length before) f (before ++ c :: after)
  = before ++ f c :: after.
Proof. induction before as [|x before IH]; simpl; congruence. Qed.

Lemma nth_error_middle {A} (before : list A) c after :
  nth_error (before ++ c :: after) (List.length before) = Some c.
Proof. induction before as [|x before IH]; simpl; auto. Qed.

Lemma updateAt_same {A} (f : A -> A) i l :
  (forall x, f x = x) -> updateAt i f l = l.
Proof.
  intro H. revert i. induction l as [|x l IH]; intros [|i]; simpl;
    rewrite ?H, ?IH; reflexivity.
Qed.

Lemma findIndex_absent {A} (f : A -> bool) l :
  (forall x, In x l -> f x = false) -> findIndex f l = (-1)%Z.
Proof.
  intro H. induction l as [|x l IH]; simpl; [reflexivity|].
  rewrite (H x) by now left. rewrite IH by (intros; apply H; now right).
  reflexivity.
Qed.

(** X18. [PUT /api/configs/:id] answers 404 and changes nothing when no
    configuration has the id.  Otherwise it changes the first configuration
    with the id and no other: each field for which the request has a
    non-empty value is replaced, the others and the id are kept, so a
    request without values changes nothing and no field can be emptied. *)
Theorem put_config_changes_first_with_id :
  forall (st : Store) (id_ : string) (newNumber newOptout newOptin : jsval),
    ((forall c, In c (optoutConfigs st) -> id c <> id_) ->
     put_api_configs st id_ newNumber newOptout newOptin
     = (st, Reply 404 (JsObj [("error", JsStr "Configuration not found")])))
    /\
    (forall before c after,
        optoutConfigs st = before ++ c :: after ->
        (forall x, In x before -> id x <> id_) ->
        id c = id_ ->
        let c' := mkConfig id_
                    (if truthy newNumber then strOf newNumber
                     else optoutNumber c)
                    (if truthy newOptout then strOf newOptout
                     else optoutPhrase c)
                    (if truthy newOptin then strOf newOptin
                     else optinPhrase c) in
        put_api_configs st id_ newNumber newOptout newOptin
        = (mkStore (before ++ c' :: after) (credentials st) (optouts st)
                   (history st),
           Reply 200 (JsObj [("success", JsBool true);
                             ("config", configJson c')])))
    /\
    (truthy newNumber = false -> truthy newOptout = false ->
     truthy newOptin = false ->
     fst (put_api_configs st id_ newNumber newOptout newOptin) = st).
Proof.
  intros st id_ newNumber newOptout newOptin. split; [|split].
  - intro Hnone. unfold put_api_configs.
    rewrite findIndex_absent; [reflexivity|].
    intros c Hin. apply String.eqb_neq. now apply Hnone.
  - intros before c after Hcfg Hb Hc c'. unfold put_api_configs.
    rewrite Hcfg.
    rewrite (findIndex_first_at (fun c => id c =? id_) before c after).
    + destruct (Z.eqb_spec (Z.of_nat (List.length before)) (-1)); [lia|].
      rewrite Nat2Z.id, updateAt_middle, nth_error_middle.
      unfold applyUpdate, orDefault, writeConfigs. rewrite Hc. reflexivity.
    + intros x Hx. apply String.eqb_neq. now apply Hb.
    + rewrite Hc. apply String.eqb_refl.
  - intros H1 H2 H3. unfold put_api_configs.
    destruct (_ =? _)%Z; [reflexivity|]. simpl.
    rewrite updateAt_same; [apply writeConfigs_same|].
    intros [i n p q]. unfold applyUpdate, orDefault.
    now rewrite H1, H2, H3.
Qed.

Lemma put_config_changes_first_with_id_witness :
  put_api_configs sampleStore "1700000000000" JUndefined
                  (JStr "STOP,UNSUBSCRIBE") (JStr "")
  = (mkStore [mkConfig "1700000000000" "447418317717" "STOP,UNSUBSCRIBE"
                       "START"]
             sampleCredentials [] [],
     Reply 200 (JsObj [("success", JsBool true);
                       ("config",
                        configJson (mkConfig "1700000000000" "447418317717"
                                             "STOP,UNSUBSCRIBE" "START"))])).
Proof.
  destruct (put_config_changes_first_with_id sampleStore "1700000000000"
              JUndefined (JStr "STOP,UNSUBSCRIBE") (JStr "")) as (_ & H & _).
  apply (H [] sampleConfig []); [reflexivity|intros x []|reflexivity].
Defined.

Lemma Forall_updateAt {A} (P : A -> Prop) (f : A -> A) i l :
  Forall P l -> (forall x, P x -> P (f x)) -> Forall P (updateAt i f l).
Proof.
  intros H Hf. revert i.
  induction H as [|x l Hx Hl IH]; intros [|i]; simpl; constructor; auto.
Qed.

Lemma orDefault_nonempty v d : d <> "" -> orDefault v d <> "".
Proof.
  intro Hd. unfold orDefault. destruct v as [| |s]; simpl; auto.
  destruct (String.eqb_spec s ""); simpl; auto.
Qed.

(** X19. Through [POST /api/configs], [PUT /api/configs/:id] and
    [DELETE /api/configs/:id] every configuration keeps a number and both
    phrases that are not empty.  The older [POST /api/config/add] does not:
    asked without a number it stores a configuration with the empty
    number. *)
Theorem configs_stay_complete :
  forall (st : Store) (now : Z) (id_ : string) (a b c : jsval),
    Forall CompleteConfig (optoutConfigs st) ->
    Forall CompleteConfig (optoutConfigs (fst (post_api_configs st now a b c)))
    /\ Forall CompleteConfig
              (optoutConfigs (fst (put_api_configs st id_ a b c)))
    /\ Forall CompleteConfig (optoutConfigs (fst (delete_api_configs st id_)))
    /\ ~ Forall CompleteConfig
           (optoutConfigs (fst (post_api_config_add st now JUndefined b c))).
Proof.
  intros st now id_ a b c H. split; [|split; [|split]].
  - unfold post_api_configs. destruct (truthy a) eqn:Ea; simpl; [|exact H].
    apply Forall_app. split; [exact H|]. constructor; [|constructor].
    unfold CompleteConfig. simpl. repeat split.
    + destruct a as [| |s]; try discriminate. simpl in *.
      destruct (String.eqb_spec s ""); [discriminate|assumption].
    + apply orDefault_nonempty. discriminate.
    + apply orDefault_nonempty. discriminate.
  - unfold put_api_configs. destruct (_ =? _)%Z; simpl; [exact H|].
    apply Forall_updateAt; [exact H|].
    intros x (H1 & H2 & H3). unfold CompleteConfig, applyUpdate. simpl.
    repeat split; now apply orDefault_nonempty.
  - unfold delete_api_configs. simpl.
    destruct (_ =? _)%nat; simpl; now apply Forall_filter_keep.
  - unfold post_api_config_add. simpl. intro Hall.
    apply Forall_app in Hall. destruct Hall as [_ Hlast].
    inversion_clear Hlast as [|? ? (Hn & _) _]. apply Hn. reflexivity.
Qed.

Lemma configs_stay_complete_witness :
  Forall CompleteConfig (optoutConfigs sampleStore) /\
  Forall CompleteConfig
    (optoutConfigs (fst (put_api_configs sampleStore "1700000000000"
                           (JStr "") (JStr "") (JStr "GO")))).
Proof.
  assert (Forall CompleteConfig (optoutConfigs sampleStore)) as H.
  { repeat constructor; discriminate. }
  split; [exact H|].
  exact (proj1 (proj2 (configs_stay_complete sampleStore 0 "1700000000000"
                         (JStr "") (JStr "") (JStr "GO") H))).
Defined.

Lemma normalizeNumber_orDefault v :
  normalizeNumber (JStr (orDefault v "")) = normalizeNumber v.
Proof.
  destruct v as [| |s]; try reflexivity.
  unfold orDefault. simpl. now destruct (String.eqb_spec s ""); subst.
Qed.

Lemma inboundOptout_blocks st ts mc x dest :
  isOptedOut (optouts (inboundOptout st ts mc (normalizeNumber x) dest))
             (normalizeNumber x) = true.
Proof.
  unfold inboundOptout.
  destruct (isOptedOut (optouts st) (normalizeNumber x)) eqn:E; simpl;
    [exact E|].
  unfold isOptedOut. rewrite existsb_app. simpl.
  rewrite sameNumber_new. now rewrite orb_true_r.
Qed.

Lemma stop_to_new_config st configs' now' sender dest body newConfig :
  optoutConfigs st = configs' ->
  findConfig configs' (normalizeNumber dest) = Some newConfig ->
  optoutPhrase newConfig = "STOP" ->
  toUpperCase (trim body) = "STOP" ->
  truthy sender = true ->
  let st2 := fst (handleInboundSMS st now'
                    (mkInbound sender JUndefined dest (JStr body) JUndefined))
  in
  OptedOut (optouts st2) (normalizeNumber sender) /\
  history st2 = history st ++
                [mkHistory (normalizeNumber sender) "optout" now' dest
                           (JStr (id newConfig))].
Proof.
  intros Hcfg Hfind Hphrase HT Hs st2. subst st2.
  assert (body <> "") as Hb by (intro E; subst; discriminate).
  assert (inboundText (mkInbound sender JUndefined dest (JStr body) JUndefined)
          = "STOP") as Htext.
  { destruct body as [|ch rest]; [contradiction|exact HT]. }
  rewrite (handleInboundSMS_classified _ _ _ newConfig).
  - rewrite Htext.
    assert (classify newConfig "STOP" = OPTOUT) as ->
        by (unfold classify; rewrite Hphrase; reflexivity).
    cbn [fst msisdn from to]. unfold jsOr. rewrite Hs. split.
    + apply isOptedOut_spec. apply inboundOptout_blocks.
    + unfold inboundOptout.
      now destruct (isOptedOut (optouts st) (normalizeNumber sender)).
  - simpl. unfold jsOr. now rewrite Hs.
  - rewrite Htext. discriminate.
  - simpl. now rewrite Hcfg.
Qed.

(** X20. From configuration to block.  When a number without
    configuration is given one with the default phrases, by
    [POST /api/configs] or by [POST /api/config/add], a later inbound
    message to that number in any spelling whose trimmed, uppercased text
    is STOP opts its sender out and is recorded with the id of the new
    configuration.  With [/api/config/add] this includes a configuration
    without number and messages without destination. *)
Theorem configured_number_opts_out_on_stop :
  forall (st : Store) (now now' : Z) (number sender dest : jsval)
         (body : string),
    findConfig (optoutConfigs st) (normalizeNumber number) = None ->
    normalizeNumber dest = normalizeNumber number ->
    toUpperCase (trim body) = "STOP" ->
    truthy sender = true ->
    let hears st1 :=
      let st2 := fst (handleInboundSMS st1 now'
                        (mkInbound sender JUndefined dest (JStr body)
                                   JUndefined)) in
      OptedOut (optouts st2) (normalizeNumber sender) /\
      history st2 = history st ++
                    [mkHistory (normalizeNumber sender) "optout" now' dest
                               (JStr (dateNowString now))] in
    (truthy number = true ->
     hears (fst (post_api_configs st now number JUndefined JUndefined))) /\
    hears (fst (post_api_config_add st now number JUndefined JUndefined)).
Proof.
  intros st now now' number sender dest body Hnone Hdest HT Hs hears.
  subst hears. cbv beta. split.
  - intro Hn. unfold post_api_configs. rewrite Hn. simpl fst.
    assert (findConfig
              (optoutConfigs st ++
               [mkConfig (dateNowString now) (strOf number) "STOP" "START"])
              (normalizeNumber dest)
            = Some (mkConfig (dateNowString now) (strOf number) "STOP"
                             "START")) as Hfind.
    { rewrite findConfig_app, Hdest, Hnone. unfold findConfig. simpl.
      destruct number as [| |s]; try discriminate. simpl.
      now rewrite String.eqb_refl. }
    destruct (stop_to_new_config
                (writeConfigs st
                   (optoutConfigs st ++
                    [mkConfig (dateNowString now) (strOf number) "STOP"
                              "START"]))
                _ now' sender dest body _ eq_refl Hfind eq_refl HT Hs)
      as [H1 H2].
    split; [exact H1|exact H2].
  - unfold post_api_config_add. simpl fst.
    assert (findConfig
              (optoutConfigs st ++
               [mkConfig (dateNowString now) (orDefault number "") "STOP"
                         "START"])
              (normalizeNumber dest)
            = Some (mkConfig (dateNowString now) (orDefault number "") "STOP"
                             "START")) as Hfind.
    { rewrite findConfig_app, Hdest, Hnone. unfold findConfig. simpl.
      now rewrite normalizeNumber_orDefault, String.eqb_refl. }
    destruct (stop_to_new_config
                (writeConfigs st
                   (optoutConfigs st ++
                    [mkConfig (dateNowString now) (orDefault number "") "STOP"
                              "START"]))
                _ now' sender dest body _ eq_refl Hfind eq_refl HT Hs)
      as [H1 H2].
    split; [exact H1|exact H2].
Qed.

Lemma configured_number_opts_out_on_stop_witness :
  OptedOut
    (optouts
       (fst (handleInboundSMS
               (fst (post_api_config_add sampleStore 1700000001000
                                         JUndefined JUndefined JUndefined))
               1700000002000
               (mkInbound (JStr "447700900000") JUndefined JUndefined
                          (JStr " stop ") JUndefined))))
    "447700900000".
Proof.
  destruct (configured_number_opts_out_on_stop sampleStore 1700000001000
              1700000002000 JUndefined (JStr "447700900000") JUndefined
              " stop " eq_refl eq_refl eq_refl eq_refl) as [_ [H _]].
  exact H.
Defined.

(** ** Custom senders *)

Lemma allAlnum_spec s :
  allAlnum s = true <->
  forall c, In c (list_ascii_of_string s) -> isAlnum c = true.
Proof.
  induction s as [|a s IH]; simpl.
  - split; [intros _ c []|reflexivity].
  - rewrite andb_true_iff, IH. split.
    + intros [Ha Hs] c [<-|Hc]; auto.
    + intro H. split; [apply H; now left|intros c Hc; apply H; now right].
Qed.

Lemma validSenderId_spec s : validSenderId s = true <-> ValidSenderId s.
Proof.
  unfold validSenderId, ValidSenderId.
  rewrite !andb_true_iff, !Nat.leb_le, allAlnum_spec. tauto.
Qed.

Lemma senderExists_spec customSenders senderId :
  senderExists customSenders senderId = true <->
  In (toLowerCase senderId)
     (map (fun s => toLowerCase (Sender.senderId s)) customSenders).
Proof.
  unfold senderExists. rewrite existsb_exists, in_map_iff.
  split; intros (s & H1 & H2).
  - apply String.eqb_eq in H2. eauto.
  - exists s. split; [exact H2|]. now apply String.eqb_eq.
Qed.

Lemma NoDup_app_last {A} (l : list A) x :
  NoDup l -> ~ In x l -> NoDup (l ++ [x]).
Proof.
  induction 1 as [|y l Hy Hl IH]; simpl; intro Hx.
  - constructor; [intros []|constructor].
  - constructor.
    + intro Hin. apply in_app_or in Hin. destruct Hin as [Hin|[<-|[]]]; tauto.
    + apply IH. tauto.
Qed.

Lemma SendersOk_add customSenders s :
  SendersOk customSenders ->
  validSenderId (Sender.senderId s) = true ->
  senderExists customSenders (Sender.senderId s) = false ->
  SendersOk (customSenders ++ [s]).
Proof.
  intros [Hv Hn] Hs He. split.
  - apply Forall_app. split; [exact Hv|].
    constructor; [now apply validSenderId_spec|constructor].
  - rewrite map_app. simpl. apply NoDup_app_last; [exact Hn|].
    intro Hin. apply senderExists_spec in Hin. congruence.
Qed.

(** X21. [POST /api/senders] stores a sender exactly when the id is given,
    is made of 3 to 11 letters and digits and is not there yet in any
    case; then it appends it with the description or the empty one.
    Otherwise it answers 400 and the array is as it was. *)
Theorem sender_added_iff_valid_and_new :
  forall (customSenders : list Sender.t) (now : Z) (senderId : string)
         (description : jsval),
    let result :=
      post_api_senders customSenders now (JStr senderId) description in
    (ValidSenderId senderId /\
     ~ In (toLowerCase senderId)
          (map (fun s => toLowerCase (Sender.senderId s)) customSenders) ->
     result
     = (customSenders ++
        [Sender.mk (dateNowString now) senderId (orDefault description "")
                   now],
        SenderAdded (Sender.mk (dateNowString now) senderId
                               (orDefault description "") now))) /\
    (~ ValidSenderId senderId \/
     In (toLowerCase senderId)
        (map (fun s => toLowerCase (Sender.senderId s)) customSenders) ->
     fst result = customSenders /\
     exists error, snd result = SenderError 400 error).
Proof.
  intros customSenders now senderId description result. subst result.
  unfold post_api_senders.
  destruct (validSenderId senderId) eqn:Ev.
  - assert (truthy (JStr senderId) = true) as Ht.
    { destruct senderId; [discriminate|reflexivity]. }
    rewrite Ht. simpl negb. cbv iota. simpl strOf. rewrite Ev. simpl negb.
    cbv iota.
    destruct (senderExists customSenders senderId) eqn:Ee.
    + apply senderExists_spec in Ee. split; [intros [_ H]; contradiction|].
      intros _. split; [reflexivity|simpl; eauto].
    + split; [reflexivity|].
      intros [H | H].
      * exfalso. apply H. now apply validSenderId_spec.
      * apply senderExists_spec in H. congruence.
  - assert (~ ValidSenderId senderId) as Hinv.
    { intro H. apply validSenderId_spec in H. congruence. }
    split; [intros [H _]; contradiction|]. intros _.
    destruct (truthy (JStr senderId)); simpl; [rewrite Ev; simpl|];
      (split; [reflexivity|eauto]).
Qed.

Lemma sender_added_iff_valid_and_new_witness :
  fst (post_api_senders
         [Sender.mk "1700000000001" "AcmeCorp" "" 1700000000001]
         1700000000002 (JStr "ACMECORP") JUndefined)
  = [Sender.mk "1700000000001" "AcmeCorp" "" 1700000000001].
Proof.
  destruct (sender_added_iff_valid_and_new
              [Sender.mk "1700000000001" "AcmeCorp" "" 1700000000001]
              1700000000002 "ACMECORP" JUndefined) as [_ H].
  apply H. right. left. reflexivity.
Defined.

Lemma senderExists_app customSenders s senderId :
  senderExists (customSenders ++ [s]) senderId
  = senderExists customSenders senderId
    || (toLowerCase (Sender.senderId s) =? toLowerCase senderId).
Proof.
  unfold senderExists. rewrite existsb_app. simpl. now rewrite orb_false_r.
Qed.

(** X22. [POST /api/senders] and [DELETE /api/senders/:id] keep the array
    well formed: ids of 3 to 11 letters and digits, no two equal up to
    case.  Once a sender is added, another [POST /api/senders] with its id
    in any case is answered 400 and changes nothing. *)
Theorem senders_stay_unique :
  forall (customSenders : list Sender.t) (now : Z) (senderId description : jsval)
         (id_ : string),
    SendersOk customSenders ->
    let customSenders' :=
      fst (post_api_senders customSenders now senderId description) in
    SendersOk customSenders'
    /\ SendersOk (fst (delete_api_senders customSenders id_))
    /\ (forall sender now' senderId' description',
           snd (post_api_senders customSenders now senderId description)
           = SenderAdded sender ->
           toLowerCase (strOf senderId')
           = toLowerCase (Sender.senderId sender) ->
           fst (post_api_senders customSenders' now' senderId' description')
           = customSenders' /\
           exists error,
             snd (post_api_senders customSenders' now' senderId' description')
             = SenderError 400 error).
Proof.
  intros customSenders now senderId description id_ Hok customSenders'.
  subst customSenders'. split; [|split].
  - unfold post_api_senders.
    destruct (negb (truthy senderId)); [exact Hok|].
    destruct (validSenderId (strOf senderId)) eqn:Ev; [|exact Hok].
    destruct (senderExists customSenders (strOf senderId)) eqn:Ee;
      [exact Hok|].
    simpl. now apply SendersOk_add.
  - destruct Hok as [Hv Hn]. unfold delete_api_senders.
    assert (SendersOk (filter (fun s => negb (Sender.id s =? id_))
                              customSenders)) as H.
    { split; [now apply Forall_filter_keep|].
      clear Hv. induction customSenders as [|s l IH]; simpl; [constructor|].
      inversion_clear Hn as [|? ? Hnot Hrest].
      destruct (negb (Sender.id s =? id_)); simpl; [|now apply IH].
      constructor; [|now apply IH].
      intro Hin. apply Hnot. apply in_map_iff in Hin.
      destruct Hin as (s' & Heq & Hs'). apply filter_In in Hs'.
      apply in_map_iff. exists s'. tauto. }
    now destruct (_ =? _)%nat.
  - intros sender now' senderId' description' Hadd Hsame.
    assert (fst (post_api_senders customSenders now senderId description)
            = customSenders ++ [sender]) as E.
    { revert Hadd. unfold post_api_senders.
      destruct (negb (truthy senderId)); [discriminate|].
      destruct (negb (validSenderId (strOf senderId))); [discriminate|].
      destruct (senderExists customSenders (strOf senderId));
        [discriminate|].
      cbn [fst snd]. now intros [= <-]. }
    rewrite E. unfold post_api_senders.
    destruct (negb (truthy senderId')); [split; [reflexivity|simpl; eauto]|].
    destruct (negb (validSenderId (strOf senderId')));
      [split; [reflexivity|simpl; eauto]|].
    rewrite senderExists_app, Hsame, String.eqb_refl, orb_true_r.
    split; [reflexivity|simpl; eauto].
Qed.

Lemma senders_stay_unique_witness :
  SendersOk [Sender.mk "1700000000001" "AcmeCorp" "" 1700000000001] /\
  SendersOk
    (fst (post_api_senders
            [Sender.mk "1700000000001" "AcmeCorp" "" 1700000000001]
            1700000000002 (JStr "Vonage42") JUndefined)) /\
  fst (post_api_senders
         (fst (post_api_senders
                 [Sender.mk "1700000000001" "AcmeCorp" "" 1700000000001]
                 1700000000002 (JStr "Vonage42") JUndefined))
         1700000000003 (JStr "VONAGE42") JUndefined)
  = [Sender.mk "1700000000001" "AcmeCorp" "" 1700000000001;
     Sender.mk "1700000000002" "Vonage42" "" 1700000000002].
Proof.
  assert (SendersOk [Sender.mk "1700000000001" "AcmeCorp" ""
                               1700000000001]) as H0.
  { split.
    - constructor; [|constructor]. apply validSenderId_spec. reflexivity.
    - constructor; [intros []|constructor]. }
  split; [exact H0|].
  destruct (senders_stay_unique
              [Sender.mk "1700000000001" "AcmeCorp" "" 1700000000001]
              1700000000002 (JStr "Vonage42") JUndefined "" H0)
    as (Hok & _ & Hagain).
  split; [exact Hok|].
  exact (proj1 (Hagain (Sender.mk "1700000000002" "Vonage42" ""
                                  1700000000002%Z)
                       1700000000003%Z (JStr "VONAGE42") JUndefined
                       eq_refl eq_refl)).
Defined.

(** ** The log buffer *)

Lemma sliceLast_length {A} n (xs : list A) :
  List.length (sliceLast n xs) = Nat.min n (List.length xs).
Proof.
  unfold sliceLast. rewrite length_skipn.
  destruct (Nat.le_ge_cases n (List.length xs)) as [H|H].
  - rewrite Nat.min_l by exact H. lia.
  - rewrite Nat.min_r by exact H. lia.
Qed.

(** X23. The log buffer never holds more than 500 entries: [addLog]
    appends the entry, which is then the last one, and once the buffer is
    full drops the oldest entry and no other.  After [DELETE /api/logs] the
    buffer holds one entry, the notice that the logs were cleared. *)
Theorem log_buffer_is_bounded :
  forall (logs : list Log.entry) (now : Z) (message level : string),
    (List.length logs <= 500)%nat ->
    let logs' := addLog logs now message level in
    List.length logs' = Nat.min 500 (S (List.length logs)) /\
    (exists dropped,
        logs ++ [Log.mk now level message] = dropped ++ logs' /\
        List.length dropped = (S (List.length logs) - 500)%nat) /\
    fst (delete_api_logs logs now)
    = [Log.mk now "info" "Logs cleared"].
Proof.
  intros logs now message level Hle logs'. subst logs'.
  unfold addLog, MAX_LOGS.
  split; [|split; [|reflexivity]].
  - destruct (Nat.ltb_spec 500 (List.length (logs ++ [Log.mk now level message])))
      as [H|H]; rewrite length_app in H; simpl in H.
    + rewrite sliceLast_length, length_app. cbn [List.length].
      now replace (List.length logs + 1)%nat with (S (List.length logs))
        by lia.
    + rewrite length_app. cbn [List.length].
      rewrite Nat.min_r by lia. lia.
  - destruct (Nat.ltb_spec 500 (List.length (logs ++ [Log.mk now level message])))
      as [H|H].
    + unfold sliceLast.
      exists (firstn (List.length (logs ++ [Log.mk now level message]) - 500)
                     (logs ++ [Log.mk now level message])).
      split; [now rewrite firstn_skipn|].
      rewrite length_firstn. rewrite length_app in *. simpl in *. lia.
    + exists []. split; [reflexivity|].
      rewrite length_app in H. simpl in *. lia.
Qed.

Lemma log_buffer_is_bounded_witness :
  List.length (addLog (repeat (Log.mk 0 "info" "x") 500) 1 "Server started"
                      "info") = 500%nat.
Proof.
  destruct (log_buffer_is_bounded (repeat (Log.mk 0 "info" "x") 500) 1
              "Server started" "info") as [H _].
  - rewrite repeat_length. lia.
  - rewrite H, repeat_length. reflexivity.
Defined.

(** ** The storage layer *)

Lemma Key_eqb_refl k : Key_eqb k k = true.
Proof. now destruct k. Qed.

Lemma Key_eqb_neq a b : a <> b -> Key_eqb a b = false.
Proof. destruct a, b; simpl; congruence. Qed.

Lemma setKey_same {A} (table : Key -> A) k v : setKey table k v k = v.
Proof. unfold setKey. now rewrite Key_eqb_refl. Qed.

Lemma setKey_other {A} (table : Key -> A) k k' v :
  k' <> k -> setKey table k v k' = table k'.
Proof. intro H. unfold setKey. now rewrite (Key_eqb_neq k' k H). Qed.

Lemma isNull_false j : isNull j = false <-> j <> JsNull.
Proof. destruct j; simpl; split; congruence. Qed.

Lemma writeData_cache s key data v f k :
  dataCache (fst (writeData s key data v f)) k
  = setKey (dataCache s) key data k.
Proof.
  unfold writeData.
  destruct (vcrState s); [destruct v|]; destruct f; reflexivity.
Qed.

Lemma writeData_files_other s key data v f k :
  k <> key -> files (fst (writeData s key data v f)) k = files s k.
Proof.
  intro H. unfold writeData.
  destruct (vcrState s); [destruct v|]; destruct f; simpl;
    try reflexivity; now apply setKey_other.
Qed.

(** X24. Read your writes.  After [writeJSON(key, data)] with a value
    that is not [null], [readJSON(key)] returns that value, whether the
    writes to the VCR state and to the file went through or not; and
    [readJSON] of another key returns what it returned before. *)
Theorem readJSON_after_writeJSON :
  forall (s : Storage) (env : Env) (key : Key) (data : json)
         (vcrOk fileOk : bool),
    data <> JsNull ->
    readJSON (writeJSON s key data vcrOk fileOk) env key = data /\
    forall k, k <> key ->
              readJSON (writeJSON s key data vcrOk fileOk) env k
              = readJSON s env k.
Proof.
  intros s env key data v f Hd. unfold writeJSON, readJSON. split.
  - rewrite writeData_cache, setKey_same.
    apply isNull_false in Hd. now rewrite Hd.
  - intros k Hk.
    now rewrite writeData_cache, setKey_other, writeData_files_other.
Qed.

Lemma readJSON_after_writeJSON_witness :
  readJSON
    (writeJSON (mkStorage (fun _ => JsNull) None (fun _ => Broken))
               KOptouts (JsArr [JsStr "447700900000"]) true false)
    noEnv KOptouts
  = JsArr [JsStr "447700900000"].
Proof.
  apply readJSON_after_writeJSON. discriminate.
Defined.



Lemma readData_cached s env key :
  dataCache s key <> JsNull -> readData s env key = (s, dataCache s key).
Proof.
  intro H. unfold readData. apply isNull_false in H. now rewrite H.
Qed.

Lemma readData_visible s env key :
  snd (readData s env key) <> JsNull ->
  readJSON (fst (readData s env key)) env key = snd (readData s env key).
Proof.
  unfold readData, readJSON.
  destruct (isNull (dataCache s key)) eqn:En; simpl negb; cbv iota.
  - destruct (vcrState s) as [state|];
      [destruct (state key)|]; destruct (files s key) eqn:Ef;
      cbn [fst snd dataCache files]; intro Hd;
      rewrite ?setKey_same, ?En, ?Ef; cbn [negb];
      try reflexivity;
      apply isNull_false in Hd; now rewrite Hd.
  - simpl. now rewrite En.
Qed.

Lemma readData_other s env key k :
  k <> key -> readJSON (fst (readData s env key)) env k = readJSON s env k.
Proof.
  intros Hk. unfold readData, readJSON.
  destruct (isNull (dataCache s key)); simpl negb; cbv iota;
    [|reflexivity].
  destruct (vcrState s) as [state|];
    [destruct (state key)|]; destruct (files s key); simpl;
    rewrite ?setKey_other by exact Hk; reflexivity.
Qed.

Lemma readData_again s env key :
  snd (readData s env key) <> JsNull ->
  readData (fst (readData s env key)) env key = readData s env key.
Proof.
  destruct (readData s env key) as [s1 d] eqn:E. cbn [fst snd]. intro Hd.
  unfold readData in E.
  destruct (isNull (dataCache s key)) eqn:En; simpl negb in E; cbv iota in E.
  - destruct (vcrState s) as [state|] eqn:Ev;
      [destruct (state key) eqn:Es|]; destruct (files s key) eqn:Ef;
      inversion E; subst; clear E;
      try (rewrite readData_cached; cbn [dataCache];
           rewrite setKey_same; [reflexivity|exact Hd]);
      unfold readData; rewrite ?En, ?Ev, ?Es, ?Ef; reflexivity.
  - inversion E; subst. unfold readData. now rewrite En.
Qed.

(** X26. What [readData] returns, unless it is [null], is what [readJSON]
    returns from then on, and reading again returns it again and changes
    nothing.  Before that [readJSON] does not see the VCR state: with an
    empty cache and no readable file it returns the default whatever the
    VCR state holds. *)
Theorem readData_makes_value_visible :
  forall (s : Storage) (env : Env) (key : Key),
    let s' := fst (readData s env key) in
    let data := snd (readData s env key) in
    (data <> JsNull ->
     readJSON s' env key = data /\ readData s' env key = (s', data)) /\
    (forall k, k <> key -> readJSON s' env k = readJSON s env k) /\
    (dataCache s key = JsNull ->
     (forall value, files s key <> Holds value) ->
     readJSON s env key = defaults env key).
Proof.
  intros s env key s' data. subst s' data.
  split; [|split].
  - intro Hd. split.
    + now apply readData_visible.
    + rewrite readData_again by exact Hd.
      now destruct (readData s env key).
  - intros k Hk. now apply readData_other.
  - intros Hc Hf. unfold readJSON. rewrite Hc. simpl.
    destruct (files s key) as [|value|]; try reflexivity.
    exfalso. now apply (Hf value).
Qed.

Lemma readData_makes_value_visible_witness :
  let s := mkStorage (fun _ => JsNull)
                     (Some (fun _ => Holds (JsArr [JsStr "447700900000"])))
                     (fun _ => Missing) in
  readJSON s noEnv KOptouts = JsArr [] /\
  readJSON (fst (readData s noEnv KOptouts)) noEnv KOptouts
  = JsArr [JsStr "447700900000"].
Proof.
  intro s.
  destruct (readData_makes_value_visible s noEnv KOptouts) as (H1 & _ & H3).
  split.
  - apply H3; [reflexivity|discriminate].
  - apply H1. discriminate.
Defined.


Lemma writeData_read s env key data v f :
  data <> JsNull -> readJSON (fst (writeData s key data v f)) env key = data.
Proof.
  intro Hd. unfold readJSON. rewrite writeData_cache, setKey_same.
  apply isNull_false in Hd. now rewrite Hd.
Qed.

Lemma writeData_other s env key data v f k :
  k <> key ->
  readJSON (fst (writeData s key data v f)) env k = readJSON s env k.
Proof.
  intro Hk. unfold readJSON.
  now rewrite writeData_cache, setKey_other, writeData_files_other.
Qed.

Lemma initKey_result env oks key bad value s :
  value <> JsNull ->
  (forall data, bad data = false -> data <> JsNull) ->
  readJSON (initKey env oks key bad value s) env key = value \/
  bad (readJSON (initKey env oks key bad value s) env key) = false.
Proof.
  intros Hv Hbad. unfold initKey.
  pose proof (readData_visible s env key) as Hvis.
  destruct (readData s env key) as [s1 data]. simpl in Hvis.
  destruct (bad data) eqn:Eb.
  - left. now apply writeData_read.
  - right. rewrite Hvis by now apply Hbad. exact Eb.
Qed.

Lemma initKey_other env oks key bad value s k :
  k <> key ->
  readJSON (initKey env oks key bad value s) env k = readJSON s env k.
Proof.
  intro Hk. unfold initKey.
  pose proof (readData_other s env key k Hk) as Hoth.
  destruct (readData s env key) as [s1 data]. simpl in Hoth.
  destruct (bad data).
  - now rewrite writeData_other.
  - exact Hoth.
Qed.

Lemma truthy_not_null j : jsonTruthy j = true -> j <> JsNull.
Proof. intros H ->. discriminate. Qed.

Lemma defaultCredentials_truthy env : jsonTruthy (defaultCredentials env) = true.
Proof. unfold defaultCredentials. now destruct (_ && _). Qed.

(** X27. After [initializeStorage], whatever the cache, the VCR state and
    the files held and whichever writes failed, [readJSON] returns a
    truthy value for every key, and the configuration it returns has a
    truthy [optoutConfigs]. *)
Theorem initializeStorage_makes_every_key_readable :
  forall (s : Storage) (env : Env) (oks : Key -> bool * bool),
    let s' := initializeStorage s env oks in
    (forall key, jsonTruthy (readJSON s' env key) = true) /\
    lacks "optoutConfigs" (readJSON s' env KConfig) = false.
Proof.
  intros s env oks s'. subst s'. unfold initializeStorage.
  set (badConfig := fun config : json =>
         negb (jsonTruthy config) || lacks "optoutConfigs" config).
  set (badCred := fun credentials : json =>
         negb (jsonTruthy credentials)
         || (lacks "apiKey" credentials && negb (truthy (ENV_API_KEY env)))).
  set (badList := fun l : json => negb (jsonTruthy l)).
  set (s1 := initKey env oks KConfig badConfig defaultConfig s).
  set (s2 := initKey env oks KCredentials badCred (defaultCredentials env) s1).
  set (s3 := initKey env oks KOptouts badList (JsArr []) s2).
  set (s4 := initKey env oks KHistory badList (JsArr []) s3).
  assert (forall data, badConfig data = false -> jsonTruthy data = true) as Bc.
  { intros data H. unfold badConfig in H.
    apply orb_false_iff in H. now apply negb_false_iff, H. }
  assert (forall data, badCred data = false -> jsonTruthy data = true) as Br.
  { intros data H. unfold badCred in H.
    apply orb_false_iff in H. now apply negb_false_iff, H. }
  assert (forall data, badList data = false -> jsonTruthy data = true) as Bl.
  { intros data H. now apply negb_false_iff. }
  assert (readJSON s4 env KConfig = readJSON s1 env KConfig) as E1.
  { unfold s4, s3, s2. now rewrite !initKey_other by discriminate. }
  assert (readJSON s4 env KCredentials = readJSON s2 env KCredentials) as E2.
  { unfold s4, s3. now rewrite !initKey_other by discriminate. }
  assert (readJSON s4 env KOptouts = readJSON s3 env KOptouts) as E3.
  { unfold s4. now rewrite !initKey_other by discriminate. }
  assert (jsonTruthy (readJSON s1 env KConfig) = true /\
          lacks "optoutConfigs" (readJSON s1 env KConfig) = false) as [T1 L1].
  { destruct (initKey_result env oks KConfig badConfig defaultConfig s)
      as [H | H].
    - discriminate.
    - intros data Hd. now apply truthy_not_null, Bc.
    - fold s1 in H. rewrite H. split; reflexivity.
    - fold s1 in H. split; [now apply Bc|].
      unfold badConfig in H. now apply orb_false_iff in H. }
  split; [|now rewrite E1].
  intros [| | |].
  - now rewrite E1.
  - rewrite E2.
    destruct (initKey_result env oks KCredentials badCred
                             (defaultCredentials env) s1) as [H | H].
    + apply truthy_not_null, defaultCredentials_truthy.
    + intros data Hd. now apply truthy_not_null, Br.
    + fold s2 in H. rewrite H. apply defaultCredentials_truthy.
    + fold s2 in H. now apply Br.
  - rewrite E3.
    destruct (initKey_result env oks KOptouts badList (JsArr []) s2)
      as [H | H].
    + discriminate.
    + intros data Hd. now apply truthy_not_null, Bl.
    + fold s3 in H. now rewrite H.
    + fold s3 in H. now apply Bl.
  - destruct (initKey_result env oks KHistory badList (JsArr []) s3)
      as [H | H].
    + discriminate.
    + intros data Hd. now apply truthy_not_null, Bl.
    + fold s4 in H. now rewrite H.
    + fold s4 in H. now apply Bl.
Qed.
